(** * NeuroLinker: the storage layer, the backend selector and the language
    detector

    A shallow embedding of [database.py] (the JSON-file store, the Firestore
    store and [_select_backend]) and, from [main.py], of [detect_language],
    of the test for a save command, of the loops that save the chat of a
    decision and of the payloads the pages pass to the store, followed by
    the properties the specification states about them and by further
    properties of the code.

    Python dictionaries are finite maps from strings to values, JSON arrays
    are lists, exceptions are the [Raise] results of a small error monad, and
    every function that touches a store takes the store and gives back the
    new one.  What the program reads from its surroundings (the clock, a
    fresh uuid, the digest function, the environment variables) is an
    explicit argument. *)

From Stdlib Require Import ZArith QArith Bool List Sorted Permutation Lia.
From Stdlib Require Import PrimFloat Uint63.
From stdpp Require Import base option list gmap strings.

Close Scope Q_scope.
Open Scope Z_scope.

(** ** Python values *)

(** The JSON-representable values the store carries: [None], booleans,
    integers, strings and lists of strings.  A string is held as its UTF-8
    bytes; equality and order of the bytes are equality and order of the
    code points. *)
Inductive val : Type :=
| VNone
| VBool (b : bool)
| VInt (n : Z)
| VStr (s : string)
| VList (l : list string).

#[global] Instance val_eq_dec : EqDecision val.
Proof. solve_decision. Defined.

Abbreviation dict := (gmap string val).

(** [==] of Python: [bool] is a subclass of [int], so [True == 1]. *)
Definition py_eq (a b : val) : bool :=
  match a, b with
  | VNone, VNone => true
  | VBool x, VBool y => Bool.eqb x y
  | VBool x, VInt n | VInt n, VBool x => Z.b2z x =? n
  | VInt n, VInt m => n =? m
  | VStr s, VStr t => String.eqb s t
  | VList l, VList k => bool_decide (l = k)
  | _, _ => false
  end.

(** [bool(x)] of Python, also the test of [if x:] and of [x or y]. *)
Definition truthy (v : val) : bool :=
  match v with
  | VNone => false
  | VBool b => b
  | VInt n => negb (n =? 0)
  | VStr s => negb (String.eqb s "")
  | VList l => match l with [] => false | _ => true end
  end.

(** [x or y]. *)
Definition py_or (x y : val) : val := if truthy x then x else y.

(** [d.get(k, dflt)]; [d.get(k)] is [getd d k VNone]. *)
Definition getd (d : dict) (k : string) (dflt : val) : val :=
  default dflt (d !! k).

(** An optional string argument whose default is [None]. *)
Definition of_opt (o : option string) : val :=
  match o with Some s => VStr s | None => VNone end.

(** ** Exceptions *)

Inductive exn : Type :=
| KeyError (k : string)
| TypeError
| InvalidArgument
| OtherError (msg : string).

Inductive result (A : Type) : Type :=
| Ok (a : A)
| Raise (e : exn).
Arguments Ok {A} a.
Arguments Raise {A} e.

Definition bind {A B : Type} (m : result A) (k : A -> result B) : result B :=
  match m with
  | Ok a => k a
  | Raise e => Raise e
  end.

Notation "'let*' x ':=' m 'in' k" := (bind m (fun x => k))
  (at level 10, x name, m at level 100, k at level 200).

(** [d[k]]: a missing key raises [KeyError]. *)
Definition item (d : dict) (k : string) : result val :=
  match d !! k with
  | Some v => Ok v
  | None => Raise (KeyError k)
  end.

(** A list comprehension [[x for x in l if p(x)]] whose test can raise. *)
Fixpoint filterM {A : Type} (p : A -> result bool) (l : list A)
  : result (list A) :=
  match l with
  | [] => Ok []
  | x :: r =>
      let* b := p x in
      let* r' := filterM p r in
      Ok (if b then x :: r' else r')
  end.

(** A [for] loop that stops at the first element passing the test: the
    position of that element.  The test can raise on the elements before
    it, never on those after it. *)
Fixpoint find_first {A : Type} (p : A -> result bool) (l : list A)
  : result (option nat) :=
  match l with
  | [] => Ok None
  | x :: r =>
      let* b := p x in
      if b then Ok (Some 0%nat)
      else let* o := find_first p r in Ok (S <$> o)
  end.

(** ** Sorting *)

(** [<] of Python on the values above.  Strings compare by code point,
    booleans and integers as numbers, lists lexicographically; any other
    pair is a [TypeError], here [None]. *)
Fixpoint list_ltb (l k : list string) : bool :=
  match l, k with
  | [], [] => false
  | [], _ :: _ => true
  | _ :: _, [] => false
  | x :: l', y :: k' =>
      if String.eqb x y then list_ltb l' k' else String.ltb x y
  end.

Definition num_of (v : val) : option Z :=
  match v with
  | VBool b => Some (Z.b2z b)
  | VInt n => Some n
  | _ => None
  end.

Definition py_lt (a b : val) : option bool :=
  match a, b with
  | VStr s, VStr t => Some (String.ltb s t)
  | VList l, VList k => Some (list_ltb l k)
  | _, _ =>
      match num_of a, num_of b with
      | Some n, Some m => Some (n <? m)
      | _, _ => None
      end
  end.

Definition comparable (a b : val) : bool :=
  match py_lt a b with Some _ => true | None => false end.

Definition py_ltb (a b : val) : bool :=
  match py_lt a b with Some r => r | None => false end.

Section StableSort.
Context {A : Type} (before : A -> A -> bool).

(** [x] stood in front of every element of [l]: it passes the elements
    that come strictly before it and stops at the first that does not. *)
Fixpoint insert_stable (x : A) (l : list A) : list A :=
  match l with
  | [] => [x]
  | y :: r => if before y x then y :: insert_stable x r else x :: y :: r
  end.

Fixpoint stable_sort (l : list A) : list A :=
  match l with
  | [] => []
  | x :: r => insert_stable x (stable_sort r)
  end.
End StableSort.

(** [l.sort(key=key, reverse=reverse)].  The sort is stable in both
    directions.  With two elements or more every key is compared with
    another one, so the keys must be mutually comparable. *)
Definition py_sort {A : Type} (key : A -> val) (reverse : bool) (l : list A)
  : result (list A) :=
  match l with
  | [] | [_] => Ok l
  | x :: r =>
      if forallb (fun y => comparable (key x) (key y)) r
      then Ok (stable_sort
                 (fun a b => if reverse then py_ltb (key b) (key a)
                             else py_ltb (key a) (key b)) l)
      else Raise TypeError
  end.

(** [l[:n]]: a negative [n] counts from the end. *)
Definition slice_to {A : Type} (n : Z) (l : list A) : list A :=
  if n <? 0 then firstn (Z.to_nat (Z.of_nat (length l) + n)) l
  else firstn (Z.to_nat n) l.

(** [sha256_hexdigest s] stands for
    [hashlib.sha256(s.encode()).hexdigest()]; the functions that hash take
    it as an argument. *)
Definition _hash_password (sha256_hexdigest : string -> string)
    (password : string) : string :=
  sha256_hexdigest password.

(** ** The JSON-file store *)

Module Json.

(** The four files of [data/], each a JSON array of objects, as [_init_]
    creates them.  [_load] reads a field, [_save] replaces it; what
    [json.dump] writes of the values above, [json.load] reads back. *)
Record store : Type := {
  users : list dict;
  decisions : list dict;
  chat : list dict;
  preferences : list dict
}.

Definition empty : store :=
  {| users := []; decisions := []; chat := []; preferences := [] |}.

Definition save_users (l : list dict) (s : store) : store :=
  {| users := l; decisions := decisions s; chat := chat s;
     preferences := preferences s |}.
Definition save_decisions (l : list dict) (s : store) : store :=
  {| users := users s; decisions := l; chat := chat s;
     preferences := preferences s |}.
Definition save_chat (l : list dict) (s : store) : store :=
  {| users := users s; decisions := decisions s; chat := l;
     preferences := preferences s |}.
Definition save_preferences (l : list dict) (s : store) : store :=
  {| users := users s; decisions := decisions s; chat := chat s;
     preferences := l |}.

Section Users.
Variable sha256_hexdigest : string -> string.

(** [any(u["email"] == email for u in users)]: stops at the first hit. *)
Fixpoint any_email (email : string) (us : list dict) : result bool :=
  match us with
  | [] => Ok false
  | u :: r =>
      let* e := item u "email" in
      if py_eq e (VStr email) then Ok true else any_email email r
  end.

Definition create_user (email password full_name : string) (now : string)
    (s : store) : result (bool * store) :=
  let us := users s in
  let* dup := any_email email us in
  if dup then Ok (false, s)
  else
    let uid := Z.of_nat (length us) + 1 in
    let us' := us ++ [ <["id" := VInt uid]>
                       (<["email" := VStr email]>
                       (<["password_hash" := VStr (_hash_password sha256_hexdigest password)]>
                       (<["full_name" := VStr full_name]>
                       (<["created_at" := VStr now]> ∅)))) ] in
    let s1 := save_users us' s in
    let ps' := preferences s1 ++
                 [ <["user_id" := VInt uid]>
                   (<["share_data_with_ai" := VBool false]>
                   (<["view_chat_history" := VBool true]> ∅)) ] in
    Ok (true, save_preferences ps' s1).

Fixpoint authenticate_loop (email password : string) (us : list dict)
  : result (option val) :=
  match us with
  | [] => Ok None
  | u :: r =>
      let* e := item u "email" in
      if py_eq e (VStr email) then
        let* h := item u "password_hash" in
        if py_eq h (VStr (_hash_password sha256_hexdigest password)) then
          let* i := item u "id" in Ok (Some i)
        else authenticate_loop email password r
      else authenticate_loop email password r
  end.

Definition authenticate_user (email password : string) (s : store)
  : result (option val) :=
  authenticate_loop email password (users s).
End Users.

(** The test of the loops of [save_decision] and [get_decision],
    [d["id"] == decision_id and d["user_id"] == user_id]: [d["user_id"]] is
    read only when the id matched. *)
Definition decision_matches (decision_id : val) (user_id : Z) (d : dict)
  : result bool :=
  let* i := item d "id" in
  if py_eq i decision_id
  then let* u := item d "user_id" in Ok (py_eq u (VInt user_id))
  else Ok false.

(** The [payload] literal of [save_decision]. *)
Definition decision_payload (decision_id : val) (user_id : Z)
    (decision_data : dict) (now : string) : dict :=
  <["id" := decision_id]>
  (<["user_id" := VInt user_id]>
  (<["title" := getd decision_data "title" VNone]>
  (<["description" := getd decision_data "description" VNone]>
  (<["goal" := getd decision_data "goal" VNone]>
  (<["constraints" := getd decision_data "constraints" (VList [])]>
  (<["alternatives" := getd decision_data "alternatives" (VList [])]>
  (<["final_choice" := getd decision_data "final_choice" VNone]>
  (<["reasoning" := getd decision_data "reasoning" VNone]>
  (<["expected_outcome" := getd decision_data "expected_outcome" VNone]>
  (<["memory_layer" := getd decision_data "memory_layer" (VStr "private")]>
  (<["tags" := getd decision_data "tags" (VList [])]>
  (<["reflection" := getd decision_data "reflection" VNone]>
  (<["outcome_status" := getd decision_data "outcome_status" VNone]>
  (<["created_at" := VStr now]> ∅)))))))))))))).

(** [fresh] is what [_gen_id()] returns when it is called, [now] is
    [datetime.utcnow().isoformat()].  [found.update(payload)] is the union
    that prefers [payload]; a found record holds the key ["id"], so
    [if found:] is the test that the loop found one. *)
Definition save_decision (user_id : Z) (decision_data : dict)
    (fresh now : string) (s : store) : result (val * store) :=
  let ds := decisions s in
  let decision_id := py_or (getd decision_data "id" VNone) (VStr fresh) in
  let* found := find_first (decision_matches decision_id user_id) ds in
  let payload := decision_payload decision_id user_id decision_data now in
  let ds' := match found with
             | Some i => alter (fun d => payload ∪ d) i ds
             | None => payload :: ds
             end in
  Ok (decision_id, save_decisions ds' s).

Definition get_decision (user_id : Z) (decision_id : string) (s : store)
  : result (option dict) :=
  let* found :=
    find_first (decision_matches (VStr decision_id) user_id) (decisions s) in
  Ok (match found with
      | Some i => decisions s !! i
      | None => None
      end).

Definition owned_by (user_id : Z) (d : dict) : result bool :=
  let* u := item d "user_id" in Ok (py_eq u (VInt user_id)).

Definition get_user_decisions (user_id : Z) (limit : option Z) (s : store)
  : result (list dict) :=
  let* ds := filterM (owned_by user_id) (decisions s) in
  let* ds := py_sort (fun x => getd x "created_at" (VStr "")) true ds in
  Ok (match limit with
      | Some n => if n =? 0 then ds else slice_to n ds
      | None => ds
      end).

Definition delete_decision (user_id : Z) (decision_id : string) (s : store)
  : result (bool * store) :=
  let ds := decisions s in
  let* new := filterM (fun d =>
                let* b := decision_matches (VStr decision_id) user_id d in
                Ok (negb b)) ds in
  let changed := negb (length new =? length ds)%nat in
  Ok (changed, if changed then save_decisions new s else s).

Definition save_chat_message (user_id : Z) (user_message ai_response : string)
    (chat_type : string) (decision_id : option string) (is_visible : bool)
    (now : string) (s : store) : result (Z * store) :=
  let cs := chat s in
  let cid := Z.of_nat (length cs) + 1 in
  let cs' := cs ++ [ <["id" := VInt cid]>
                     (<["user_id" := VInt user_id]>
                     (<["decision_id" := of_opt decision_id]>
                     (<["chat_type" := VStr chat_type]>
                     (<["user_message" := VStr user_message]>
                     (<["ai_response" := VStr ai_response]>
                     (<["timestamp" := VStr now]>
                     (<["is_visible_to_user" := VBool is_visible]> ∅))))))) ] in
  Ok (cid, save_chat cs' s).

Definition field_is (k : string) (v : val) (c : dict) : result bool :=
  let* x := item c k in Ok (py_eq x v).

Definition get_chat_history (user_id : Z) (decision_id chat_type : option string)
    (include_hidden : bool) (s : store) : result (list dict) :=
  let* cs := filterM (owned_by user_id) (chat s) in
  let* cs := if truthy (of_opt decision_id)
             then filterM (field_is "decision_id" (of_opt decision_id)) cs
             else Ok cs in
  let* cs := if truthy (of_opt chat_type)
             then filterM (field_is "chat_type" (of_opt chat_type)) cs
             else Ok cs in
  let cs := if negb include_hidden
            then List.filter
                   (fun c => truthy (getd c "is_visible_to_user" (VBool true))) cs
            else cs in
  py_sort (fun x => getd x "timestamp" VNone) false cs.

Definition get_chat_history_for_decision (user_id : Z) (decision_id : string)
    (s : store) : result (list dict) :=
  get_chat_history user_id (Some decision_id) None true s.

(** The two flags as [get_user_preferences] returns them. *)
Definition prefs_view (share view : bool) : dict :=
  <["share_data_with_ai" := VBool share]>
  (<["view_chat_history" := VBool view]> ∅).

Definition get_user_preferences (user_id : Z) (s : store) : result dict :=
  let* found := find_first (owned_by user_id) (preferences s) in
  Ok (match found ≫= (fun i => preferences s !! i) with
      | Some p =>
          prefs_view (truthy (getd p "share_data_with_ai" (VBool false)))
                     (truthy (getd p "view_chat_history" (VBool true)))
      | None => prefs_view false true
      end).

Definition update_prefs_record (prefs p : dict) : dict :=
  <["view_chat_history" :=
      VBool (truthy (getd prefs "view_chat_history"
                       (getd p "view_chat_history" (VBool true))))]>
  (<["share_data_with_ai" :=
      VBool (truthy (getd prefs "share_data_with_ai"
                       (getd p "share_data_with_ai" (VBool false))))]> p).

Definition update_user_preferences (user_id : Z) (prefs : dict) (s : store)
  : result (bool * store) :=
  let ps := preferences s in
  let* found := find_first (owned_by user_id) ps in
  match found with
  | Some i =>
      Ok (true, save_preferences (alter (update_prefs_record prefs) i ps) s)
  | None =>
      let p := <["user_id" := VInt user_id]>
               (<["share_data_with_ai" :=
                   VBool (truthy (getd prefs "share_data_with_ai" (VBool false)))]>
               (<["view_chat_history" :=
                   VBool (truthy (getd prefs "view_chat_history" (VBool true)))]>
                ∅)) in
      Ok (true, save_preferences (ps ++ [p]) s)
  end.

(** The rest of the user functions.  [public_view] is the comprehension
    [{k: v for k, v in u.items() if k != "password_hash"}]. *)
Definition id_is (user_id : Z) (u : dict) : result bool :=
  let* i := item u "id" in Ok (py_eq i (VInt user_id)).

Definition public_view (u : dict) : dict := delete "password_hash" u.

Definition get_user (user_id : Z) (s : store) : result (option dict) :=
  let* found := find_first (id_is user_id) (users s) in
  Ok (public_view <$> (found ≫= (fun i => users s !! i))).

Definition get_user_by_email (email : string) (s : store)
  : result (option dict) :=
  let* found := find_first (field_is "email" (VStr email)) (users s) in
  Ok (public_view <$> (found ≫= (fun i => users s !! i))).

Section Passwords.
Variable sha256_hexdigest : string -> string.

Definition update_user_password (user_id : Z) (new_password : string)
    (s : store) : result (bool * store) :=
  let us := users s in
  let* found := find_first (id_is user_id) us in
  match found with
  | Some i =>
      Ok (true,
          save_users
            (alter (fun u => <["password_hash" :=
                                 VStr (_hash_password sha256_hexdigest new_password)]> u)
                   i us) s)
  | None => Ok (false, s)
  end.
End Passwords.

End Json.

(** ** The Firestore store *)

(** A field of a Firestore document: a value the program wrote, or the
    time the server put in place of [firestore.SERVER_TIMESTAMP]. *)
Inductive fval : Type :=
| FV (v : val)
| FTime (t : Z).

#[global] Instance fval_eq_dec : EqDecision fval.
Proof. solve_decision. Defined.

Abbreviation fdict := (gmap string fval).

(** [x == v] in Python for a field [x] read back with [to_dict()]: a
    timestamp comes back as a [datetime], equal to no value above. *)
Definition fpy_eq (x : fval) (v : val) : bool :=
  match x with
  | FV w => py_eq w v
  | FTime _ => false
  end.

Definition ftruthy (x : fval) : bool :=
  match x with
  | FV w => truthy w
  | FTime _ => true
  end.

(** The order of Firestore on field values: by type first (null, boolean,
    number, timestamp, string, array), then inside the type. *)
Definition fs_rank (x : fval) : Z :=
  match x with
  | FV VNone => 0
  | FV (VBool _) => 1
  | FV (VInt _) => 2
  | FTime _ => 3
  | FV (VStr _) => 4
  | FV (VList _) => 8
  end.

Definition fs_ltb (x y : fval) : bool :=
  match x, y with
  | FV (VBool a), FV (VBool b) => negb a && b
  | FV (VInt n), FV (VInt m) => n <? m
  | FTime t, FTime u => t <? u
  | FV (VStr s), FV (VStr t) => String.ltb s t
  | FV (VList l), FV (VList k) => list_ltb l k
  | _, _ => fs_rank x <? fs_rank y
  end.

Module Firestore.

(** The four collections, each a map from document id to document. *)
Record store : Type := {
  users : gmap string fdict;
  decisions : gmap string fdict;
  chat : gmap string fdict;
  prefs : gmap string fdict
}.

Definition empty : store :=
  {| users := ∅; decisions := ∅; chat := ∅; prefs := ∅ |}.

Definition set_users (c : gmap string fdict) (s : store) : store :=
  {| users := c; decisions := decisions s; chat := chat s; prefs := prefs s |}.
Definition set_decisions (c : gmap string fdict) (s : store) : store :=
  {| users := users s; decisions := c; chat := chat s; prefs := prefs s |}.
Definition set_chat (c : gmap string fdict) (s : store) : store :=
  {| users := users s; decisions := decisions s; chat := c; prefs := prefs s |}.
Definition set_prefs (c : gmap string fdict) (s : store) : store :=
  {| users := users s; decisions := decisions s; chat := chat s; prefs := c |}.

(** *** The client library, as far as the program uses it *)

(** A query is the list of the documents it selects, with their ids; a
    collection yields its documents in the order of their ids.  The
    indexes a query needs are taken to exist, and the syntax of document
    ids is not checked. *)
Definition collection (c : gmap string fdict) : list (string * fdict) :=
  stable_sort (fun a b => String.ltb a.1 b.1) (map_to_list c).

(** [q.where(field, "==", v)]. *)
Definition where_eq (field : string) (v : fval) (q : list (string * fdict))
  : list (string * fdict) :=
  List.filter (fun a => bool_decide (a.2 !! field = Some v)) q.

Definition field_of (field : string) (a : string * fdict) : fval :=
  default (FV VNone) (a.2 !! field).

(** [q.order_by(field)] and [q.order_by(field, direction=DESCENDING)]: a
    document without the field is left out; documents with equal fields
    follow the order of their ids, in the direction of the sort. *)
Definition order_by (field : string) (descending : bool)
    (q : list (string * fdict)) : list (string * fdict) :=
  let q' := List.filter (fun a => bool_decide (is_Some (a.2 !! field))) q in
  if descending
  then stable_sort (fun a b => fs_ltb (field_of field b) (field_of field a))
         (rev q')
  else stable_sort (fun a b => fs_ltb (field_of field a) (field_of field b)) q'.

(** [q.limit(n)]; the server refuses a negative [n]. *)
Definition limit (n : Z) (q : list (string * fdict))
  : result (list (string * fdict)) :=
  if n <? 0 then Raise InvalidArgument else Ok (firstn (Z.to_nat n) q).

(** [ref.set(data)] and [ref.set(data, merge=True)]. *)
Definition doc_set (id : string) (data : fdict) (c : gmap string fdict)
  : gmap string fdict :=
  <[id := data]> c.

Definition doc_set_merge (id : string) (data : fdict) (c : gmap string fdict)
  : gmap string fdict :=
  <[id := data ∪ default ∅ (c !! id)]> c.

(** [{**doc.to_dict(), "id": doc.id}]. *)
Definition with_id (a : string * fdict) : fdict :=
  <["id" := FV (VStr a.1)]> a.2.

(** [collection.document(id)] takes a string. *)
Definition document_id (v : val) : result string :=
  match v with
  | VStr s => Ok s
  | _ => Raise TypeError
  end.

(** *** The manager *)

Section Users.
Variable sha256_hexdigest : string -> string.

(** [fresh] is the id [self.users.document()] draws, [now] the time of the
    server. *)
Definition create_user (email password full_name : string)
    (fresh : string) (now : Z) (s : store) : result (bool * store) :=
  let* q := limit 1 (where_eq "email" (FV (VStr email)) (collection (users s))) in
  match q with
  | _ :: _ => Ok (false, s)
  | [] =>
      let doc : fdict :=
        <["email" := FV (VStr email)]>
        (<["password_hash" := FV (VStr (_hash_password sha256_hexdigest password))]>
        (<["full_name" := FV (VStr full_name)]>
        (<["created_at" := FTime now]> ∅))) in
      let s1 := set_users (doc_set fresh doc (users s)) s in
      let uid := fresh in
      let p : fdict :=
        <["user_id" := FV (VStr uid)]>
        (<["share_data_with_ai" := FV (VBool false)]>
        (<["view_chat_history" := FV (VBool true)]> ∅)) in
      Ok (true, set_prefs (doc_set uid p (prefs s1)) s1)
  end.

Fixpoint authenticate_loop (password : string) (q : list (string * fdict))
  : option string :=
  match q with
  | [] => None
  | a :: r =>
      if fpy_eq (field_of "password_hash" a)
           (VStr (_hash_password sha256_hexdigest password))
      then Some a.1
      else authenticate_loop password r
  end.

Definition authenticate_user (email password : string) (s : store)
  : result (option string) :=
  let* q := limit 1 (where_eq "email" (FV (VStr email)) (collection (users s))) in
  Ok (authenticate_loop password q).
End Users.

(** The [payload] literal of [save_decision]; it has no ["id"] field. *)
Definition decision_payload (user_id : string) (decision_data : dict)
    (now : Z) : fdict :=
  <["user_id" := FV (VStr user_id)]>
  (<["title" := FV (getd decision_data "title" VNone)]>
  (<["description" := FV (getd decision_data "description" VNone)]>
  (<["goal" := FV (getd decision_data "goal" VNone)]>
  (<["constraints" := FV (getd decision_data "constraints" (VList []))]>
  (<["alternatives" := FV (getd decision_data "alternatives" (VList []))]>
  (<["final_choice" := FV (getd decision_data "final_choice" VNone)]>
  (<["reasoning" := FV (getd decision_data "reasoning" VNone)]>
  (<["expected_outcome" := FV (getd decision_data "expected_outcome" VNone)]>
  (<["memory_layer" := FV (getd decision_data "memory_layer" (VStr "private"))]>
  (<["tags" := FV (getd decision_data "tags" (VList []))]>
  (<["reflection" := FV (getd decision_data "reflection" VNone)]>
  (<["outcome_status" := FV (getd decision_data "outcome_status" VNone)]>
  (<["created_at" := FTime now]> ∅))))))))))))).

Definition save_decision (user_id : string) (decision_data : dict)
    (fresh : string) (now : Z) (s : store) : result (val * store) :=
  let decision_id := py_or (getd decision_data "id" VNone) (VStr fresh) in
  let payload := decision_payload user_id decision_data now in
  let* id := document_id decision_id in
  Ok (decision_id, set_decisions (doc_set_merge id payload (decisions s)) s).

Definition get_decision (user_id decision_id : string) (s : store)
  : option fdict :=
  match decisions s !! decision_id with
  | Some d =>
      if fpy_eq (default (FV VNone) (d !! "user_id")) (VStr user_id)
      then Some (<["id" := FV (VStr decision_id)]> d)
      else None
  | None => None
  end.

Definition get_user_decisions (user_id : string) (lim : option Z) (s : store)
  : result (list fdict) :=
  let q := order_by "created_at" true
             (where_eq "user_id" (FV (VStr user_id)) (collection (decisions s))) in
  let* q := match lim with
            | Some n => if n =? 0 then Ok q else limit n q
            | None => Ok q
            end in
  Ok (map with_id q).

Definition delete_decision (user_id decision_id : string) (s : store)
  : bool * store :=
  match decisions s !! decision_id with
  | Some d =>
      if fpy_eq (default (FV VNone) (d !! "user_id")) (VStr user_id)
      then (true, set_decisions (delete decision_id (decisions s)) s)
      else (false, s)
  | None => (false, s)
  end.

Definition save_chat_message (user_id : string)
    (user_message ai_response : string) (chat_type : string)
    (decision_id : option string) (is_visible : bool)
    (fresh : string) (now : Z) (s : store) : string * store :=
  let payload : fdict :=
    <["user_id" := FV (VStr user_id)]>
    (<["decision_id" := FV (of_opt decision_id)]>
    (<["chat_type" := FV (VStr chat_type)]>
    (<["user_message" := FV (VStr user_message)]>
    (<["ai_response" := FV (VStr ai_response)]>
    (<["timestamp" := FTime now]>
    (<["is_visible_to_user" := FV (VBool is_visible)]> ∅)))))) in
  (fresh, set_chat (doc_set fresh payload (chat s)) s).

Definition get_chat_history (user_id : string)
    (decision_id chat_type : option string) (include_hidden : bool)
    (s : store) : list fdict :=
  let q := where_eq "user_id" (FV (VStr user_id)) (collection (chat s)) in
  let q := if truthy (of_opt decision_id)
           then where_eq "decision_id" (FV (of_opt decision_id)) q else q in
  let q := if truthy (of_opt chat_type)
           then where_eq "chat_type" (FV (of_opt chat_type)) q else q in
  let q := if negb include_hidden
           then where_eq "is_visible_to_user" (FV (VBool true)) q else q in
  map with_id (order_by "timestamp" false q).

Definition get_chat_history_for_decision (user_id decision_id : string)
    (s : store) : list fdict :=
  get_chat_history user_id (Some decision_id) None true s.

Definition fgetd (d : fdict) (k : string) (dflt : val) : fval :=
  default (FV dflt) (d !! k).

Definition get_user_preferences (user_id : string) (s : store) : dict :=
  match prefs s !! user_id with
  | Some d =>
      Json.prefs_view
        (ftruthy (fgetd d "share_data_with_ai" (VBool false)))
        (ftruthy (fgetd d "view_chat_history" (VBool true)))
  | None => Json.prefs_view false true
  end.

Definition update_user_preferences (user_id : string) (preferences : dict)
    (s : store) : bool * store :=
  let data : fdict :=
    <["share_data_with_ai" :=
        FV (VBool (truthy (getd preferences "share_data_with_ai" (VBool false))))]>
    (<["view_chat_history" :=
        FV (VBool (truthy (getd preferences "view_chat_history" (VBool true))))]>
     ∅) in
  (true, set_prefs (doc_set_merge user_id data (prefs s)) s).

(** The rest of the user functions.  [public_doc] is [to_dict()] followed
    by [d.pop("password_hash", None)] and [d["id"] = doc.id]. *)
Definition public_doc (a : string * fdict) : fdict :=
  <["id" := FV (VStr a.1)]> (delete "password_hash" a.2).

Definition get_user (user_id : string) (s : store) : option fdict :=
  match users s !! user_id with
  | Some d => Some (public_doc (user_id, d))
  | None => None
  end.

Definition get_user_by_email (email : string) (s : store)
  : result (option fdict) :=
  let* q := limit 1 (where_eq "email" (FV (VStr email)) (collection (users s))) in
  Ok (match q with
      | a :: _ => Some (public_doc a)
      | [] => None
      end).

Section Passwords.
Variable sha256_hexdigest : string -> string.

(** [doc.update(fields)] writes the fields into the document. *)
Definition update_user_password (user_id : string) (new_password : string)
    (s : store) : bool * store :=
  match users s !! user_id with
  | Some d =>
      (true,
       set_users
         (<[user_id := <["password_hash" :=
                           FV (VStr (_hash_password sha256_hexdigest new_password))]> d]>
            (users s)) s)
  | None => (false, s)
  end.
End Passwords.

End Firestore.

(** ** The backend selector *)

(** What [_select_backend] reads: three environment variables, whether
    [firebase_admin] could be imported, which paths exist, and what the
    call [FirestoreDatabaseManager(cred_path)] does (it returns or it
    raises).  The outcome of the call is left open: the initialiser raises
    when the client cannot be built, and with the initialiser named
    [_init_], as the class has it, the call itself raises [TypeError]. *)
Record environment : Type := {
  FORCE_JSON_DB : option string;
  FIREBASE_KEY_PATH : option string;
  GOOGLE_APPLICATION_CREDENTIALS : option string;
  _fire_imported : bool;
  path_exists : string -> bool;
  firestore_manager : string -> result unit
}.

Inductive backend : Type :=
| JSONDatabaseManager
| FirestoreDatabaseManager (cred_path : string).

(** [try: return FirestoreDatabaseManager(cred_path)] followed by
    [except Exception: pass]: whatever is raised is dropped. *)
Definition try_firestore (env : environment) (cred_path : string)
  : option backend :=
  match firestore_manager env cred_path with
  | Ok _ => Some (FirestoreDatabaseManager cred_path)
  | Raise _ => None
  end.

Definition _select_backend (env : environment) : result backend :=
  if String.eqb (default "0" (FORCE_JSON_DB env)) "1"
  then Ok JSONDatabaseManager
  else
    let cred_path := py_or (of_opt (FIREBASE_KEY_PATH env))
                           (of_opt (GOOGLE_APPLICATION_CREDENTIALS env)) in
    let attempt :=
      match cred_path with
      | VStr p =>
          if truthy cred_path && _fire_imported env && path_exists env p
          then try_firestore env p else None
      | _ => None
      end in
    match attempt with
    | Some b => Ok b
    | None => Ok JSONDatabaseManager
    end.

(** ** The language detector *)

(** A Python string is a sequence of code points. *)
Definition is_devanagari (c : Z) : bool := (0x900 <=? c) && (c <=? 0x97F).

(** [devanagari_count > len(text) * 0.2] as Python computes it, in binary64
    arithmetic, for a length [n] and a count [c]. *)
Definition exceeds_fifth_float (n c : Z) : bool :=
  PrimFloat.ltb
    (PrimFloat.mul (PrimFloat.of_uint63 (Uint63.of_Z n)) 0x1.999999999999ap-3%float)
    (PrimFloat.of_uint63 (Uint63.of_Z c)).

(** The same test in exact arithmetic. *)
Definition exceeds_fifth (n c : Z) : bool :=
  negb (Qle_bool (inject_Z c) (inject_Z n * (2 # 10))%Q).

(** The two tests on every length up to [m] and every count up to the
    length. *)
Definition float_test_agrees (m : nat) : bool :=
  forallb (fun n =>
    forallb (fun c =>
      Bool.eqb (exceeds_fifth_float (Z.of_nat n) (Z.of_nat c))
               (exceeds_fifth (Z.of_nat n) (Z.of_nat c)))
      (seq 0 (S n)))
    (seq 0 (S m)).

(** [detect_language] below reads [len(text) * 0.2] as the exact product.
    The rounded product gives the same answer: the double nearest to 0.2
    lies above 0.2, so the rounded product is not below an integer that is
    at most a fifth of the length, and for the lengths a text can have it
    stays below every integer above that fifth.  [float_test_agrees] runs
    the comparison of the two tests. *)
Definition detect_language (text : list Z) : string :=
  match text with
  | [] => "en"
  | _ =>
      let devanagari_count := length (List.filter is_devanagari text) in
      if exceeds_fifth (Z.of_nat (length text)) (Z.of_nat devanagari_count)
      then "hi" else "en"
  end.

(** ** The page that records a decision *)

(** [str.lower] on a code point, for the texts of the save commands:
    ASCII letters, the space and Devanagari, which has no case. *)
Definition lower_cp (c : Z) : Z :=
  if (0x41 <=? c) && (c <=? 0x5A) then c + 32 else c.

Definition lower (text : list Z) : list Z := map lower_cp text.

(** [text.startswith(prefix)]. *)
Fixpoint startswith (text prefix : list Z) {struct prefix} : bool :=
  match prefix, text with
  | [], _ => true
  | p :: ps, t :: ts => (t =? p) && startswith ts ps
  | _ :: _, [] => false
  end.

Definition text_eqb (a b : list Z) : bool := bool_decide (a = b).

(** The list [save_commands], as code points. *)
Definition cmd_save : list Z := [0x73; 0x61; 0x76; 0x65].
Definition cmd_save_decision : list Z :=
  [0x73; 0x61; 0x76; 0x65; 0x20; 0x64; 0x65; 0x63; 0x69; 0x73; 0x69; 0x6f; 0x6e].
Definition cmd_save_now : list Z := [0x73; 0x61; 0x76; 0x65; 0x20; 0x6e; 0x6f; 0x77].
Definition cmd_save_my_decision : list Z :=
  [0x73; 0x61; 0x76; 0x65; 0x20; 0x6d; 0x79; 0x20; 0x64; 0x65; 0x63; 0x69; 0x73;
   0x69; 0x6f; 0x6e].
Definition cmd_done : list Z := [0x64; 0x6f; 0x6e; 0x65].
Definition cmd_submit : list Z := [0x73; 0x75; 0x62; 0x6d; 0x69; 0x74].
Definition cmd_pura : list Z := [0x92a; 0x942; 0x930; 0x93e].
Definition cmd_save_karo : list Z := [0x73; 0x61; 0x76; 0x65; 0x20; 0x915; 0x930; 0x94b].
Definition cmd_ho_gaya : list Z := [0x939; 0x94b; 0x20; 0x917; 0x92f; 0x93e].

Definition save_commands : list (list Z) :=
  [cmd_save; cmd_save_decision; cmd_save_now; cmd_save_my_decision; cmd_done;
   cmd_submit; cmd_pura; cmd_save_karo; cmd_ho_gaya].

(** [any(user_input_lower == cmd.lower() or
    user_input_lower.startswith(cmd.lower()) for cmd in save_commands)]. *)
Definition is_save_command (user_input_lower : list Z) : bool :=
  existsb (fun cmd => text_eqb user_input_lower (lower cmd) ||
                      startswith user_input_lower (lower cmd))
          save_commands.

(** The five commands that are a prefix of no other one. *)
Definition save_prefixes : list (list Z) :=
  [cmd_save; cmd_done; cmd_submit; cmd_pura; cmd_ho_gaya].

(** A message of [st.session_state.decision_chat]: the dict
    [{"role": ..., "content": ...}]. *)
Record message : Type := { role : string; content : string }.

#[global] Instance message_eq_dec : EqDecision message.
Proof. solve_decision. Defined.

(** [l.index(x)]: the position of the first element equal to [x]. *)
Fixpoint list_index (x : message) (l : list message) : result nat :=
  match l with
  | [] => Raise (OtherError "ValueError")
  | y :: r =>
      if bool_decide (y = x) then Ok 0%nat
      else let* i := list_index x r in Ok (S i)
  end.

Fixpoint mapM {A B : Type} (f : A -> result B) (l : list A) : result (list B) :=
  match l with
  | [] => Ok []
  | x :: r => let* y := f x in let* ys := mapM f r in Ok (y :: ys)
  end.

(** The loop of the save command and of the button at the top of the
    page, over [enumerate(decision_chat)]: the pairs of texts it passes to
    [save_chat_message], in the order of the calls.  The test
    [i + 1 < len(decision_chat)] is the test that [decision_chat[i + 1]]
    exists. *)
Definition exchange_at (decision_chat : list message) (i : nat) (msg : message)
  : option (string * string) :=
  if String.eqb (role msg) "user" then
    match decision_chat !! (i + 1)%nat with
    | Some next_msg =>
        if String.eqb (role next_msg) "assistant"
        then Some (content msg, content next_msg) else None
    | None => None
    end
  else None.

Definition saved_exchanges (decision_chat : list message)
  : list (string * string) :=
  omap id (imap (exchange_at decision_chat) decision_chat).

(** The loop of the button [Save Decision] below the chat, over
    [decision_chat[1:]], which looks the message up again with
    [decision_chat.index(msg)]. *)
Definition indexed_exchange (decision_chat : list message) (msg : message)
  : result (option (string * string)) :=
  if String.eqb (role msg) "user" then
    let* idx := list_index msg decision_chat in
    Ok (match decision_chat !! (idx + 1)%nat with
        | Some ai_msg => Some (content msg, content ai_msg)
        | None => None
        end)
  else Ok None.

Definition indexed_exchanges (decision_chat : list message)
  : result (list (string * string)) :=
  let* l := mapM (indexed_exchange decision_chat) (drop 1 decision_chat) in
  Ok (omap id l).

(** The chat as the page builds it: the opening message of the assistant,
    then each input of the user followed by the reply. *)
Definition user_msg (c : string) : message := {| role := "user"; content := c |}.
Definition assistant_msg (c : string) : message :=
  {| role := "assistant"; content := c |}.

Fixpoint transcript (exchanges : list (string * string)) : list message :=
  match exchanges with
  | [] => []
  | (u, a) :: r => user_msg u :: assistant_msg a :: transcript r
  end.

Definition chat_of (opening : string) (exchanges : list (string * string))
  : list message :=
  assistant_msg opening :: transcript exchanges.

(** The reply to the first input with the text [u]. *)
Fixpoint first_reply (u : string) (exchanges : list (string * string))
    (dflt : string) : string :=
  match exchanges with
  | [] => dflt
  | (u', a) :: r => if String.eqb u' u then a else first_reply u r dflt
  end.

(** ** The settings page and the analytics page *)

(** The payload of the button [Save Preferences] of the settings page:
    both flags, as the two checkboxes give them. *)
Definition settings_payload (share_with_ai view_chat : bool) : dict :=
  <["share_data_with_ai" := VBool share_with_ai]>
  (<["view_chat_history" := VBool view_chat]> ∅).

(** The [decision_data] literal of the save paths of the page: eight
    fields from what the recorder collected, a private memory layer and
    the status [pending].  It holds no ["id"]. *)
Definition page_decision_data
    (title description goal constraints alternatives : val)
    (final_choice reasoning expected_outcome : val) : dict :=
  <["title" := title]>
  (<["description" := description]>
  (<["goal" := goal]>
  (<["constraints" := constraints]>
  (<["alternatives" := alternatives]>
  (<["final_choice" := final_choice]>
  (<["reasoning" := reasoning]>
  (<["expected_outcome" := expected_outcome]>
  (<["memory_layer" := VStr "private"]>
  (<["outcome_status" := VStr "pending"]> ∅))))))))).

(** The counters of the analytics page:
    [len([d for d in decisions if d.get('outcome_status') == status])]. *)
Definition count_status (status : string) (decisions : list dict) : nat :=
  length (List.filter
            (fun d => py_eq (getd d "outcome_status" VNone) (VStr status))
            decisions).

(** ** Specification vocabulary *)

(** The credential path the selector tries, when there is one. *)
Definition configured_path (env : environment) : option string :=
  match py_or (of_opt (FIREBASE_KEY_PATH env))
              (of_opt (GOOGLE_APPLICATION_CREDENTIALS env)) with
  | VStr p => if String.eqb p "" then None else Some p
  | _ => None
  end.

Definition raises {A : Type} (r : result A) : Prop :=
  match r with Raise _ => True | Ok _ => False end.

(** The ways in which the remote store cannot be built. *)
Definition remote_fails (env : environment) : Prop :=
  match configured_path env with
  | None => True
  | Some p =>
      _fire_imported env = false \/ path_exists env p = false \/
      raises (firestore_manager env p)
  end.


(** The string under a value, for the fields that hold ISO timestamps. *)
Definition str_of (v : val) : string :=
  match v with VStr t => t | _ => "" end.

Definition is_str (v : val) : Prop := exists t, v = VStr t.

(** Pure readings of the tests of the local store, for records that hold
    the keys the tests read. *)
Definition owner_is (user_id : Z) (d : dict) : bool :=
  py_eq (getd d "user_id" VNone) (VInt user_id).

Definition is_decision (decision_id : val) (user_id : Z) (d : dict) : bool :=
  py_eq (getd d "id" VNone) decision_id && owner_is user_id d.

Definition json_created_at (d : dict) : string :=
  str_of (getd d "created_at" (VStr "")).

Definition json_timestamp (c : dict) : string :=
  str_of (getd c "timestamp" VNone).

(** What [save_decision] leaves in every record of [decisions.json]. *)
Definition json_decision_ok (d : dict) : Prop :=
  is_Some (d !! "id") /\ is_Some (d !! "user_id") /\
  is_str (getd d "created_at" (VStr "")).

(** What [save_chat_message] leaves in every record of [chat.json]. *)
Definition json_chat_ok (c : dict) : Prop :=
  is_Some (c !! "user_id") /\ is_Some (c !! "decision_id") /\
  is_Some (c !! "chat_type") /\ is_str (getd c "timestamp" VNone).

(** Non-increasing and non-decreasing order of ISO timestamps. *)
Definition later_first (key : dict -> string) (a b : dict) : Prop :=
  String.leb (key b) (key a) = true.

Definition earlier_first (key : dict -> string) (a b : dict) : Prop :=
  String.leb (key a) (key b) = true.

(** The decisions of one user, the latest first; records created at the
    same instant keep the order of the file. *)
Definition json_newest_first (user_id : Z) (ds : list dict) : list dict :=
  stable_sort
    (fun a b => String.ltb (json_created_at b) (json_created_at a))
    (List.filter (owner_is user_id) ds).

(** The same vocabulary for the remote store. *)
Definition fs_created_at (d : fdict) : fval :=
  default (FV VNone) (d !! "created_at").

Definition fs_timestamp (d : fdict) : fval :=
  default (FV VNone) (d !! "timestamp").

(** Non-increasing and non-decreasing in the order of Firestore: no
    record is strictly before (after) its predecessor. *)
Definition fs_later_first (key : fdict -> fval) (a b : fdict) : Prop :=
  fs_ltb (key a) (key b) = false.

Definition fs_earlier_first (key : fdict -> fval) (a b : fdict) : Prop :=
  fs_ltb (key b) (key a) = false.

(** What [save_decision] leaves in every document of [decisions]. *)
Definition fs_decisions_ok (s : Firestore.store) : Prop :=
  forall id d, Firestore.decisions s !! id = Some d -> is_Some (d !! "created_at").

(** What [save_chat_message] leaves in every document of [chat_history]. *)
Definition fs_chat_ok (s : Firestore.store) : Prop :=
  forall id d, Firestore.chat s !! id = Some d -> is_Some (d !! "timestamp").

(** The same conditions as tests, to be run on a given store. *)
Definition has_key {V : Type} (k : string) (d : gmap string V) : bool :=
  match d !! k with Some _ => true | None => false end.

Definition is_strb (v : val) : bool :=
  match v with VStr _ => true | _ => false end.

Definition json_decisions_okb (s : Json.store) : bool :=
  forallb (fun d => has_key "id" d && has_key "user_id" d &&
                    is_strb (getd d "created_at" (VStr "")))
          (Json.decisions s).

Definition json_chat_okb (s : Json.store) : bool :=
  forallb (fun c => has_key "user_id" c && has_key "decision_id" c &&
                    has_key "chat_type" c &&
                    is_strb (getd c "timestamp" VNone))
          (Json.chat s).

Definition fs_decisions_okb (s : Firestore.store) : bool :=
  forallb (fun a => has_key "created_at" a.2)
          (Firestore.collection (Firestore.decisions s)).

Definition fs_chat_okb (s : Firestore.store) : bool :=
  forallb (fun a => has_key "timestamp" a.2)
          (Firestore.collection (Firestore.chat s)).

(** Every stored decision was created strictly before [now]. *)
Definition json_all_before (now : string) (s : Json.store) : bool :=
  forallb (fun d => String.ltb (json_created_at d) now) (Json.decisions s).

Definition fs_all_before (now : Z) (s : Firestore.store) : bool :=
  forallb (fun a => fs_ltb (fs_created_at a.2) (FTime now))
          (Firestore.collection (Firestore.decisions s)).


(** A decision with this id is stored, and every stored record with this
    id belongs to [owner]. *)
Definition has_id (decision_id : string) (d : dict) : bool :=
  py_eq (getd d "id" VNone) (VStr decision_id).

Definition json_id_owned_by (decision_id : string) (owner : Z) (s : Json.store)
  : bool :=
  existsb (has_id decision_id) (Json.decisions s) &&
  forallb (fun d => implb (has_id decision_id d) (owner_is owner d))
          (Json.decisions s).

(** The messages [get_chat_history] selects.  An optional argument that is
    [None] or the empty string selects everything. *)
Definition opt_matches (k : string) (o : option string) (c : dict) : bool :=
  match o with
  | Some v => if String.eqb v "" then true else py_eq (getd c k VNone) (VStr v)
  | None => true
  end.

Definition json_chat_selected (user_id : Z) (decision_id chat_type : option string)
    (include_hidden : bool) (c : dict) : bool :=
  owner_is user_id c && opt_matches "decision_id" decision_id c &&
  opt_matches "chat_type" chat_type c &&
  (include_hidden || truthy (getd c "is_visible_to_user" (VBool true))).

Definition fs_opt_matches (k : string) (o : option string) (d : fdict) : bool :=
  match o with
  | Some v => if String.eqb v "" then true
              else bool_decide (d !! k = Some (FV (VStr v)))
  | None => true
  end.

Definition fs_chat_selected (user_id : string)
    (decision_id chat_type : option string) (include_hidden : bool)
    (d : fdict) : bool :=
  bool_decide (d !! "user_id" = Some (FV (VStr user_id))) &&
  fs_opt_matches "decision_id" decision_id d &&
  fs_opt_matches "chat_type" chat_type d &&
  (include_hidden ||
   bool_decide (d !! "is_visible_to_user" = Some (FV (VBool true)))).

(** A user with exactly this email is stored. *)
Definition json_email_taken (email : string) (s : Json.store) : bool :=
  existsb (fun u => py_eq (getd u "email" VNone) (VStr email)) (Json.users s).

Definition fs_email_taken (email : string) (s : Firestore.store) : bool :=
  existsb (fun a => bool_decide (a.2 !! "email" = Some (FV (VStr email))))
          (Firestore.collection (Firestore.users s)).

(** What [create_user] leaves in every record of [users.json]. *)
Definition json_users_okb (s : Json.store) : bool :=
  forallb (fun u => has_key "email" u) (Json.users s).

(** The records [create_user] writes in the local store. *)
Definition json_user_record (uid : Z) (email password_hash full_name now : string)
  : dict :=
  <["id" := VInt uid]>
  (<["email" := VStr email]>
  (<["password_hash" := VStr password_hash]>
  (<["full_name" := VStr full_name]>
  (<["created_at" := VStr now]> ∅)))).

Definition json_default_prefs (uid : Z) : dict :=
  <["user_id" := VInt uid]>
  (<["share_data_with_ai" := VBool false]>
  (<["view_chat_history" := VBool true]> ∅)).

(** The documents [create_user] writes in the remote store. *)
Definition fs_user_doc (email password_hash full_name : string) (now : Z)
  : fdict :=
  <["email" := FV (VStr email)]>
  (<["password_hash" := FV (VStr password_hash)]>
  (<["full_name" := FV (VStr full_name)]>
  (<["created_at" := FTime now]> ∅))).

Definition fs_default_prefs (uid : string) : fdict :=
  <["user_id" := FV (VStr uid)]>
  (<["share_data_with_ai" := FV (VBool false)]>
  (<["view_chat_history" := FV (VBool true)]> ∅)).

(** What the creation paths leave in every record of [preferences.json]. *)
Definition json_prefs_okb (s : Json.store) : bool :=
  forallb (fun p => has_key "user_id" p) (Json.preferences s).

(** A flag after a partial update: the value of the payload when the
    payload holds the key, the value it had otherwise. *)
Definition merged_flag (payload : dict) (k : string) (old : bool) : bool :=
  match payload !! k with
  | Some v => truthy v
  | None => old
  end.

(** The users file as [create_user] builds it: the record at position [i]
    holds the id [i + 1], a string email and a password hash, and no two
    records hold the same email. *)
Fixpoint json_users_numbered (k : Z) (us : list dict) : bool :=
  match us with
  | [] => true
  | u :: r =>
      bool_decide (u !! "id" = Some (VInt k)) &&
      has_key "email" u && is_strb (getd u "email" VNone) &&
      has_key "password_hash" u && json_users_numbered (k + 1) r
  end.

Definition json_emails (us : list dict) : list val :=
  map (fun u => getd u "email" VNone) us.

Definition json_users_built (s : Json.store) : bool :=
  json_users_numbered 1 (Json.users s) &&
  bool_decide (NoDup (json_emails (Json.users s))).

Definition json_chat_record (cid user_id : Z) (decision_id : option string)
    (chat_type user_message ai_response now : string) (is_visible : bool)
  : dict :=
  <["id" := VInt cid]>
  (<["user_id" := VInt user_id]>
  (<["decision_id" := of_opt decision_id]>
  (<["chat_type" := VStr chat_type]>
  (<["user_message" := VStr user_message]>
  (<["ai_response" := VStr ai_response]>
  (<["timestamp" := VStr now]>
  (<["is_visible_to_user" := VBool is_visible]> ∅))))))).

(** No stored message carries a time after [now]. *)
Definition json_chat_not_after (now : string) (s : Json.store) : bool :=
  forallb (fun c => String.leb (json_timestamp c) now) (Json.chat s).

(** The flags [get_user_preferences] reads from the record it found, or
    the defaults when it found none. *)
Definition json_flags_of (o : option dict) : dict :=
  match o with
  | Some p =>
      Json.prefs_view (truthy (getd p "share_data_with_ai" (VBool false)))
                      (truthy (getd p "view_chat_history" (VBool true)))
  | None => Json.prefs_view false true
  end.

(** No stored preferences record belongs to [user_id]. *)
Definition json_no_prefs (user_id : Z) (s : Json.store) : bool :=
  forallb (fun p => negb (owner_is user_id p)) (Json.preferences s).

Definition id_before (a b : string * fdict) : Prop := String.ltb a.1 b.1 = true.

(** The user document [user_id] is the only one with this email. *)
Definition fs_email_only (email user_id : string) (s : Firestore.store) : bool :=
  forallb (fun a => implb (bool_decide (a.2 !! "email" = Some (FV (VStr email))))
                          (String.eqb a.1 user_id))
          (Firestore.collection (Firestore.users s)).

(** The document [save_chat_message] writes in the remote store. *)
Definition fs_chat_doc (user_id : string) (decision_id : option string)
    (chat_type user_message ai_response : string) (now : Z) (is_visible : bool)
  : fdict :=
  <["user_id" := FV (VStr user_id)]>
  (<["decision_id" := FV (of_opt decision_id)]>
  (<["chat_type" := FV (VStr chat_type)]>
  (<["user_message" := FV (VStr user_message)]>
  (<["ai_response" := FV (VStr ai_response)]>
  (<["timestamp" := FTime now]>
  (<["is_visible_to_user" := FV (VBool is_visible)]> ∅)))))).

(** Every stored message was written strictly before [now]. *)
Definition fs_chat_all_before (now : Z) (s : Firestore.store) : bool :=
  forallb (fun a => fs_ltb (fs_timestamp a.2) (FTime now))
          (Firestore.collection (Firestore.chat s)).

(** Every stored decision has the status [pending]. *)
Definition json_all_pending (s : Json.store) : bool :=
  forallb (fun d => py_eq (getd d "outcome_status" VNone) (VStr "pending"))
          (Json.decisions s).
(** ** Sample stores and inputs *)

Definition env_ctor_raises : environment :=
  {| FORCE_JSON_DB := None;
     FIREBASE_KEY_PATH := Some "key.json";
     GOOGLE_APPLICATION_CREDENTIALS := None;
     _fire_imported := true;
     path_exists := fun _ => true;
     firestore_manager := fun _ => Raise TypeError |}.


(** A local store and a remote store after two calls of [save_decision]
    by one user. *)
Definition json_two_decisions : Json.store :=
  Json.save_decisions
    [ Json.decision_payload (VStr "d2") 1 ∅ "2024-01-02T00:00:00";
      Json.decision_payload (VStr "d1") 1 ∅ "2024-01-01T00:00:00" ]
    Json.empty.

Definition fs_two_decisions : Firestore.store :=
  Firestore.set_decisions
    (<["d2" := Firestore.decision_payload "u1" ∅ 2]>
     (<["d1" := Firestore.decision_payload "u1" ∅ 1]> ∅))
    Firestore.empty.

(** A payload that saves the decision ["d1"] again, with a new title. *)
Definition resave_d1 : dict :=
  <["id" := VStr "d1"]> (<["title" := VStr "Move cities"]> ∅).



(** The sample stores with a second user, who owns the decision ["d3"]. *)
Definition json_two_owners : Json.store :=
  Json.save_decisions
    (Json.decision_payload (VStr "d3") 2 ∅ "2024-01-03T00:00:00"
       :: Json.decisions json_two_decisions)
    Json.empty.

Definition fs_two_owners : Firestore.store :=
  Firestore.set_decisions
    (<["d3" := Firestore.decision_payload "u2" ∅ 3]>
       (Firestore.decisions fs_two_decisions))
    Firestore.empty.

(** A local store and a remote store with one message, linked to the
    decision ["d1"]. *)
Definition json_one_message : Json.store :=
  match Json.save_chat_message 1 "Should I move?" "What is your goal?"
          "decision_recording" (Some "d1") true "2024-01-01T00:00:00"
          Json.empty with
  | Ok (_, s) => s
  | Raise _ => Json.empty
  end.

Definition fs_one_message : Firestore.store :=
  (Firestore.save_chat_message "u1" "Should I move?" "What is your goal?"
     "decision_recording" (Some "d1") true "m1" 1 Firestore.empty).2.

(** A stand-in for the digest, to run the user functions on examples. *)
Definition toy_digest (s : string) : string := String.append "sha256:" s.

(** Stores with one user, [a@x.com] with the password [pw1]. *)
Definition json_one_user : Json.store :=
  Json.save_preferences [json_default_prefs 1]
    (Json.save_users
       [json_user_record 1 "a@x.com" (toy_digest "pw1") "A"
          "2024-01-01T00:00:00"]
       Json.empty).

Definition fs_one_user : Firestore.store :=
  Firestore.set_prefs (<["u1" := fs_default_prefs "u1"]> ∅)
    (Firestore.set_users
       (<["u1" := fs_user_doc "a@x.com" (toy_digest "pw1") "A" 1]> ∅)
       Firestore.empty).

(** A user who shares data with the AI and sees the chat history, in both
    stores, and a payload that only turns the chat history off. *)
Definition json_sharing : Json.store :=
  Json.save_preferences
    [ <["user_id" := VInt 1]>
      (<["share_data_with_ai" := VBool true]>
      (<["view_chat_history" := VBool true]> ∅)) ]
    Json.empty.

Definition fs_sharing : Firestore.store :=
  Firestore.set_prefs
    (<["u1" := <["user_id" := FV (VStr "u1")]>
               (<["share_data_with_ai" := FV (VBool true)]>
               (<["view_chat_history" := FV (VBool true)]> ∅))]> ∅)
    Firestore.empty.

Definition hide_history : dict := <["view_chat_history" := VBool false]> ∅.

(** The local store after two users registered. *)
Definition json_two_users : Json.store :=
  Json.save_preferences [json_default_prefs 1; json_default_prefs 2]
    (Json.save_users
       [json_user_record 1 "a@x.com" (toy_digest "pw1") "A"
          "2024-01-01T00:00:00";
        json_user_record 2 "b@x.com" (toy_digest "pw2") "B"
          "2024-01-02T00:00:00"]
       Json.empty).

Definition fs_integer_owner : Firestore.store :=
  Firestore.set_decisions
    (<["d9" := <["user_id" := FV (VInt 1)]> (<["created_at" := FTime 9]> ∅)]> ∅)
    Firestore.empty.

Definition env_two_paths : environment :=
  {| FORCE_JSON_DB := None;
     FIREBASE_KEY_PATH := Some "missing.json";
     GOOGLE_APPLICATION_CREDENTIALS := Some "adc.json";
     _fire_imported := true;
     path_exists := fun p => String.eqb p "adc.json";
     firestore_manager := fun _ => Ok tt |}.
(** * Properties *)

(** ** The language detector *)

Lemma exceeds_fifth_iff (n c : Z) :
  Qle_bool (inject_Z c) (inject_Z n * (2 # 10))%Q = false <->
  (inject_Z n * (20 # 100) < inject_Z c)%Q.
Proof.
  rewrite <- Bool.not_true_iff_false, Qle_bool_iff.
  unfold Qle, Qlt, Qmult, inject_Z; simpl. lia.
Qed.

(** C9. For every text the detector answers ["hi"] exactly when the number
    of code points in U+0900..U+097F is more than 20% of the number of code
    points of the text, and ["en"] in every other case; the empty text is
    one of these. *)
Theorem detect_language_threshold (text : list Z) :
  let n := Z.of_nat (length text) in
  let c := Z.of_nat (length (List.filter is_devanagari text)) in
  (detect_language text = "hi" <-> (inject_Z n * (20 # 100) < inject_Z c)%Q) /\
  (detect_language text <> "hi" -> detect_language text = "en") /\
  detect_language [] = "en".
Proof.
  intros n c. split; [|split; [|reflexivity]].
  - destruct text as [|x r].
    + subst n c. simpl. split; [discriminate|].
      intros H; unfold Qlt in H; simpl in H; lia.
    + unfold detect_language, exceeds_fifth. fold n c.
      rewrite <- exceeds_fifth_iff.
      destruct (Qle_bool _ _); simpl; split; congruence.
  - destruct text as [|x r]; [reflexivity|].
    unfold detect_language.
    destruct (exceeds_fifth _ _); [congruence | reflexivity].
Qed.

(** The same threshold on integers: more than a fifth. *)
Lemma detect_language_hi_iff (text : list Z) :
  detect_language text = "hi" <->
  (length text < 5 * length (List.filter is_devanagari text))%nat.
Proof.
  destruct (detect_language_threshold text) as [H _].
  rewrite H. unfold Qlt, Qmult, inject_Z; simpl. lia.
Qed.

(** The binary64 test of the program and the exact test of the model agree
    on every text of up to 300 code points. *)
Lemma float_test_agrees_300 : float_test_agrees 300 = true.
Proof. vm_compute. reflexivity. Qed.

(** The three texts of the scenario. *)
Example detect_language_hindi :
  detect_language
    [0x92F; 0x939; 0x20; 0x90F; 0x915; 0x20; 0x92A; 0x930; 0x940; 0x915;
     0x94D; 0x937; 0x923; 0x20; 0x939; 0x948] = "hi".
Proof. reflexivity. Qed.

Example detect_language_english :
  detect_language
    [0x74; 0x68; 0x69; 0x73; 0x20; 0x69; 0x73; 0x20; 0x61; 0x20; 0x74;
     0x65; 0x73; 0x74] = "en".
Proof. reflexivity. Qed.

(** One Devanagari code point in five is not more than 20%. *)
Example detect_language_exact_fifth :
  detect_language [0x915; 0x61; 0x62; 0x63; 0x64] = "en".
Proof. reflexivity. Qed.

(** ** The backend selector *)

Lemma select_backend_total (env : environment) :
  exists b, _select_backend env = Ok b.
Proof.
  unfold _select_backend.
  destruct (String.eqb _ "1"); [eauto|].
  destruct (py_or _ _); eauto.
  destruct (_ && _); eauto.
  destruct (try_firestore _ _); eauto.
Qed.

(** C8. With the force-local flag set the selector returns the local file
    store whatever else is configured; without it, when no credential path
    is configured, or the client library is missing, or the path does not
    exist, or the constructor raises, it returns the local file store as
    well.  The result is a returned value, never a raised exception. *)
Theorem select_backend_falls_back (env : environment) :
  FORCE_JSON_DB env = Some "1" \/ remote_fails env ->
  _select_backend env = Ok JSONDatabaseManager.
Proof.
  unfold _select_backend, remote_fails, configured_path.
  intros [Hforce | Hfail].
  - rewrite Hforce. reflexivity.
  - destruct (String.eqb _ "1"); [reflexivity|].
    destruct (py_or _ _) as [| | |p|]; try reflexivity.
    unfold truthy.
    destruct (String.eqb p ""); [reflexivity|]. simpl.
    destruct Hfail as [-> | [-> | Hr]].
    + reflexivity.
    + rewrite andb_false_r. reflexivity.
    + unfold try_firestore.
      destruct (firestore_manager env p); [contradiction|].
      destruct (_ && _); reflexivity.
Qed.

Lemma select_backend_falls_back_witness :
  (FORCE_JSON_DB env_ctor_raises = Some "1" \/ remote_fails env_ctor_raises) /\
  _select_backend env_ctor_raises = Ok JSONDatabaseManager.
Proof.
  assert (H : FORCE_JSON_DB env_ctor_raises = Some "1" \/
              remote_fails env_ctor_raises).
  { right. simpl. right. right. exact I. }
  split; [exact H | exact (select_backend_falls_back env_ctor_raises H)].
Defined.

(** The remote store is chosen only when every condition holds. *)
Lemma select_backend_remote (env : environment) (p : string) :
  _select_backend env = Ok (FirestoreDatabaseManager p) ->
  FORCE_JSON_DB env <> Some "1" /\ configured_path env = Some p /\
  _fire_imported env = true /\ path_exists env p = true /\
  firestore_manager env p = Ok tt.
Proof.
  unfold _select_backend, configured_path.
  destruct (FORCE_JSON_DB env) as [f|] eqn:Hf; simpl.
  - destruct (String.eqb_spec f "1") as [->|Hne]; [discriminate|].
    destruct (py_or _ _) as [| | |q|]; try discriminate.
    unfold truthy. destruct (String.eqb q "") eqn:Hq; simpl; [discriminate|].
    destruct (_fire_imported env); simpl; [|discriminate].
    destruct (path_exists env q) eqn:Hp; simpl; [|discriminate].
    unfold try_firestore.
    destruct (firestore_manager env q) as [[]|] eqn:Hm; [|discriminate].
    intros [= <-]. repeat split; auto. congruence.
  - destruct (py_or _ _) as [| | |q|]; try discriminate.
    unfold truthy. destruct (String.eqb q "") eqn:Hq; simpl; [discriminate|].
    destruct (_fire_imported env); simpl; [|discriminate].
    destruct (path_exists env q) eqn:Hp; simpl; [|discriminate].
    unfold try_firestore.
    destruct (firestore_manager env q) as [[]|] eqn:Hm; [|discriminate].
    intros [= <-]. repeat split; auto.
Qed.

(** ** Auxiliary facts: the error monad and the loops *)

Lemma filterM_pure {A : Type} (p : A -> result bool) (q : A -> bool)
    (l : list A) :
  Forall (fun x => p x = Ok (q x)) l -> filterM p l = Ok (List.filter q l).
Proof.
  induction 1 as [|x r Hx _ IH]; [reflexivity|].
  simpl. rewrite Hx, IH. simpl. reflexivity.
Qed.

(** The loop finds the first element that passes the test, or none. *)
Lemma find_first_pure {A : Type} (p : A -> result bool) (q : A -> bool)
    (l : list A) :
  Forall (fun x => p x = Ok (q x)) l ->
  (exists l1 x l2, l = l1 ++ x :: l2 /\ Forall (fun y => q y = false) l1 /\
                   q x = true /\ find_first p l = Ok (Some (length l1))) \/
  (Forall (fun x => q x = false) l /\ find_first p l = Ok None).
Proof.
  induction 1 as [|x r Hx _ IH].
  - right. split; [constructor | reflexivity].
  - simpl. rewrite Hx. simpl. destruct (q x) eqn:Hq.
    + left. exists [], x, r. repeat split; auto.
    + destruct IH as [(l1 & y & l2 & -> & Hl1 & Hy & Hf) | [Hall Hf]].
      * left. exists (x :: l1), y, l2. rewrite Hf. simpl.
        repeat split; auto.
      * right. rewrite Hf. simpl. split; [|reflexivity].
        constructor; assumption.
Qed.

(** ** Auxiliary facts: the order of strings *)

Lemma string_ltb_asym (a b : string) :
  String.ltb a b = true -> String.ltb b a = false.
Proof.
  unfold String.ltb. rewrite (String.compare_antisym b a).
  destruct (String.compare a b); simpl; congruence.
Qed.

Lemma string_ltb_false_leb (a b : string) :
  String.ltb a b = false <-> String.leb b a = true.
Proof.
  unfold String.ltb, String.leb. rewrite (String.compare_antisym b a).
  destruct (String.compare a b); simpl; split; congruence.
Qed.

Lemma string_leb_trans (a b c : string) :
  String.leb a b = true -> String.leb b c = true -> String.leb a c = true.
Proof.
  intros H1 H2. apply Is_true_true.
  change (String.le a c).
  transitivity b; apply Is_true_true; assumption.
Qed.

(** ** Auxiliary facts: the stable sort *)

Section StableSortFacts.
Context {A : Type} (before : A -> A -> bool).

Lemma insert_stable_perm (x : A) (l : list A) :
  Permutation (insert_stable before x l) (x :: l).
Proof.
  induction l as [|y r IH]; simpl; [reflexivity|].
  destruct (before y x); [|reflexivity].
  rewrite IH. apply perm_swap.
Qed.

Lemma stable_sort_perm (l : list A) : Permutation (stable_sort before l) l.
Proof.
  induction l as [|x r IH]; simpl; [reflexivity|].
  rewrite insert_stable_perm. constructor. exact IH.
Qed.

Hypothesis before_asym : forall a b, before a b = true -> before b a = false.

(** In the result no element is strictly before its predecessor. *)
Lemma insert_stable_sorted (x : A) (l : list A) :
  Sorted (fun a b => before b a = false) l ->
  Sorted (fun a b => before b a = false) (insert_stable before x l).
Proof.
  induction 1 as [|y r Hr IH Hhd]; simpl.
  - repeat constructor.
  - destruct (before y x) eqn:Hyx.
    + constructor; [exact IH|].
      destruct Hhd as [|z r' Hz]; simpl.
      * constructor. apply before_asym. exact Hyx.
      * destruct (before z x); constructor; auto.
    + constructor; [constructor; assumption|]. constructor. exact Hyx.
Qed.

Lemma stable_sort_sorted (l : list A) :
  Sorted (fun a b => before b a = false) (stable_sort before l).
Proof.
  induction l as [|x r IH]; simpl; [constructor|].
  apply insert_stable_sorted. exact IH.
Qed.

(** An element that is strictly before every other one comes out first,
    and the others keep the order they would have without it. *)
Lemma stable_sort_front (l1 l2 : list A) (x : A) :
  (forall y, In y (l1 ++ l2) -> before x y = true) ->
  stable_sort before (l1 ++ x :: l2) = x :: stable_sort before (l1 ++ l2).
Proof.
  induction l1 as [|y r IH]; simpl; intros Hx.
  - assert (Hs : forall y, In y (stable_sort before l2) -> before y x = false).
    { intros y Hy. apply before_asym, Hx.
      eapply Permutation_in; [apply stable_sort_perm | exact Hy]. }
    destruct (stable_sort before l2) as [|z r]; simpl; [reflexivity|].
    rewrite (Hs z); [reflexivity | left; reflexivity].
  - rewrite IH by (intros z Hz; apply Hx; right; exact Hz).
    simpl. rewrite (Hx y); [reflexivity | left; reflexivity].
Qed.
End StableSortFacts.

Lemma insert_stable_ext {A : Type} (f g : A -> A -> bool) (x : A)
    (l : list A) :
  (forall y, In y l -> f y x = g y x) ->
  insert_stable f x l = insert_stable g x l.
Proof.
  induction l as [|y r IH]; intros H; simpl; [reflexivity|].
  rewrite (H y) by (left; reflexivity).
  rewrite IH by (intros z Hz; apply H; right; exact Hz). reflexivity.
Qed.

Lemma stable_sort_ext {A : Type} (f g : A -> A -> bool) (l : list A) :
  (forall a b, In a l -> In b l -> f a b = g a b) ->
  stable_sort f l = stable_sort g l.
Proof.
  induction l as [|x r IH]; intros H; simpl; [reflexivity|].
  rewrite IH by (intros a b Ha Hb; apply H; right; assumption).
  apply insert_stable_ext. intros y Hy. apply H.
  - right. eapply Permutation_in; [apply stable_sort_perm | exact Hy].
  - left. reflexivity.
Qed.

(** Sorting records whose keys are strings never raises. *)
Lemma py_sort_strings {A : Type} (key : A -> val) (reverse : bool)
    (l : list A) :
  Forall (fun x => is_str (key x)) l ->
  py_sort key reverse l =
  Ok (stable_sort
        (fun a b => if reverse then String.ltb (str_of (key b)) (str_of (key a))
                    else String.ltb (str_of (key a)) (str_of (key b))) l).
Proof.
  intros Hl. rewrite Forall_forall in Hl.
  assert (Hsame : forall a b, In a l -> In b l ->
            py_ltb (key a) (key b) = String.ltb (str_of (key a)) (str_of (key b))).
  { intros a b Ha Hb.
    destruct (Hl a) as [s Hs]; [apply list_elem_of_In; exact Ha|].
    destruct (Hl b) as [t Ht]; [apply list_elem_of_In; exact Hb|].
    rewrite Hs, Ht. reflexivity. }
  assert (Hsort :
    stable_sort (fun a b => if reverse then py_ltb (key b) (key a)
                            else py_ltb (key a) (key b)) l =
    stable_sort (fun a b => if reverse
                            then String.ltb (str_of (key b)) (str_of (key a))
                            else String.ltb (str_of (key a)) (str_of (key b))) l).
  { apply stable_sort_ext. intros a b Ha Hb.
    destruct reverse; apply Hsame; assumption. }
  destruct l as [|x [|y r]]; [reflexivity | reflexivity |].
  unfold py_sort.
  replace (forallb _ (y :: r)) with true.
  - f_equal. exact Hsort.
  - symmetry. apply forallb_forall. intros z Hz.
    destruct (Hl x) as [s Hs]; [left|].
    destruct (Hl z) as [t Ht]; [right; apply list_elem_of_In; exact Hz|].
    rewrite Hs, Ht. reflexivity.
Qed.

(** ** The tests on stores and the conditions they decide *)

Lemma has_key_is_Some {V : Type} (k : string) (d : gmap string V) :
  has_key k d = true <-> is_Some (d !! k).
Proof.
  unfold has_key. destruct (d !! k); split; intros H;
    eauto; try discriminate. destruct H; discriminate.
Qed.

Lemma is_strb_is_str (v : val) : is_strb v = true <-> is_str v.
Proof.
  unfold is_str. destruct v; simpl; split; intros H;
    eauto; try discriminate; destruct H; discriminate.
Qed.

Lemma json_decisions_okb_ok (s : Json.store) :
  json_decisions_okb s = true -> Forall json_decision_ok (Json.decisions s).
Proof.
  unfold json_decisions_okb. rewrite forallb_forall, Forall_forall.
  intros H d Hd. apply list_elem_of_In, H in Hd.
  apply andb_true_iff in Hd as [Hd H3]. apply andb_true_iff in Hd as [H1 H2].
  repeat split; try apply has_key_is_Some; try apply is_strb_is_str; assumption.
Qed.

Lemma json_chat_okb_ok (s : Json.store) :
  json_chat_okb s = true -> Forall json_chat_ok (Json.chat s).
Proof.
  unfold json_chat_okb. rewrite forallb_forall, Forall_forall.
  intros H d Hd. apply list_elem_of_In, H in Hd.
  apply andb_true_iff in Hd as [Hd H4]. apply andb_true_iff in Hd as [Hd H3].
  apply andb_true_iff in Hd as [H1 H2].
  repeat split; try apply has_key_is_Some; try apply is_strb_is_str; assumption.
Qed.

Lemma json_all_before_Forall (now : string) (s : Json.store) :
  json_all_before now s = true ->
  Forall (fun d => String.ltb (json_created_at d) now = true) (Json.decisions s).
Proof.
  unfold json_all_before. rewrite forallb_forall, Forall_forall.
  intros H d Hd. apply H, list_elem_of_In, Hd.
Qed.

(** ** The local store: decisions *)

Lemma py_eq_refl (v : val) : py_eq v v = true.
Proof.
  destruct v as [|b|n|s|l]; simpl.
  - reflexivity.
  - destruct b; reflexivity.
  - apply Z.eqb_refl.
  - apply String.eqb_refl.
  - apply bool_decide_eq_true. reflexivity.
Qed.

Lemma json_owned_by_pure (user_id : Z) (d : dict) :
  is_Some (d !! "user_id") -> Json.owned_by user_id d = Ok (owner_is user_id d).
Proof.
  intros [u Hu]. unfold Json.owned_by, item, owner_is, getd.
  rewrite Hu. reflexivity.
Qed.

Lemma json_decision_matches_pure (decision_id : val) (user_id : Z) (d : dict) :
  is_Some (d !! "id") -> is_Some (d !! "user_id") ->
  Json.decision_matches decision_id user_id d =
  Ok (is_decision decision_id user_id d).
Proof.
  intros [i Hi] [u Hu].
  unfold Json.decision_matches, item, is_decision, owner_is, getd.
  rewrite Hi, Hu. simpl. destruct (py_eq i decision_id); reflexivity.
Qed.

Lemma json_matches_all (decision_id : val) (user_id : Z) (ds : list dict) :
  Forall json_decision_ok ds ->
  Forall (fun d => Json.decision_matches decision_id user_id d =
                   Ok (is_decision decision_id user_id d)) ds.
Proof.
  intros H. eapply Forall_impl; [exact H|]. intros d (Hi & Hu & _).
  apply json_decision_matches_pure; assumption.
Qed.

Lemma json_owned_all (user_id : Z) (ds : list dict) :
  Forall json_decision_ok ds ->
  Forall (fun d => Json.owned_by user_id d = Ok (owner_is user_id d)) ds.
Proof.
  intros H. eapply Forall_impl; [exact H|]. intros d (_ & Hu & _).
  apply json_owned_by_pure; assumption.
Qed.

(** The record [save_decision] writes: the payload over what was there. *)
Lemma json_payload_fields (decision_id : val) (user_id : Z) (data : dict)
    (now : string) (old : dict) :
  let r := Json.decision_payload decision_id user_id data now ∪ old in
  r !! "id" = Some decision_id /\ r !! "user_id" = Some (VInt user_id) /\
      r !! "created_at" = Some (VStr now).
Proof.
  repeat split; apply lookup_union_Some_l; reflexivity.
Qed.

Lemma json_payload_ok (decision_id : val) (user_id : Z) (data : dict)
    (now : string) (old : dict) :
  let r := Json.decision_payload decision_id user_id data now ∪ old in
  json_decision_ok r /\ is_decision decision_id user_id r = true /\
      json_created_at r = now.
Proof.
  intros r.
  destruct (json_payload_fields decision_id user_id data now old)
    as (Hi & Hu & Hc). fold r in Hi, Hu, Hc.
  unfold json_decision_ok, is_decision, owner_is, json_created_at, getd.
  rewrite Hi, Hu, Hc. simpl. rewrite py_eq_refl, Z.eqb_refl.
  repeat split; eauto. exists now. reflexivity.
Qed.

(** [save_decision] either overwrites the first record with this id and
    this owner where it stands, or puts a new record in front. *)
Lemma json_save_decision_cases (user_id : Z) (data : dict)
    (fresh now : string) (s : Json.store) :
  Forall json_decision_ok (Json.decisions s) ->
  let id := py_or (getd data "id" VNone) (VStr fresh) in
  let payload := Json.decision_payload id user_id data now in
  (exists l1 d l2,
      Json.decisions s = l1 ++ d :: l2 /\
      Forall (fun y => is_decision id user_id y = false) l1 /\
      is_decision id user_id d = true /\
      Json.save_decision user_id data fresh now s =
      Ok (id, Json.save_decisions (l1 ++ (payload ∪ d) :: l2) s)) \/
  (Forall (fun y => is_decision id user_id y = false) (Json.decisions s) /\
   Json.save_decision user_id data fresh now s =
   Ok (id, Json.save_decisions (payload :: Json.decisions s) s)).
Proof.
  intros Hok id payload. unfold Json.save_decision. fold id. fold payload.
  destruct (find_first_pure _ _ _ (json_matches_all id user_id _ Hok))
    as [(l1 & d & l2 & Hl & Hl1 & Hd & Hf) | [Hall Hf]]; rewrite Hf; simpl.
  - left. exists l1, d, l2. repeat split; auto.
    rewrite Hl. do 3 f_equal.
    rewrite <- (Nat.add_0_r (length l1)). rewrite alter_app_r. reflexivity.
  - right. split; auto.
Qed.

Lemma json_save_decision_ok (user_id : Z) (data : dict)
    (fresh now : string) (s : Json.store) (id : val) (s' : Json.store) :
  Forall json_decision_ok (Json.decisions s) ->
  Json.save_decision user_id data fresh now s = Ok (id, s') ->
  Forall json_decision_ok (Json.decisions s').
Proof.
  intros Hok Hs.
  destruct (json_save_decision_cases user_id data fresh now s Hok)
    as [(l1 & d & l2 & Hl & _ & _ & Hsave) | [_ Hsave]];
    rewrite Hsave in Hs; injection Hs as <- <-; simpl.
  - rewrite Hl in Hok. apply Forall_app in Hok as [H1 H2].
    apply Forall_app. split; [exact H1|].
    inversion H2; subst. constructor; [|assumption].
    apply json_payload_ok.
  - constructor; [|exact Hok].
    rewrite <- (map_union_empty (Json.decision_payload _ _ _ _)).
    apply json_payload_ok.
Qed.

Lemma Sorted_weaken {A : Type} (R S : A -> A -> Prop) (l : list A) :
  (forall a b, R a b -> S a b) -> Sorted R l -> Sorted S l.
Proof.
  intros HRS. induction 1 as [|x r _ IH Hhd]; constructor; [exact IH|].
  destruct Hhd; constructor; auto.
Qed.

Lemma later_first_trans (key : dict -> string) :
  Relations_1.Transitive (later_first key).
Proof.
  intros a b c Hab Hbc. unfold later_first in *.
  eapply string_leb_trans; eassumption.
Qed.

Lemma earlier_first_trans (key : dict -> string) :
  Relations_1.Transitive (earlier_first key).
Proof.
  intros a b c Hab Hbc. unfold earlier_first in *.
  eapply string_leb_trans; eassumption.
Qed.

Lemma json_newest_first_sorted (user_id : Z) (ds : list dict) :
  StronglySorted (later_first json_created_at) (json_newest_first user_id ds).
Proof.
  apply Sorted_StronglySorted; [apply later_first_trans|].
  unfold json_newest_first.
  eapply Sorted_weaken; [|apply stable_sort_sorted].
  - intros a b H. apply string_ltb_false_leb. exact H.
  - intros a b H. apply string_ltb_asym. exact H.
Qed.

Lemma json_newest_first_perm (user_id : Z) (ds : list dict) :
  Permutation (json_newest_first user_id ds) (List.filter (owner_is user_id) ds).
Proof. apply stable_sort_perm. Qed.

Lemma Forall_list_filter {A : Type} (P : A -> Prop) (f : A -> bool)
    (l : list A) :
  Forall P l -> Forall P (List.filter f l).
Proof.
  induction 1 as [|x r Hx _ IH]; simpl; [constructor|].
  destruct (f x); [constructor|]; assumption.
Qed.

(** What [get_user_decisions] returns from a store whose records hold the
    keys it reads. *)
Lemma json_get_user_decisions_eq (user_id : Z) (limit : option Z)
    (s : Json.store) :
  Forall json_decision_ok (Json.decisions s) ->
  Json.get_user_decisions user_id limit s =
  Ok (let l := json_newest_first user_id (Json.decisions s) in
      match limit with
      | Some n => if n =? 0 then l else slice_to n l
      | None => l
      end).
Proof.
  intros Hok. unfold Json.get_user_decisions.
  rewrite (filterM_pure _ _ _ (json_owned_all user_id _ Hok)). simpl.
  rewrite py_sort_strings.
  - reflexivity.
  - apply Forall_list_filter. eapply Forall_impl; [exact Hok|].
    intros d (_ & _ & H). exact H.
Qed.

(** ** The remote store: queries *)

Lemma list_ltb_asym (l k : list string) :
  list_ltb l k = true -> list_ltb k l = false.
Proof.
  revert k. induction l as [|x l IH]; intros [|y k]; simpl; try congruence.
  rewrite (String.eqb_sym y x).
  destruct (String.eqb x y); [apply IH | apply string_ltb_asym].
Qed.

Lemma Z_ltb_asym (n m : Z) : (n <? m) = true -> (m <? n) = false.
Proof. intros H. apply Z.ltb_lt in H. apply Z.ltb_ge. lia. Qed.

Lemma fs_ltb_asym (x y : fval) : fs_ltb x y = true -> fs_ltb y x = false.
Proof.
  destruct x as [[|a|n|s|l]|t], y as [[|b|m|s'|l']|t']; simpl;
    try reflexivity; try discriminate;
    try apply Z_ltb_asym; try apply string_ltb_asym; try apply list_ltb_asym.
  destruct a, b; simpl; congruence.
Qed.

Lemma list_ltb_total (l k : list string) :
  list_ltb l k = false -> list_ltb k l = true \/ l = k.
Proof.
  revert k. induction l as [|x l IH]; intros [|y k]; simpl; auto;
    try discriminate.
  rewrite (String.eqb_sym y x).
  destruct (String.eqb_spec x y) as [->|Hne].
  - intros H. destruct (IH _ H) as [Hlt | ->]; auto.
  - intros H. left. apply string_ltb_false_leb in H.
    unfold String.leb in H. unfold String.ltb.
    destruct (String.compare y x) eqn:Hc; try discriminate; [|reflexivity].
    apply String.compare_eq_iff in Hc. congruence.
Qed.

(** The order of Firestore is total: a value that is not before another
    one is after it or equal to it. *)
Lemma fs_ltb_total (x y : fval) :
  fs_ltb x y = false -> fs_ltb y x = true \/ x = y.
Proof.
  destruct x as [[|a|n|s|l]|t], y as [[|b|m|s'|l']|t']; simpl; auto;
    try discriminate.
  - destruct a, b; simpl; auto; discriminate.
  - intros H. apply Z.ltb_ge in H.
    destruct (Z.eq_dec n m) as [->|Hne]; auto. left. apply Z.ltb_lt. lia.
  - intros H. apply string_ltb_false_leb in H.
    unfold String.leb in H. unfold String.ltb.
    destruct (String.compare s' s) eqn:Hc; try discriminate; auto.
    apply String.compare_eq_iff in Hc. subst. auto.
  - intros H. destruct (list_ltb_total _ _ H) as [Hlt | ->]; auto.
  - intros H. apply Z.ltb_ge in H.
    destruct (Z.eq_dec t t') as [->|Hne]; auto. left. apply Z.ltb_lt. lia.
Qed.

Lemma fs_ltb_timestamps (t u : Z) : fs_ltb (FTime t) (FTime u) = false <-> u <= t.
Proof. simpl. apply Z.ltb_ge. Qed.

Lemma in_collection (c : gmap string fdict) (id : string) (d : fdict) :
  In (id, d) (Firestore.collection c) <-> c !! id = Some d.
Proof.
  unfold Firestore.collection.
  rewrite <- elem_of_map_to_list, list_elem_of_In.
  split; intros H.
  - eapply Permutation_in; [apply stable_sort_perm | exact H].
  - eapply Permutation_in; [symmetry; apply stable_sort_perm | exact H].
Qed.

Lemma NoDup_collection (c : gmap string fdict) :
  List.NoDup (Firestore.collection c).
Proof.
  eapply Permutation_NoDup; [symmetry; apply stable_sort_perm|].
  apply NoDup_ListNoDup, NoDup_map_to_list.
Qed.

Lemma in_where_eq (field : string) (v : fval) (q : list (string * fdict))
    (a : string * fdict) :
  In a (Firestore.where_eq field v q) <-> In a q /\ a.2 !! field = Some v.
Proof.
  unfold Firestore.where_eq. rewrite filter_In, bool_decide_eq_true.
  reflexivity.
Qed.

Lemma NoDup_where_eq (field : string) (v : fval) (q : list (string * fdict)) :
  List.NoDup q -> List.NoDup (Firestore.where_eq field v q).
Proof. apply List.NoDup_filter. Qed.

Lemma in_order_by (field : string) (descending : bool)
    (q : list (string * fdict)) (a : string * fdict) :
  In a (Firestore.order_by field descending q) <->
  In a q /\ is_Some (a.2 !! field).
Proof.
  unfold Firestore.order_by.
  destruct descending.
  - split; intros H.
    + apply (Permutation_in _ (stable_sort_perm _ _)) in H.
      apply in_rev, filter_In in H as [H1 H2].
      apply bool_decide_eq_true in H2. auto.
    + apply (Permutation_in _ (Permutation_sym (stable_sort_perm _ _))).
      apply in_rev. rewrite rev_involutive. apply filter_In.
      rewrite bool_decide_eq_true. exact H.
  - split; intros H.
    + apply (Permutation_in _ (stable_sort_perm _ _)) in H.
      apply filter_In in H as [H1 H2].
      apply bool_decide_eq_true in H2. auto.
    + apply (Permutation_in _ (Permutation_sym (stable_sort_perm _ _))).
      apply filter_In. rewrite bool_decide_eq_true. exact H.
Qed.

Lemma NoDup_order_by (field : string) (descending : bool)
    (q : list (string * fdict)) :
  List.NoDup q -> List.NoDup (Firestore.order_by field descending q).
Proof.
  intros H. unfold Firestore.order_by.
  destruct descending;
    (eapply Permutation_NoDup; [symmetry; apply stable_sort_perm|]).
  - apply NoDup_rev, List.NoDup_filter, H.
  - apply List.NoDup_filter, H.
Qed.

Lemma order_by_sorted (field : string) (descending : bool)
    (q : list (string * fdict)) :
  Sorted (fun a b =>
            if descending
            then fs_ltb (Firestore.field_of field a) (Firestore.field_of field b) = false
            else fs_ltb (Firestore.field_of field b) (Firestore.field_of field a) = false)
         (Firestore.order_by field descending q).
Proof.
  unfold Firestore.order_by. destruct descending.
  - apply (stable_sort_sorted
             (fun a b => fs_ltb (Firestore.field_of field b)
                                (Firestore.field_of field a))).
    intros a b. apply fs_ltb_asym.
  - apply (stable_sort_sorted
             (fun a b => fs_ltb (Firestore.field_of field a)
                                (Firestore.field_of field b))).
    intros a b. apply fs_ltb_asym.
Qed.

Lemma Sorted_map {A B : Type} (f : A -> B) (R : B -> B -> Prop) (l : list A) :
  Sorted (fun a b => R (f a) (f b)) l -> Sorted R (map f l).
Proof.
  induction 1 as [|x r _ IH Hhd]; simpl; constructor; [exact IH|].
  destruct Hhd; simpl; constructor; assumption.
Qed.

Lemma with_id_field (field : string) (a : string * fdict) :
  field <> "id" ->
  Firestore.with_id a !! field = a.2 !! field.
Proof.
  intros H. unfold Firestore.with_id. apply lookup_insert_ne. congruence.
Qed.

Lemma fs_decisions_okb_ok (s : Firestore.store) :
  fs_decisions_okb s = true -> fs_decisions_ok s.
Proof.
  unfold fs_decisions_okb. rewrite forallb_forall.
  intros H id d Hd. apply has_key_is_Some.
  apply (H (id, d)), in_collection, Hd.
Qed.

Lemma fs_chat_okb_ok (s : Firestore.store) :
  fs_chat_okb s = true -> fs_chat_ok s.
Proof.
  unfold fs_chat_okb. rewrite forallb_forall.
  intros H id d Hd. apply has_key_is_Some.
  apply (H (id, d)), in_collection, Hd.
Qed.

Lemma fs_all_before_lookup (now : Z) (s : Firestore.store) :
  fs_all_before now s = true ->
  forall id d, Firestore.decisions s !! id = Some d ->
               fs_ltb (fs_created_at d) (FTime now) = true.
Proof.
  unfold fs_all_before. rewrite forallb_forall.
  intros H id d Hd. apply (H (id, d)), in_collection, Hd.
Qed.

(** ** Listing the decisions of a user *)

Lemma slice_to_positive {A : Type} (n : Z) (l : list A) :
  0 < n -> slice_to n l = firstn (Z.to_nat n) l.
Proof.
  intros Hn. unfold slice_to.
  destruct (n <? 0) eqn:H; [apply Z.ltb_lt in H; lia | reflexivity].
Qed.

Lemma firstn_at_most {A : Type} (n : Z) (l : list A) :
  0 < n -> Z.of_nat (length (firstn (Z.to_nat n) l)) <= n.
Proof.
  intros Hn. pose proof (firstn_le_length (Z.to_nat n) l). lia.
Qed.

(** The listing of the local store. *)
Lemma json_get_user_decisions_spec (user_id : Z) (s : Json.store) :
  Forall json_decision_ok (Json.decisions s) ->
  exists l,
    Json.get_user_decisions user_id None s = Ok l /\
    Permutation l (List.filter (owner_is user_id) (Json.decisions s)) /\
    StronglySorted (later_first json_created_at) l /\
    Json.get_user_decisions user_id (Some 0) s = Ok l /\
    forall n, 0 < n ->
      Json.get_user_decisions user_id (Some n) s = Ok (firstn (Z.to_nat n) l) /\
      Z.of_nat (length (firstn (Z.to_nat n) l)) <= n.
Proof.
  intros Hok. exists (json_newest_first user_id (Json.decisions s)).
  rewrite !json_get_user_decisions_eq by exact Hok. simpl.
  repeat split.
  - apply json_newest_first_perm.
  - apply json_newest_first_sorted.
  - rewrite json_get_user_decisions_eq by exact Hok. simpl.
    destruct (n =? 0) eqn:Hn; [apply Z.eqb_eq in Hn; lia|].
    rewrite slice_to_positive by assumption. reflexivity.
  - apply firstn_at_most. assumption.
Qed.

(** The listing of the remote store. *)
Lemma fs_get_user_decisions_spec (user_id : string) (s : Firestore.store) :
  fs_decisions_ok s ->
  exists q,
    Firestore.get_user_decisions user_id None s = Ok (map Firestore.with_id q) /\
    List.NoDup q /\
    (forall id d, In (id, d) q <->
       Firestore.decisions s !! id = Some d /\
       d !! "user_id" = Some (FV (VStr user_id))) /\
    Sorted (fs_later_first fs_created_at) (map Firestore.with_id q) /\
    Firestore.get_user_decisions user_id (Some 0) s =
      Ok (map Firestore.with_id q) /\
    forall n, 0 < n ->
      Firestore.get_user_decisions user_id (Some n) s =
        Ok (firstn (Z.to_nat n) (map Firestore.with_id q)) /\
      Z.of_nat (length (firstn (Z.to_nat n) (map Firestore.with_id q))) <= n.
Proof.
  intros Hok.
  set (q := Firestore.order_by "created_at" true
              (Firestore.where_eq "user_id" (FV (VStr user_id))
                 (Firestore.collection (Firestore.decisions s)))).
  exists q. repeat split.
  - apply NoDup_order_by, NoDup_where_eq, NoDup_collection.
  - apply in_order_by in H as [H _]. apply in_where_eq in H as [H _].
    apply in_collection in H. exact H.
  - apply in_order_by in H as [H _]. apply in_where_eq in H as [_ H].
    exact H.
  - intros [Hd Hu]. apply in_order_by. split.
    + apply in_where_eq. split; [apply in_collection; exact Hd | exact Hu].
    + simpl. eapply Hok. exact Hd.
  - apply Sorted_map. eapply Sorted_weaken; [|apply order_by_sorted].
    intros a b H. unfold fs_later_first, fs_created_at.
    rewrite !with_id_field by discriminate. exact H.
  - unfold Firestore.get_user_decisions. fold q.
    destruct (n =? 0) eqn:Hn; [apply Z.eqb_eq in Hn; lia|].
    unfold Firestore.limit.
    destruct (n <? 0) eqn:Hn'; [apply Z.ltb_lt in Hn'; lia|].
    simpl. rewrite firstn_map. reflexivity.
  - apply firstn_at_most. assumption.
Qed.

(** C4, as the code has it. In both stores the listing without a limit
    holds exactly the decisions of the user, the latest first; a limit of
    0 is the same as no limit; a positive limit [n] gives the first [n]
    records of that listing, so at most [n] records, the most recent
    ones. *)
Theorem get_user_decisions_newest_first
    (js : Json.store) (ju : Z) (fs : Firestore.store) (fu : string) :
  json_decisions_okb js = true ->
  fs_decisions_okb fs = true ->
  (exists l,
     Json.get_user_decisions ju None js = Ok l /\
     Permutation l (List.filter (owner_is ju) (Json.decisions js)) /\
     StronglySorted (later_first json_created_at) l /\
     Json.get_user_decisions ju (Some 0) js = Ok l /\
     forall n, 0 < n ->
       Json.get_user_decisions ju (Some n) js = Ok (firstn (Z.to_nat n) l) /\
       Z.of_nat (length (firstn (Z.to_nat n) l)) <= n) /\
  (exists q,
     Firestore.get_user_decisions fu None fs = Ok (map Firestore.with_id q) /\
     List.NoDup q /\
     (forall id d, In (id, d) q <->
        Firestore.decisions fs !! id = Some d /\
        d !! "user_id" = Some (FV (VStr fu))) /\
     Sorted (fs_later_first fs_created_at) (map Firestore.with_id q) /\
     Firestore.get_user_decisions fu (Some 0) fs =
       Ok (map Firestore.with_id q) /\
     forall n, 0 < n ->
       Firestore.get_user_decisions fu (Some n) fs =
         Ok (firstn (Z.to_nat n) (map Firestore.with_id q)) /\
       Z.of_nat (length (firstn (Z.to_nat n) (map Firestore.with_id q))) <= n).
Proof.
  intros Hj Hf. split.
  - apply json_get_user_decisions_spec, json_decisions_okb_ok, Hj.
  - apply fs_get_user_decisions_spec, fs_decisions_okb_ok, Hf.
Qed.

Lemma get_user_decisions_newest_first_witness :
  json_decisions_okb json_two_decisions = true /\
  fs_decisions_okb fs_two_decisions = true /\
  (exists l, Json.get_user_decisions 1 (Some 1) json_two_decisions = Ok l /\
             Z.of_nat (length l) <= 1) /\
  (exists l, Firestore.get_user_decisions "u1" (Some 1) fs_two_decisions = Ok l /\
             Z.of_nat (length l) <= 1).
Proof.
  assert (Hj : json_decisions_okb json_two_decisions = true) by reflexivity.
  assert (Hf : fs_decisions_okb fs_two_decisions = true) by reflexivity.
  destruct (get_user_decisions_newest_first
              json_two_decisions 1 fs_two_decisions "u1" Hj Hf)
    as [(l & _ & _ & _ & _ & Hl) (q & _ & _ & _ & _ & _ & Hq)].
  split; [exact Hj|]. split; [exact Hf|]. split.
  - eexists. apply (Hl 1). lia.
  - eexists. apply (Hq 1). lia.
Defined.

Example limit_zero_json :
  match Json.get_user_decisions 1 (Some 0) json_two_decisions with
  | Ok l => Some (length l)
  | Raise _ => None
  end = Some 2%nat.
Proof. vm_compute. reflexivity. Qed.

Example limit_zero_firestore :
  match Firestore.get_user_decisions "u1" (Some 0) fs_two_decisions with
  | Ok l => Some (length l)
  | Raise _ => None
  end = Some 2%nat.
Proof. vm_compute. reflexivity. Qed.

(** C4 as it is written fails for the limit 0: both stores return every
    decision of the user, two records here. *)
Lemma get_user_decisions_limit_zero :
  (exists l, Json.get_user_decisions 1 (Some 0) json_two_decisions = Ok l /\
             ~ Z.of_nat (length l) <= 0) /\
  (exists l, Firestore.get_user_decisions "u1" (Some 0) fs_two_decisions = Ok l /\
             ~ Z.of_nat (length l) <= 0).
Proof.
  split.
  - pose proof limit_zero_json as E.
    destruct (Json.get_user_decisions 1 (Some 0) json_two_decisions) as [l|e];
      [|discriminate].
    exists l. split; [reflexivity|]. injection E as ->. lia.
  - pose proof limit_zero_firestore as E.
    destruct (Firestore.get_user_decisions "u1" (Some 0) fs_two_decisions)
      as [l|e]; [|discriminate].
    exists l. split; [reflexivity|]. injection E as ->. lia.
Qed.

(** ** Saving a decision stamps it with the time of the call *)

Lemma stable_sort_front_in {A : Type} (before : A -> A -> bool)
    (l : list A) (x : A) :
  (forall a b, before a b = true -> before b a = false) ->
  List.NoDup l -> In x l ->
  (forall y, In y l -> y <> x -> before x y = true) ->
  exists rest, stable_sort before l = x :: rest.
Proof.
  intros Hasym Hnd Hin Hx.
  destruct (in_split _ _ Hin) as (l1 & l2 & ->).
  apply NoDup_remove_2 in Hnd.
  eexists. apply stable_sort_front; [exact Hasym|].
  intros y Hy. apply Hx.
  - apply in_app_iff in Hy. apply in_app_iff. simpl. tauto.
  - intros ->. contradiction.
Qed.

Lemma json_newest_first_front (user_id : Z) (l1 l2 : list dict) (r : dict)
    (now : string) :
  owner_is user_id r = true -> json_created_at r = now ->
  Forall (fun d => String.ltb (json_created_at d) now = true) (l1 ++ l2) ->
  json_newest_first user_id (l1 ++ r :: l2) =
  r :: json_newest_first user_id (l1 ++ l2).
Proof.
  intros Hr Hnow Hall. unfold json_newest_first.
  rewrite !List.filter_app. simpl. rewrite Hr.
  apply (stable_sort_front
           (fun a b => String.ltb (json_created_at b) (json_created_at a))).
  - intros a b. apply string_ltb_asym.
  - intros y Hy. rewrite Hnow.
    rewrite <- List.filter_app in Hy. apply filter_In in Hy as [Hy _].
    rewrite Forall_forall in Hall. apply Hall, list_elem_of_In, Hy.
Qed.

(** The local store: the saved record carries the time of the call, stands
    where the record it replaces stood (or in front of the file), and is
    the first of the listing. *)
Lemma json_save_decision_front (user_id : Z) (data : dict)
    (fresh now : string) (s : Json.store) :
  Forall json_decision_ok (Json.decisions s) ->
  Forall (fun d => String.ltb (json_created_at d) now = true) (Json.decisions s) ->
  let id := py_or (getd data "id" VNone) (VStr fresh) in
  exists s' r rest,
    Json.save_decision user_id data fresh now s = Ok (id, s') /\
    (Json.decisions s' = r :: Json.decisions s \/
     exists l1 d l2, Json.decisions s = l1 ++ d :: l2 /\
                     is_decision id user_id d = true /\
                     Json.decisions s' = l1 ++ r :: l2) /\
    r !! "id" = Some id /\ r !! "user_id" = Some (VInt user_id) /\
    r !! "created_at" = Some (VStr now) /\
    Json.get_user_decisions user_id None s' = Ok (r :: rest).
Proof.
  intros Hok Hnow id.
  pose proof (json_save_decision_ok user_id data fresh now s) as Hok'.
  destruct (json_save_decision_cases user_id data fresh now s Hok)
    as [(l1 & d & l2 & Hl & _ & Hd & Hsave) | [_ Hsave]]; fold id in Hsave.
  - set (r := Json.decision_payload id user_id data now ∪ d) in *.
    destruct (json_payload_fields id user_id data now d) as (Hi & Hu & Hc).
    destruct (json_payload_ok id user_id data now d) as (_ & Hm & Ht).
    fold r in Hi, Hu, Hc, Hm, Ht.
    exists (Json.save_decisions (l1 ++ r :: l2) s), r, 
           (json_newest_first user_id (l1 ++ l2)).
    repeat split; auto.
    + right. exists l1, d, l2. auto.
    + rewrite json_get_user_decisions_eq by (eapply Hok'; eauto).
      simpl. f_equal. apply (json_newest_first_front _ _ _ _ now); auto.
      * apply andb_true_iff in Hm. tauto.
      * rewrite Hl in Hnow. apply Forall_app in Hnow as [H1 H2].
        apply Forall_app. split; [exact H1|]. inversion H2; assumption.
  - set (r := Json.decision_payload id user_id data now) in *.
    destruct (json_payload_fields id user_id data now ∅) as (Hi & Hu & Hc).
    destruct (json_payload_ok id user_id data now ∅) as (_ & Hm & Ht).
    rewrite map_union_empty in Hi, Hu, Hc, Hm, Ht.
    fold r in Hi, Hu, Hc, Hm, Ht.
    exists (Json.save_decisions (r :: Json.decisions s) s), r,
           (json_newest_first user_id (Json.decisions s)).
    repeat split; auto.
    rewrite json_get_user_decisions_eq by (eapply Hok'; eauto).
    simpl. f_equal.
    apply (json_newest_first_front user_id [] (Json.decisions s) r now); auto.
    apply andb_true_iff in Hm. tauto.
Qed.

Lemma order_by_desc_front (field : string) (q : list (string * fdict))
    (x : string * fdict) :
  List.NoDup q -> In x q -> is_Some (x.2 !! field) ->
  (forall y, In y q -> y <> x ->
     fs_ltb (Firestore.field_of field y) (Firestore.field_of field x) = true) ->
  exists rest, Firestore.order_by field true q = x :: rest.
Proof.
  intros Hnd Hin Hsome Hx. unfold Firestore.order_by.
  apply stable_sort_front_in.
  - intros a b. apply fs_ltb_asym.
  - apply NoDup_rev, List.NoDup_filter, Hnd.
  - apply in_rev. rewrite rev_involutive. apply filter_In.
    rewrite bool_decide_eq_true. auto.
  - intros y Hy Hne. apply in_rev, filter_In in Hy as [Hy _]. auto.
Qed.

(** The remote store: the same. *)
Lemma fs_save_decision_front (user_id : string) (data : dict)
    (fresh : string) (now : Z) (s : Firestore.store) (id : string) :
  py_or (getd data "id" VNone) (VStr fresh) = VStr id ->
  (forall id' d, Firestore.decisions s !! id' = Some d ->
                 fs_ltb (fs_created_at d) (FTime now) = true) ->
  exists s' r rest,
    Firestore.save_decision user_id data fresh now s = Ok (VStr id, s') /\
    Firestore.decisions s' = <[id := r]> (Firestore.decisions s) /\
    r !! "user_id" = Some (FV (VStr user_id)) /\
    r !! "created_at" = Some (FTime now) /\
    Firestore.get_user_decisions user_id None s' =
      Ok (<["id" := FV (VStr id)]> r :: rest).
Proof.
  intros Hid Hnow.
  set (r := Firestore.decision_payload user_id data now ∪
            default ∅ (Firestore.decisions s !! id)).
  assert (Hu : r !! "user_id" = Some (FV (VStr user_id)))
    by (apply lookup_union_Some_l; reflexivity).
  assert (Hc : r !! "created_at" = Some (FTime now))
    by (apply lookup_union_Some_l; reflexivity).
  set (s' := Firestore.set_decisions (<[id := r]> (Firestore.decisions s)) s).
  destruct (order_by_desc_front "created_at"
              (Firestore.where_eq "user_id" (FV (VStr user_id))
                 (Firestore.collection (Firestore.decisions s')))
              (id, r)) as [rest Hrest].
  - apply NoDup_where_eq, NoDup_collection.
  - apply in_where_eq. split; [|exact Hu].
    apply in_collection. simpl. apply lookup_insert_eq.
  - simpl. rewrite Hc. eauto.
  - intros [id' d] Hy Hne. apply in_where_eq in Hy as [Hy _].
    apply in_collection in Hy. simpl in Hy.
    destruct (decide (id = id')) as [<-|Hneq].
    + rewrite lookup_insert_eq in Hy. congruence.
    + rewrite lookup_insert_ne in Hy by exact Hneq.
      unfold Firestore.field_of. simpl. rewrite Hc. simpl.
      apply (Hnow id' d Hy).
  - exists s', r, (map Firestore.with_id rest).
    unfold Firestore.save_decision. rewrite Hid. simpl.
    repeat split; auto.
    unfold Firestore.get_user_decisions. rewrite Hrest. reflexivity.
Qed.

(** C10. In both stores every call of [save_decision], also one that
    overwrites a stored decision, leaves the record with [created_at] set to
    the time of the call: the time it had before is gone.  When that time is
    later than the creation times in the store, the record is the first of
    the user's listing. *)
Theorem save_decision_stamps_call_time
    (js : Json.store) (ju : Z) (jdata : dict) (jfresh jnow : string)
    (fs : Firestore.store) (fu : string) (fdata : dict) (ffresh : string)
    (fnow : Z) (fid : string) :
  json_decisions_okb js = true ->
  json_all_before jnow js = true ->
  py_or (getd fdata "id" VNone) (VStr ffresh) = VStr fid ->
  fs_all_before fnow fs = true ->
  (let id := py_or (getd jdata "id" VNone) (VStr jfresh) in
   exists s' r rest,
     Json.save_decision ju jdata jfresh jnow js = Ok (id, s') /\
     (Json.decisions s' = r :: Json.decisions js \/
      exists l1 d l2, Json.decisions js = l1 ++ d :: l2 /\
                      is_decision id ju d = true /\
                      Json.decisions s' = l1 ++ r :: l2) /\
     r !! "id" = Some id /\ r !! "user_id" = Some (VInt ju) /\
     r !! "created_at" = Some (VStr jnow) /\
     Json.get_user_decisions ju None s' = Ok (r :: rest)) /\
  (exists s' r rest,
     Firestore.save_decision fu fdata ffresh fnow fs = Ok (VStr fid, s') /\
     Firestore.decisions s' = <[fid := r]> (Firestore.decisions fs) /\
     r !! "user_id" = Some (FV (VStr fu)) /\
     r !! "created_at" = Some (FTime fnow) /\
     Firestore.get_user_decisions fu None s' =
       Ok (<["id" := FV (VStr fid)]> r :: rest)).
Proof.
  intros Hok Hbefore Hid Hfbefore. split.
  - apply json_save_decision_front.
    + apply json_decisions_okb_ok, Hok.
    + apply json_all_before_Forall, Hbefore.
  - apply fs_save_decision_front.
    + exact Hid.
    + apply fs_all_before_lookup, Hfbefore.
Qed.

Lemma save_decision_stamps_call_time_witness :
  json_decisions_okb json_two_decisions = true /\
  json_all_before "2024-01-03T00:00:00" json_two_decisions = true /\
  py_or (getd resave_d1 "id" VNone) (VStr "uuid-3") = VStr "d1" /\
  fs_all_before 3 fs_two_decisions = true /\
  (exists s' r rest,
     Json.save_decision 1 resave_d1 "uuid-3" "2024-01-03T00:00:00"
       json_two_decisions = Ok (VStr "d1", s') /\
     r !! "created_at" = Some (VStr "2024-01-03T00:00:00") /\
     Json.get_user_decisions 1 None s' = Ok (r :: rest)) /\
  (exists s' r rest,
     Firestore.save_decision "u1" resave_d1 "uuid-3" 3 fs_two_decisions =
       Ok (VStr "d1", s') /\
     r !! "created_at" = Some (FTime 3) /\
     Firestore.get_user_decisions "u1" None s' =
       Ok (<["id" := FV (VStr "d1")]> r :: rest)).
Proof.
  assert (H1 : json_decisions_okb json_two_decisions = true) by reflexivity.
  assert (H2 : json_all_before "2024-01-03T00:00:00" json_two_decisions = true)
    by reflexivity.
  assert (H3 : py_or (getd resave_d1 "id" VNone) (VStr "uuid-3") = VStr "d1")
    by reflexivity.
  assert (H4 : fs_all_before 3 fs_two_decisions = true) by reflexivity.
  destruct (save_decision_stamps_call_time
              json_two_decisions 1 resave_d1 "uuid-3" "2024-01-03T00:00:00"
              fs_two_decisions "u1" resave_d1 "uuid-3" 3 "d1" H1 H2 H3 H4)
    as [(s1 & r1 & rest1 & Hs1 & _ & _ & _ & Hc1 & Hg1)
        (s2 & r2 & rest2 & Hs2 & _ & _ & Hc2 & Hg2)].
  split; [exact H1|]. split; [exact H2|]. split; [exact H3|].
  split; [exact H4|]. split.
  - exists s1, r1, rest1. auto.
  - exists s2, r2, rest2. auto.
Defined.

(** The same two stores, evaluated: the decision ["d1"], created first, is
    listed first once it is saved again. *)
Example resave_moves_to_front_json :
  (let* r := Json.save_decision 1 resave_d1 "uuid-3" "2024-01-03T00:00:00"
               json_two_decisions in
   let* l := Json.get_user_decisions 1 None r.2 in
   Ok (map (fun d => (getd d "id" VNone, json_created_at d)) l)) =
  Ok [ (VStr "d1", "2024-01-03T00:00:00"); (VStr "d2", "2024-01-02T00:00:00") ].
Proof. vm_compute. reflexivity. Qed.

(** ** Saving a decision twice *)

Lemma find_first_middle {A : Type} (p : A -> result bool)
    (l1 : list A) (x : A) (l2 : list A) :
  Forall (fun y => p y = Ok false) l1 -> p x = Ok true ->
  find_first p (l1 ++ x :: l2) = Ok (Some (length l1)).
Proof.
  intros Hl1 Hx. induction Hl1 as [|y r Hy _ IH]; simpl.
  - rewrite Hx. reflexivity.
  - rewrite Hy. simpl. rewrite IH. reflexivity.
Qed.



Lemma filter_none {A : Type} (f : A -> bool) (l : list A) :
  Forall (fun y => f y = false) l -> List.filter f l = [].
Proof.
  induction 1 as [|x r Hx _ IH]; simpl; [reflexivity|].
  rewrite Hx. exact IH.
Qed.








(** ** Reading a decision of another user *)

Lemma owner_is_other (a b : Z) (d : dict) :
  a <> b -> owner_is b d = true -> owner_is a d = false.
Proof.
  unfold owner_is. intros Hne.
  destruct (getd d "user_id" VNone) as [|x|n|t|l]; simpl; try discriminate.
  - intros H. apply Z.eqb_eq in H. apply Z.eqb_neq. congruence.
  - intros H. apply Z.eqb_eq in H. apply Z.eqb_neq. congruence.
Qed.

(** The local store. *)
Lemma json_get_decision_other_owner (a b : Z) (id : string) (s : Json.store) :
  Forall json_decision_ok (Json.decisions s) ->
  json_id_owned_by id b s = true -> a <> b ->
  Json.get_decision a id s = Ok None /\
  (exists d, Json.get_decision b id s = Ok (Some d)) /\
  exists s0,
    Json.delete_decision b id s = Ok (true, s0) /\
    Forall (fun d => has_id id d = false) (Json.decisions s0) /\
    Json.get_decision a id s0 = Ok None.
Proof.
  intros Hok Hown Hab.
  apply andb_true_iff in Hown as [Hex Hall].
  rewrite forallb_forall in Hall.
  assert (Hnone : Forall (fun d => is_decision (VStr id) a d = false)
                         (Json.decisions s)).
  { apply Forall_forall. intros d Hd. apply list_elem_of_In, Hall in Hd.
    unfold is_decision. fold (has_id id d).
    destruct (has_id id d); simpl in *; [|reflexivity].
    apply (owner_is_other a b); assumption. }
  split; [|split].
  - unfold Json.get_decision.
    destruct (find_first_pure _ _ _ (json_matches_all (VStr id) a _ Hok))
      as [(l1 & d & l2 & Hl & _ & Hd & _) | [_ Hf]].
    + rewrite Hl in Hnone. apply Forall_app in Hnone as [_ Hnone].
      apply Forall_cons in Hnone as [Hnone _]. congruence.
    + rewrite Hf. reflexivity.
  - unfold Json.get_decision.
    destruct (find_first_pure _ _ _ (json_matches_all (VStr id) b _ Hok))
      as [(l1 & d & l2 & Hl & _ & Hd & Hf) | [Hnob _]].
    + rewrite Hf. simpl. exists d. rewrite Hl.
      rewrite list_lookup_middle by reflexivity. reflexivity.
    + apply existsb_exists in Hex as (d & Hd & Hid).
      rewrite Forall_forall in Hnob.
      pose proof (Hnob d (proj2 (list_elem_of_In _ _) Hd)) as Hn.
      pose proof (Hall d Hd) as Ho.
      unfold is_decision in Hn. fold (has_id id d) in Hn.
      rewrite Hid in Hn, Ho. simpl in Hn, Ho. congruence.
  - set (keep := fun d => negb (is_decision (VStr id) b d)).
    assert (Hdel : filterM (fun d =>
                     let* m := Json.decision_matches (VStr id) b d in
                     Ok (negb m)) (Json.decisions s) =
                   Ok (List.filter keep (Json.decisions s))).
    { apply filterM_pure.
      eapply Forall_impl; [exact (json_matches_all (VStr id) b _ Hok)|].
      intros d Hd. simpl in Hd. rewrite Hd. reflexivity. }
    assert (Hshort : negb (length (List.filter keep (Json.decisions s)) =?
                           length (Json.decisions s))%nat = true).
    { apply negb_true_iff, Nat.eqb_neq.
      apply existsb_exists in Hex as (d & Hd & Hid).
      assert (Hk : keep d = false).
      { unfold keep, is_decision. fold (has_id id d).
        pose proof (Hall d Hd) as Ho. rewrite Hid in *. simpl in *.
        rewrite Ho. reflexivity. }
      clear - Hd Hk. induction (Json.decisions s) as [|x r IH]; [destruct Hd|].
      pose proof (List.filter_length_le keep r) as Hle. simpl.
      destruct Hd as [-> | Hd].
      - rewrite Hk. lia.
      - specialize (IH Hd). destruct (keep x); simpl; lia. }
    exists (Json.save_decisions (List.filter keep (Json.decisions s)) s).
    assert (Hgone : Forall (fun d => has_id id d = false)
                           (List.filter keep (Json.decisions s))).
    { apply Forall_forall. intros d Hd.
      apply list_elem_of_In, filter_In in Hd as [Hd Hk].
      pose proof (Hall d Hd) as Ho.
      unfold keep, is_decision in Hk. fold (has_id id d) in Hk.
      destruct (has_id id d); [|reflexivity]. simpl in *.
      rewrite Ho in Hk. discriminate. }
    split; [|split].
    + unfold Json.delete_decision. rewrite Hdel. simpl.
      rewrite Hshort. reflexivity.
    + exact Hgone.
    + unfold Json.get_decision. simpl.
      assert (Hok0 : Forall json_decision_ok
                       (List.filter keep (Json.decisions s)))
        by (apply Forall_list_filter; exact Hok).
      destruct (find_first_pure _ _ _ (json_matches_all (VStr id) a _ Hok0))
        as [(l1 & d & l2 & Hl & _ & Hd & _) | [_ Hf]].
      * rewrite Hl in Hgone. apply Forall_app in Hgone as [_ Hgone].
        apply Forall_cons in Hgone as [Hgone _].
        unfold is_decision in Hd. fold (has_id id d) in Hd.
        rewrite Hgone in Hd. discriminate.
      * rewrite Hf. reflexivity.
Qed.

(** The remote store. *)
Lemma fs_get_decision_other_owner (a b id : string) (d : fdict)
    (s : Firestore.store) :
  Firestore.decisions s !! id = Some d ->
  d !! "user_id" = Some (FV (VStr b)) -> a <> b ->
  Firestore.get_decision a id s = None /\
  Firestore.get_decision b id s = Some (<["id" := FV (VStr id)]> d) /\
  exists s0,
    Firestore.delete_decision b id s = (true, s0) /\
    Firestore.decisions s0 !! id = None /\
    Firestore.get_decision a id s0 = None.
Proof.
  intros Hd Hu Hab.
  unfold Firestore.get_decision, Firestore.delete_decision.
  rewrite Hd, Hu. simpl. rewrite String.eqb_refl.
  destruct (String.eqb_spec b a) as [->|_]; [contradiction|].
  split; [reflexivity|]. split; [reflexivity|].
  eexists. split; [reflexivity|]. simpl.
  rewrite lookup_delete_eq. split; reflexivity.
Qed.

(** C3. When the decision with this id is owned by [b], a read by another
    user [a] gives none in both stores; [b] reads the record; and the read
    by [a] gives the same none once [b] has deleted the record, when no
    decision with the id is stored. *)
Theorem other_owner_reads_none
    (js : Json.store) (ja jb : Z) (fs : Firestore.store) (fa fb : string)
    (id : string) (d : fdict) :
  json_decisions_okb js = true ->
  json_id_owned_by id jb js = true -> ja <> jb ->
  Firestore.decisions fs !! id = Some d ->
  d !! "user_id" = Some (FV (VStr fb)) -> fa <> fb ->
  (Json.get_decision ja id js = Ok None /\
   (exists r, Json.get_decision jb id js = Ok (Some r)) /\
   exists s0,
     Json.delete_decision jb id js = Ok (true, s0) /\
     Forall (fun r => has_id id r = false) (Json.decisions s0) /\
     Json.get_decision ja id s0 = Ok None) /\
  (Firestore.get_decision fa id fs = None /\
   Firestore.get_decision fb id fs = Some (<["id" := FV (VStr id)]> d) /\
   exists s0,
     Firestore.delete_decision fb id fs = (true, s0) /\
     Firestore.decisions s0 !! id = None /\
     Firestore.get_decision fa id s0 = None).
Proof.
  intros Hok Hown Hj Hd Hu Hf. split.
  - apply json_get_decision_other_owner; auto.
    apply json_decisions_okb_ok, Hok.
  - apply fs_get_decision_other_owner; auto.
Qed.

Lemma other_owner_reads_none_witness :
  json_decisions_okb json_two_owners = true /\
  json_id_owned_by "d3" 2 json_two_owners = true /\ 1 <> 2 /\
  Firestore.decisions fs_two_owners !! "d3" =
    Some (Firestore.decision_payload "u2" ∅ 3) /\
  Firestore.decision_payload "u2" ∅ 3 !! "user_id" = Some (FV (VStr "u2")) /\
  "u1" <> "u2" /\
  Json.get_decision 1 "d3" json_two_owners = Ok None /\
  Firestore.get_decision "u1" "d3" fs_two_owners = None.
Proof.
  assert (H1 : json_decisions_okb json_two_owners = true) by reflexivity.
  assert (H2 : json_id_owned_by "d3" 2 json_two_owners = true) by reflexivity.
  assert (H3 : 1 <> 2) by lia.
  assert (H4 : Firestore.decisions fs_two_owners !! "d3" =
               Some (Firestore.decision_payload "u2" ∅ 3)) by reflexivity.
  assert (H5 : Firestore.decision_payload "u2" ∅ 3 !! "user_id" =
               Some (FV (VStr "u2"))) by reflexivity.
  assert (H6 : "u1" <> "u2") by discriminate.
  destruct (other_owner_reads_none json_two_owners 1 2 fs_two_owners
              "u1" "u2" "d3" _ H1 H2 H3 H4 H5 H6) as [[Hj _] [Hf _]].
  auto 10.
Defined.

(** ** The chat history *)

Lemma filter_twice {A : Type} (f g : A -> bool) (l : list A) :
  List.filter f (List.filter g l) = List.filter (fun x => g x && f x) l.
Proof.
  induction l as [|x r IH]; simpl; [reflexivity|].
  destruct (g x); simpl; [destruct (f x)|]; rewrite IH; reflexivity.
Qed.

Lemma json_field_is_pure (k : string) (v : val) (c : dict) :
  is_Some (c !! k) -> Json.field_is k v c = Ok (py_eq (getd c k VNone) v).
Proof.
  intros [x Hx]. unfold Json.field_is, item, getd. rewrite Hx. reflexivity.
Qed.

Lemma filter_all_true {A : Type} (f : A -> bool) (l : list A) :
  (forall x, f x = true) -> List.filter f l = l.
Proof.
  intros H. induction l as [|x r IH]; simpl; [reflexivity|].
  rewrite H, IH. reflexivity.
Qed.

(** The optional filters of the local store. *)
Lemma json_opt_filter (k : string) (o : option string) (cs : list dict) :
  Forall (fun c => is_Some (c !! k)) cs ->
  (if truthy (of_opt o) then filterM (Json.field_is k (of_opt o)) cs else Ok cs)
  = Ok (List.filter (opt_matches k o) cs).
Proof.
  intros Hk. destruct o as [v|]; simpl.
  - destruct (String.eqb v "") eqn:Hv; simpl.
    + rewrite filter_all_true; [reflexivity|].
      intros c. simpl. rewrite Hv. reflexivity.
    + rewrite (filterM_pure _ (fun c => py_eq (getd c k VNone) (VStr v))).
      * f_equal. apply List.filter_ext. intros c. simpl. rewrite Hv.
        reflexivity.
      * eapply Forall_impl; [exact Hk|].
        intros c Hc. apply json_field_is_pure, Hc.
  - rewrite filter_all_true; [reflexivity|]. intros c. reflexivity.
Qed.

Lemma json_get_chat_history_eq (user_id : Z) (decision_id chat_type : option string)
    (include_hidden : bool) (s : Json.store) :
  Forall json_chat_ok (Json.chat s) ->
  Json.get_chat_history user_id decision_id chat_type include_hidden s =
  Ok (stable_sort
        (fun a b => String.ltb (json_timestamp a) (json_timestamp b))
        (List.filter
           (json_chat_selected user_id decision_id chat_type include_hidden)
           (Json.chat s))).
Proof.
  intros Hok. unfold Json.get_chat_history.
  rewrite (filterM_pure _ (owner_is user_id)).
  2:{ eapply Forall_impl; [exact Hok|]. intros c (Hu & _).
      apply json_owned_by_pure, Hu. }
  simpl. rewrite (json_opt_filter "decision_id").
  2:{ apply Forall_list_filter. eapply Forall_impl; [exact Hok|].
      intros c (_ & H & _). exact H. }
  simpl. rewrite (json_opt_filter "chat_type").
  2:{ do 2 apply Forall_list_filter. eapply Forall_impl; [exact Hok|].
      intros c (_ & _ & H & _). exact H. }
  simpl.
  assert (Hsel :
    (if negb include_hidden
     then List.filter
            (fun c => truthy (getd c "is_visible_to_user" (VBool true)))
            (List.filter (opt_matches "chat_type" chat_type)
               (List.filter (opt_matches "decision_id" decision_id)
                  (List.filter (owner_is user_id) (Json.chat s))))
     else List.filter (opt_matches "chat_type" chat_type)
            (List.filter (opt_matches "decision_id" decision_id)
               (List.filter (owner_is user_id) (Json.chat s)))) =
    List.filter
      (json_chat_selected user_id decision_id chat_type include_hidden)
      (Json.chat s)).
  { destruct include_hidden; simpl; rewrite !filter_twice;
      apply List.filter_ext; intros c; unfold json_chat_selected; simpl;
      rewrite ?andb_true_r, ?andb_assoc; reflexivity. }
  rewrite Hsel. rewrite py_sort_strings.
  - reflexivity.
  - apply Forall_list_filter. eapply Forall_impl; [exact Hok|].
    intros c (_ & _ & _ & H). exact H.
Qed.

(** The local store: the selected messages, the earliest first. *)
Lemma json_get_chat_history_spec (user_id : Z)
    (decision_id chat_type : option string) (include_hidden : bool)
    (s : Json.store) :
  Forall json_chat_ok (Json.chat s) ->
  exists l,
    Json.get_chat_history user_id decision_id chat_type include_hidden s = Ok l /\
    Permutation l
      (List.filter
         (json_chat_selected user_id decision_id chat_type include_hidden)
         (Json.chat s)) /\
    StronglySorted (earlier_first json_timestamp) l.
Proof.
  intros Hok. eexists. split; [apply json_get_chat_history_eq, Hok|]. split.
  - apply stable_sort_perm.
  - apply Sorted_StronglySorted; [apply earlier_first_trans|].
    eapply Sorted_weaken; [|apply stable_sort_sorted].
    + intros a b H. apply string_ltb_false_leb. exact H.
    + intros a b H. apply string_ltb_asym. exact H.
Qed.

Lemma opt_matches_own (k : string) (o : option string) (c : dict) :
  c !! k = Some (of_opt o) -> opt_matches k o c = true.
Proof.
  intros Hc. destruct o as [v|]; simpl; [|reflexivity].
  destruct (String.eqb v ""); [reflexivity|].
  unfold getd. rewrite Hc. simpl. apply String.eqb_refl.
Qed.

(** The local store: a message saved as hidden is listed exactly when
    hidden messages are asked for. *)
Lemma json_hidden_message (user_id : Z) (user_message ai_response : string)
    (chat_type : string) (decision_id : option string) (now : string)
    (s : Json.store) :
  Forall json_chat_ok (Json.chat s) ->
  exists cid s' m,
    Json.save_chat_message user_id user_message ai_response chat_type
      decision_id false now s = Ok (cid, s') /\
    Json.chat s' = Json.chat s ++ [m] /\
    m !! "is_visible_to_user" = Some (VBool false) /\
    forall include_hidden, exists l,
      Json.get_chat_history user_id decision_id (Some chat_type)
        include_hidden s' = Ok l /\
      (In m l <-> include_hidden = true).
Proof.
  intros Hok. unfold Json.save_chat_message.
  set (m := <["id" := VInt (Z.of_nat (length (Json.chat s)) + 1)]> _).
  exists (Z.of_nat (length (Json.chat s)) + 1),
         (Json.save_chat (Json.chat s ++ [m]) s), m.
  split; [reflexivity|]. split; [reflexivity|]. split; [reflexivity|].
  assert (Hm : json_chat_ok m).
  { unfold json_chat_ok. repeat split; try (eexists; reflexivity). }
  assert (Hok' : Forall json_chat_ok (Json.chat s ++ [m])).
  { apply Forall_app. split; [exact Hok|]. constructor; [exact Hm|constructor]. }
  intros include_hidden. eexists. split.
  - apply json_get_chat_history_eq. exact Hok'.
  - simpl. split.
    + intros Hin.
      apply (Permutation_in _ (stable_sort_perm _ _)) in Hin.
      apply filter_In in Hin as [_ Hsel].
      unfold json_chat_selected in Hsel.
      apply andb_true_iff in Hsel as [_ Hvis].
      destruct include_hidden; [reflexivity|]. discriminate.
    + intros ->.
      apply (Permutation_in _ (Permutation_sym (stable_sort_perm _ _))).
      apply filter_In. split; [apply in_app_iff; right; left; reflexivity|].
      unfold json_chat_selected.
      rewrite (opt_matches_own "decision_id" decision_id m) by reflexivity.
      rewrite (opt_matches_own "chat_type" (Some chat_type) m) by reflexivity.
      assert (Hu : m !! "user_id" = Some (VInt user_id)) by reflexivity.
      unfold owner_is, getd. rewrite Hu. simpl. rewrite Z.eqb_refl.
      reflexivity.
Qed.

(** The optional filters of the remote store. *)
Lemma fs_opt_where (k : string) (o : option string)
    (q : list (string * fdict)) (a : string * fdict) :
  In a (if truthy (of_opt o)
        then Firestore.where_eq k (FV (of_opt o)) q else q) <->
  In a q /\ fs_opt_matches k o a.2 = true.
Proof.
  destruct o as [v|]; simpl; [|tauto].
  destruct (String.eqb v ""); simpl; [tauto|].
  rewrite in_where_eq, bool_decide_eq_true. reflexivity.
Qed.

Lemma NoDup_fs_opt_where (k : string) (o : option string)
    (q : list (string * fdict)) :
  List.NoDup q ->
  List.NoDup (if truthy (of_opt o)
              then Firestore.where_eq k (FV (of_opt o)) q else q).
Proof.
  intros H. destruct (truthy (of_opt o)); [apply NoDup_where_eq|]; exact H.
Qed.

(** The remote store: the selected messages, the earliest first. *)
Lemma fs_get_chat_history_spec (user_id : string)
    (decision_id chat_type : option string) (include_hidden : bool)
    (s : Firestore.store) :
  fs_chat_ok s ->
  exists q,
    Firestore.get_chat_history user_id decision_id chat_type include_hidden s =
      map Firestore.with_id q /\
    List.NoDup q /\
    (forall id d, In (id, d) q <->
       Firestore.chat s !! id = Some d /\
       fs_chat_selected user_id decision_id chat_type include_hidden d = true) /\
    Sorted (fs_earlier_first fs_timestamp) (map Firestore.with_id q).
Proof.
  intros Hok. unfold Firestore.get_chat_history.
  eexists. split; [reflexivity|]. split; [|split].
  - apply NoDup_order_by.
    destruct (negb include_hidden); [apply NoDup_where_eq|];
      apply NoDup_fs_opt_where, NoDup_fs_opt_where, NoDup_where_eq,
            NoDup_collection.
  - intros id d. rewrite in_order_by.
    assert (Hvis : forall q,
      In (id, d) (if negb include_hidden
                  then Firestore.where_eq "is_visible_to_user" (FV (VBool true)) q
                  else q) <->
      In (id, d) q /\
      (include_hidden ||
       bool_decide (d !! "is_visible_to_user" = Some (FV (VBool true)))) = true).
    { intros q. destruct include_hidden; simpl; [tauto|].
      rewrite in_where_eq, bool_decide_eq_true. reflexivity. }
    rewrite Hvis, !fs_opt_where, in_where_eq, in_collection. simpl.
    unfold fs_chat_selected. rewrite !andb_true_iff, bool_decide_eq_true.
    split.
    + tauto.
    + intros [Hd H]. split; [tauto|]. eapply Hok. exact Hd.
  - apply Sorted_map. eapply Sorted_weaken; [|apply order_by_sorted].
    intros a b H. unfold fs_earlier_first, fs_timestamp.
    rewrite !with_id_field by discriminate. exact H.
Qed.

Lemma fs_opt_matches_own (k : string) (o : option string) (d : fdict) :
  d !! k = Some (FV (of_opt o)) -> fs_opt_matches k o d = true.
Proof.
  intros Hd. destruct o as [v|]; simpl; [|reflexivity].
  destruct (String.eqb v ""); [reflexivity|].
  apply bool_decide_eq_true. exact Hd.
Qed.

(** The remote store: a message saved as hidden is listed exactly when
    hidden messages are asked for. *)
Lemma fs_hidden_message (user_id : string) (user_message ai_response : string)
    (chat_type : string) (decision_id : option string) (fresh : string)
    (now : Z) (s : Firestore.store) :
  fs_chat_ok s ->
  exists s' m,
    Firestore.save_chat_message user_id user_message ai_response chat_type
      decision_id false fresh now s = (fresh, s') /\
    Firestore.chat s' = <[fresh := m]> (Firestore.chat s) /\
    m !! "is_visible_to_user" = Some (FV (VBool false)) /\
    forall include_hidden,
      In (Firestore.with_id (fresh, m))
         (Firestore.get_chat_history user_id decision_id (Some chat_type)
            include_hidden s') <->
      include_hidden = true.
Proof.
  intros Hok. unfold Firestore.save_chat_message.
  set (m := <["user_id" := FV (VStr user_id)]> _).
  set (s' := Firestore.set_chat _ s).
  exists s', m.
  split; [reflexivity|]. split; [reflexivity|]. split; [reflexivity|].
  assert (Hok' : fs_chat_ok s').
  { intros id d. simpl. unfold Firestore.doc_set.
    destruct (decide (fresh = id)) as [<-|Hne].
    - rewrite lookup_insert_eq. intros [= <-]. eexists. reflexivity.
    - rewrite lookup_insert_ne by exact Hne. apply Hok. }
  intros include_hidden.
  destruct (fs_get_chat_history_spec user_id decision_id (Some chat_type)
              include_hidden s' Hok') as (q & -> & _ & Hq & _).
  split.
  - intros Hin. apply in_map_iff in Hin as ([id d] & Heq & Hin).
    apply Hq in Hin as [_ Hsel].
    destruct include_hidden; [reflexivity|].
    unfold fs_chat_selected in Hsel. simpl in Hsel.
    apply andb_true_iff in Hsel as [_ Hvis].
    apply bool_decide_eq_true in Hvis.
    assert (Hv : Firestore.with_id (id, d) !! "is_visible_to_user" =
                 Some (FV (VBool true))).
    { rewrite with_id_field by discriminate. exact Hvis. }
    rewrite Heq in Hv. rewrite with_id_field in Hv by discriminate.
    discriminate.
  - intros ->. apply in_map. apply Hq. split.
    + simpl. apply lookup_insert_eq.
    + unfold fs_chat_selected.
      rewrite (fs_opt_matches_own "decision_id" decision_id m) by reflexivity.
      rewrite (fs_opt_matches_own "chat_type" (Some chat_type) m) by reflexivity.
      rewrite bool_decide_eq_true_2 by reflexivity. reflexivity.
Qed.

(** C5, as the code has it. In both stores [get_chat_history] returns the
    messages of the user that pass the filters, the earliest first, where a
    decision id or a chat type filters only when it is given and is not
    the empty string, and messages that are not visible pass only with
    [include_hidden].  A message saved with [is_visible=False] is in the
    history of its owner exactly when [include_hidden] is true. *)
Theorem get_chat_history_filters
    (js : Json.store) (ju : Z) (fs : Firestore.store) (fu : string)
    (decision_id chat_type : option string) (include_hidden : bool) :
  json_chat_okb js = true -> fs_chat_okb fs = true ->
  (exists l,
     Json.get_chat_history ju decision_id chat_type include_hidden js = Ok l /\
     Permutation l
       (List.filter (json_chat_selected ju decision_id chat_type include_hidden)
          (Json.chat js)) /\
     StronglySorted (earlier_first json_timestamp) l) /\
  (exists q,
     Firestore.get_chat_history fu decision_id chat_type include_hidden fs =
       map Firestore.with_id q /\
     List.NoDup q /\
     (forall id d, In (id, d) q <->
        Firestore.chat fs !! id = Some d /\
        fs_chat_selected fu decision_id chat_type include_hidden d = true) /\
     Sorted (fs_earlier_first fs_timestamp) (map Firestore.with_id q)) /\
  (forall user_message ai_response kind now,
   exists cid s' m,
     Json.save_chat_message ju user_message ai_response kind decision_id
       false now js = Ok (cid, s') /\
     Json.chat s' = Json.chat js ++ [m] /\
     m !! "is_visible_to_user" = Some (VBool false) /\
     forall hidden, exists l,
       Json.get_chat_history ju decision_id (Some kind) hidden s' = Ok l /\
       (In m l <-> hidden = true)) /\
  (forall user_message ai_response kind fresh now,
   exists s' m,
     Firestore.save_chat_message fu user_message ai_response kind decision_id
       false fresh now fs = (fresh, s') /\
     Firestore.chat s' = <[fresh := m]> (Firestore.chat fs) /\
     m !! "is_visible_to_user" = Some (FV (VBool false)) /\
     forall hidden,
       In (Firestore.with_id (fresh, m))
          (Firestore.get_chat_history fu decision_id (Some kind) hidden s') <->
       hidden = true).
Proof.
  intros Hj Hf.
  apply json_chat_okb_ok in Hj. apply fs_chat_okb_ok in Hf.
  split; [|split; [|split]].
  - apply json_get_chat_history_spec, Hj.
  - apply fs_get_chat_history_spec, Hf.
  - intros. apply json_hidden_message, Hj.
  - intros. apply fs_hidden_message, Hf.
Qed.

Lemma get_chat_history_filters_witness :
  json_chat_okb json_one_message = true /\
  fs_chat_okb fs_one_message = true /\
  (exists l,
     Json.get_chat_history 1 (Some "d1") None false json_one_message = Ok l /\
     StronglySorted (earlier_first json_timestamp) l) /\
  (exists q,
     Firestore.get_chat_history "u1" (Some "d1") None false fs_one_message =
       map Firestore.with_id q).
Proof.
  assert (H1 : json_chat_okb json_one_message = true) by reflexivity.
  assert (H2 : fs_chat_okb fs_one_message = true) by reflexivity.
  destruct (get_chat_history_filters json_one_message 1 fs_one_message "u1"
              (Some "d1") None false H1 H2)
    as [(l & Hl & _ & Hs) [(q & Hq & _) _]].
  split; [exact H1|]. split; [exact H2|]. split.
  - exists l. auto.
  - exists q. exact Hq.
Defined.

(** C5 as it is written fails for the empty string: a decision id is
    supplied, and the history still holds the message of another one. *)
Lemma get_chat_history_empty_decision_id :
  (exists l m,
     Json.get_chat_history 1 (Some "") None false json_one_message = Ok l /\
     In m l /\ m !! "decision_id" = Some (VStr "d1")) /\
  (exists m,
     In m (Firestore.get_chat_history "u1" (Some "") None false fs_one_message) /\
     m !! "decision_id" = Some (FV (VStr "d1"))).
Proof.
  split.
  - do 2 eexists. split; [reflexivity|]. split; [left; reflexivity|].
    reflexivity.
  - eexists. split; [left; reflexivity|]. reflexivity.
Qed.

(** ** Creating a user *)

Lemma json_users_okb_ok (s : Json.store) :
  json_users_okb s = true ->
  Forall (fun u => is_Some (u !! "email")) (Json.users s).
Proof.
  unfold json_users_okb. rewrite forallb_forall, Forall_forall.
  intros H u Hu. apply has_key_is_Some, H, list_elem_of_In, Hu.
Qed.

Lemma json_any_email (email : string) (us : list dict) :
  Forall (fun u => is_Some (u !! "email")) us ->
  Json.any_email email us =
  Ok (existsb (fun u => py_eq (getd u "email" VNone) (VStr email)) us).
Proof.
  induction 1 as [|u r [e He] _ IH]; simpl; [reflexivity|].
  unfold item, getd. rewrite He. simpl.
  destruct (py_eq e (VStr email)); [reflexivity | exact IH].
Qed.

Lemma fs_email_query (email : string) (s : Firestore.store) :
  Firestore.where_eq "email" (FV (VStr email))
    (Firestore.collection (Firestore.users s)) = [] <->
  fs_email_taken email s = false.
Proof.
  unfold fs_email_taken, Firestore.where_eq.
  induction (Firestore.collection (Firestore.users s)) as [|a r IH]; simpl.
  - tauto.
  - destruct (bool_decide _); simpl; [split; discriminate | exact IH].
Qed.

Section UserFacts.
Variable sha256_hexdigest : string -> string.

(** The local store. *)
Lemma json_create_user_spec (email password full_name now : string)
    (s : Json.store) :
  json_users_okb s = true ->
  Json.create_user sha256_hexdigest email password full_name now s =
  Ok (if json_email_taken email s then (false, s)
      else
        let uid := Z.of_nat (length (Json.users s)) + 1 in
        (true,
         Json.save_preferences (Json.preferences s ++ [json_default_prefs uid])
           (Json.save_users
              (Json.users s ++
               [json_user_record uid email
                  (_hash_password sha256_hexdigest password) full_name now])
              s))).
Proof.
  intros Hok. unfold Json.create_user.
  rewrite (json_any_email email _ (json_users_okb_ok s Hok)). simpl.
  fold (json_email_taken email s).
  destruct (json_email_taken email s); reflexivity.
Qed.

(** The remote store. *)
Lemma fs_create_user_spec (email password full_name fresh : string) (now : Z)
    (s : Firestore.store) :
  Firestore.create_user sha256_hexdigest email password full_name fresh now s =
  Ok (if fs_email_taken email s then (false, s)
      else
        (true,
         Firestore.set_prefs (<[fresh := fs_default_prefs fresh]> (Firestore.prefs s))
           (Firestore.set_users
              (<[fresh := fs_user_doc email
                            (_hash_password sha256_hexdigest password)
                            full_name now]> (Firestore.users s))
              s))).
Proof.
  unfold Firestore.create_user, Firestore.limit. simpl.
  pose proof (fs_email_query email s) as Hq.
  destruct (Firestore.where_eq _ _ _) as [|a r]; simpl.
  - rewrite (proj1 Hq eq_refl). reflexivity.
  - destruct (fs_email_taken email s); [reflexivity|].
    destruct Hq as [_ Hq]. discriminate (Hq eq_refl).
Qed.

(** C6. In both stores [create_user] returns [False], without raising and
    without changing the store, when a user with exactly this email is
    stored.  Otherwise it returns [True] and the new store is the old one
    with two more records: the user, with the digest of the password, and
    the preferences of that user with [share_data_with_ai] false and
    [view_chat_history] true. *)
Theorem create_user_outcome
    (js : Json.store) (fs : Firestore.store)
    (email password full_name jnow fresh : string) (fnow : Z) :
  json_users_okb js = true ->
  Firestore.users fs !! fresh = None -> Firestore.prefs fs !! fresh = None ->
  (Json.create_user sha256_hexdigest email password full_name jnow js =
   Ok (if json_email_taken email js then (false, js)
       else
         let uid := Z.of_nat (length (Json.users js)) + 1 in
         (true,
          Json.save_preferences
            (Json.preferences js ++ [json_default_prefs uid])
            (Json.save_users
               (Json.users js ++
                [json_user_record uid email
                   (_hash_password sha256_hexdigest password) full_name jnow])
               js)))) /\
  (exists s',
     Firestore.create_user sha256_hexdigest email password full_name fresh
       fnow fs = Ok (negb (fs_email_taken email fs), s') /\
     (fs_email_taken email fs = true -> s' = fs) /\
     (fs_email_taken email fs = false ->
        Firestore.users s' =
          <[fresh := fs_user_doc email
                       (_hash_password sha256_hexdigest password) full_name fnow]>
            (Firestore.users fs) /\
        Firestore.prefs s' =
          <[fresh := fs_default_prefs fresh]> (Firestore.prefs fs) /\
        size (Firestore.users s') = S (size (Firestore.users fs)) /\
        size (Firestore.prefs s') = S (size (Firestore.prefs fs)) /\
        Firestore.decisions s' = Firestore.decisions fs /\
        Firestore.chat s' = Firestore.chat fs)).
Proof.
  intros Hok Hu Hp. split.
  - apply json_create_user_spec, Hok.
  - rewrite fs_create_user_spec.
    destruct (fs_email_taken email fs); eexists; (split; [reflexivity|]);
      split; try discriminate; try reflexivity.
    intros _. simpl.
    rewrite !map_size_insert_None by assumption. auto 10.
Qed.
End UserFacts.

Lemma create_user_outcome_witness :
  json_users_okb json_one_user = true /\
  Firestore.users fs_one_user !! "u2" = None /\
  Firestore.prefs fs_one_user !! "u2" = None /\
  Json.create_user toy_digest "a@x.com" "pw2" "B" "2024-01-02T00:00:00"
    json_one_user = Ok (false, json_one_user) /\
  (exists s,
     Json.create_user toy_digest "b@x.com" "pw2" "B" "2024-01-02T00:00:00"
       json_one_user = Ok (true, s) /\
     length (Json.users s) = 2%nat /\ length (Json.preferences s) = 2%nat) /\
  Firestore.create_user toy_digest "a@x.com" "pw2" "B" "u2" 2 fs_one_user =
    Ok (false, fs_one_user).
Proof.
  assert (H1 : json_users_okb json_one_user = true) by reflexivity.
  assert (H2 : Firestore.users fs_one_user !! "u2" = None) by reflexivity.
  assert (H3 : Firestore.prefs fs_one_user !! "u2" = None) by reflexivity.
  destruct (create_user_outcome toy_digest json_one_user fs_one_user
              "a@x.com" "pw2" "B" "2024-01-02T00:00:00" "u2" 2 H1 H2 H3)
    as [Hj (s' & Hf & Hsame & _)].
  destruct (create_user_outcome toy_digest json_one_user fs_one_user
              "b@x.com" "pw2" "B" "2024-01-02T00:00:00" "u2" 2 H1 H2 H3)
    as [Hj' _].
  split; [exact H1|]. split; [exact H2|]. split; [exact H3|].
  split; [exact Hj|]. split.
  - eexists. split; [exact Hj'|]. split; reflexivity.
  - rewrite Hf. rewrite (Hsame eq_refl). reflexivity.
Defined.

(** ** Creating a user, then logging in *)

Lemma singleton_list {A : Type} (l : list A) (x : A) :
  List.NoDup l -> In x l -> (forall y, In y l -> y = x) -> l = [x].
Proof.
  intros Hnd Hin Hall. destruct l as [|a [|b r]].
  - destruct Hin.
  - rewrite (Hall a); [reflexivity | left; reflexivity].
  - exfalso. inversion Hnd as [|? ? Hnotin _]; subst. apply Hnotin.
    rewrite (Hall a) by (left; reflexivity).
    rewrite <- (Hall b) by (right; left; reflexivity). left. reflexivity.
Qed.

Lemma fs_email_query_new (email : string) (doc : fdict) (fresh : string)
    (s : Firestore.store) :
  fs_email_taken email s = false ->
  doc !! "email" = Some (FV (VStr email)) ->
  Firestore.where_eq "email" (FV (VStr email))
    (Firestore.collection (<[fresh := doc]> (Firestore.users s))) =
  [(fresh, doc)].
Proof.
  intros Hfree Hdoc. apply singleton_list.
  - apply NoDup_where_eq, NoDup_collection.
  - apply in_where_eq. split; [|exact Hdoc].
    apply in_collection, lookup_insert_eq.
  - intros [id d] Hin. apply in_where_eq in Hin as [Hin He].
    apply in_collection in Hin. simpl in He.
    destruct (decide (fresh = id)) as [<-|Hne].
    + rewrite lookup_insert_eq in Hin. congruence.
    + rewrite lookup_insert_ne in Hin by exact Hne.
      exfalso. unfold fs_email_taken in Hfree.
      assert (Hex : existsb
                (fun a => bool_decide (a.2 !! "email" = Some (FV (VStr email))))
                (Firestore.collection (Firestore.users s)) = true).
      { apply existsb_exists. exists (id, d). split.
        - apply in_collection, Hin.
        - apply bool_decide_eq_true. exact He. }
      congruence.
Qed.

Section LoginFacts.
Variable sha256_hexdigest : string -> string.

Lemma json_authenticate_appended (email password full_name now w : string)
    (uid : Z) (us : list dict) :
  Forall (fun u => is_Some (u !! "email")) us ->
  existsb (fun u => py_eq (getd u "email" VNone) (VStr email)) us = false ->
  Json.authenticate_loop sha256_hexdigest email w
    (us ++ [json_user_record uid email
              (_hash_password sha256_hexdigest password) full_name now]) =
  Ok (if String.eqb (sha256_hexdigest password) (sha256_hexdigest w)
      then Some (VInt uid) else None).
Proof.
  induction 1 as [|u r [e He] _ IH]; simpl.
  - intros _. unfold item.
    set (u := json_user_record _ _ _ _ _).
    assert (He : u !! "email" = Some (VStr email)) by reflexivity.
    assert (Hh : u !! "password_hash" =
                 Some (VStr (_hash_password sha256_hexdigest password)))
      by reflexivity.
    assert (Hi : u !! "id" = Some (VInt uid)) by reflexivity.
    rewrite He, Hh, Hi. simpl. rewrite String.eqb_refl.
    unfold _hash_password. destruct (String.eqb _ _); reflexivity.
  - unfold getd at 1. rewrite He. simpl. intros Hnone.
    apply orb_false_iff in Hnone as [Hne Hnone].
    unfold item at 1. rewrite He. simpl. rewrite Hne. apply IH, Hnone.
Qed.

(** The local store. *)
Lemma json_create_then_login (email password full_name now : string)
    (s : Json.store) :
  json_users_okb s = true -> json_email_taken email s = false ->
  exists s1 u,
    Json.create_user sha256_hexdigest email password full_name now s =
      Ok (true, s1) /\
    Json.users s1 = Json.users s ++ [u] /\
    u !! "email" = Some (VStr email) /\
    Json.authenticate_user sha256_hexdigest email password s1 =
      Ok (u !! "id") /\
    is_Some (u !! "id") /\
    (forall w, sha256_hexdigest w <> sha256_hexdigest password ->
       Json.authenticate_user sha256_hexdigest email w s1 = Ok None) /\
    (forall password' full_name' now',
       Json.create_user sha256_hexdigest email password' full_name' now' s1 =
         Ok (false, s1)).
Proof.
  intros Hok Hfree.
  rewrite (json_create_user_spec sha256_hexdigest _ _ _ _ _ Hok), Hfree.
  set (uid := Z.of_nat (length (Json.users s)) + 1).
  set (u := json_user_record uid email
              (_hash_password sha256_hexdigest password) full_name now).
  eexists. exists u. split; [reflexivity|]. simpl. fold uid. fold u.
  split; [reflexivity|]. split; [reflexivity|].
  pose proof (json_users_okb_ok s Hok) as Hemails.
  assert (Hauth : forall w,
    Json.authenticate_loop sha256_hexdigest email w (Json.users s ++ [u]) =
    Ok (if String.eqb (sha256_hexdigest password) (sha256_hexdigest w)
        then Some (VInt uid) else None)).
  { intros w. apply json_authenticate_appended; assumption. }
  split; [|split; [|split]].
  - unfold Json.authenticate_user. simpl. rewrite Hauth.
    rewrite String.eqb_refl. reflexivity.
  - eexists. reflexivity.
  - intros w Hw. unfold Json.authenticate_user. simpl. rewrite Hauth.
    destruct (String.eqb_spec (sha256_hexdigest password) (sha256_hexdigest w));
      [congruence | reflexivity].
  - intros password' full_name' now'.
    rewrite json_create_user_spec.
    + unfold json_email_taken. simpl. rewrite existsb_app. simpl.
      assert (He : getd u "email" VNone = VStr email) by reflexivity.
      rewrite He. simpl.
      rewrite String.eqb_refl, orb_true_r. reflexivity.
    + unfold json_users_okb. simpl. rewrite forallb_app. simpl.
      fold (json_users_okb s). rewrite Hok. reflexivity.
Qed.

(** The remote store. *)
Lemma fs_create_then_login (email password full_name fresh : string) (now : Z)
    (s : Firestore.store) :
  fs_email_taken email s = false ->
  exists s1 u,
    Firestore.create_user sha256_hexdigest email password full_name fresh now s =
      Ok (true, s1) /\
    Firestore.users s1 !! fresh = Some u /\
    u !! "email" = Some (FV (VStr email)) /\
    Firestore.authenticate_user sha256_hexdigest email password s1 =
      Ok (Some fresh) /\
    (forall w, sha256_hexdigest w <> sha256_hexdigest password ->
       Firestore.authenticate_user sha256_hexdigest email w s1 = Ok None) /\
    (forall password' full_name' fresh' now',
       Firestore.create_user sha256_hexdigest email password' full_name'
         fresh' now' s1 = Ok (false, s1)).
Proof.
  intros Hfree. rewrite fs_create_user_spec, Hfree.
  set (u := fs_user_doc email (_hash_password sha256_hexdigest password)
              full_name now).
  eexists. exists u. split; [reflexivity|]. simpl.
  split; [apply lookup_insert_eq|]. split; [reflexivity|].
  assert (Hq : forall s1,
    Firestore.users s1 = <[fresh := u]> (Firestore.users s) ->
    Firestore.where_eq "email" (FV (VStr email))
      (Firestore.collection (Firestore.users s1)) = [(fresh, u)]).
  { intros s1 ->. apply fs_email_query_new; [exact Hfree | reflexivity]. }
  split; [|split].
  - unfold Firestore.authenticate_user. rewrite Hq by reflexivity.
    unfold Firestore.limit, u. simpl bind. simpl firstn.
    change (Firestore.field_of "password_hash" _)
      with (FV (VStr (_hash_password sha256_hexdigest password))).
    unfold _hash_password, fpy_eq, py_eq.
    rewrite String.eqb_refl. reflexivity.
  - intros w Hw. unfold Firestore.authenticate_user.
    rewrite Hq by reflexivity.
    unfold Firestore.limit, u. simpl bind. simpl firstn.
    change (Firestore.field_of "password_hash" _)
      with (FV (VStr (_hash_password sha256_hexdigest password))).
    unfold _hash_password, fpy_eq, py_eq.
    destruct (String.eqb_spec (sha256_hexdigest password) (sha256_hexdigest w));
      [congruence | reflexivity].
  - intros password' full_name' fresh' now'.
    rewrite fs_create_user_spec.
    match goal with
    | |- Ok (if fs_email_taken email ?x then _ else _) = _ =>
        destruct (fs_email_taken email x) eqn:Htaken
    end; [reflexivity|].
    apply fs_email_query in Htaken. rewrite Hq in Htaken by reflexivity.
    discriminate.
Qed.

(** C7. From a store with no user of email [e], [create_user e p] returns
    [True]; after it [authenticate_user e p] returns the id of the new
    user, [authenticate_user e w] returns [None] for every password [w]
    whose digest differs from that of [p], and [create_user] with the email
    [e] returns [False]. *)
Theorem create_then_authenticate
    (js : Json.store) (fs : Firestore.store)
    (email password full_name jnow fresh : string) (fnow : Z) :
  json_users_okb js = true ->
  json_email_taken email js = false ->
  fs_email_taken email fs = false ->
  (exists s1 u,
     Json.create_user sha256_hexdigest email password full_name jnow js =
       Ok (true, s1) /\
     Json.users s1 = Json.users js ++ [u] /\
     u !! "email" = Some (VStr email) /\
     Json.authenticate_user sha256_hexdigest email password s1 =
       Ok (u !! "id") /\
     is_Some (u !! "id") /\
     (forall w, sha256_hexdigest w <> sha256_hexdigest password ->
        Json.authenticate_user sha256_hexdigest email w s1 = Ok None) /\
     (forall password' full_name' now',
        Json.create_user sha256_hexdigest email password' full_name' now' s1 =
          Ok (false, s1))) /\
  (exists s1 u,
     Firestore.create_user sha256_hexdigest email password full_name fresh
       fnow fs = Ok (true, s1) /\
     Firestore.users s1 !! fresh = Some u /\
     u !! "email" = Some (FV (VStr email)) /\
     Firestore.authenticate_user sha256_hexdigest email password s1 =
       Ok (Some fresh) /\
     (forall w, sha256_hexdigest w <> sha256_hexdigest password ->
        Firestore.authenticate_user sha256_hexdigest email w s1 = Ok None) /\
     (forall password' full_name' fresh' now',
        Firestore.create_user sha256_hexdigest email password' full_name'
          fresh' now' s1 = Ok (false, s1))).
Proof.
  intros Hok Hj Hf. split.
  - apply json_create_then_login; assumption.
  - apply fs_create_then_login; assumption.
Qed.
End LoginFacts.

Lemma create_then_authenticate_witness :
  json_users_okb Json.empty = true /\
  json_email_taken "a@x.com" Json.empty = false /\
  fs_email_taken "a@x.com" Firestore.empty = false /\
  (exists s1,
     Json.create_user toy_digest "a@x.com" "pw1" "A" "2024-01-01T00:00:00"
       Json.empty = Ok (true, s1) /\
     Json.authenticate_user toy_digest "a@x.com" "pw1" s1 = Ok (Some (VInt 1)) /\
     Json.authenticate_user toy_digest "a@x.com" "wrong" s1 = Ok None /\
     Json.create_user toy_digest "a@x.com" "pw1" "A" "2024-01-02T00:00:00" s1 =
       Ok (false, s1)).
Proof.
  assert (H1 : json_users_okb Json.empty = true) by reflexivity.
  assert (H2 : json_email_taken "a@x.com" Json.empty = false) by reflexivity.
  assert (H3 : fs_email_taken "a@x.com" Firestore.empty = false) by reflexivity.
  destruct (create_then_authenticate toy_digest Json.empty Firestore.empty
              "a@x.com" "pw1" "A" "2024-01-01T00:00:00" "u1" 1 H1 H2 H3)
    as [(s1 & u & Hc & Hu & _ & Ha & _ & Hw & Hd) _].
  split; [exact H1|]. split; [exact H2|]. split; [exact H3|].
  exists s1. split; [exact Hc|].
  split; [|split].
  - rewrite Ha. injection Hc as <-. simpl in Hu. injection Hu as <-.
    reflexivity.
  - apply Hw. discriminate.
  - apply Hd.
Defined.

(** ** Updating the preferences *)

Lemma json_prefs_owned (user_id : Z) (s : Json.store) :
  json_prefs_okb s = true ->
  Forall (fun p => Json.owned_by user_id p = Ok (owner_is user_id p))
         (Json.preferences s).
Proof.
  unfold json_prefs_okb. rewrite forallb_forall, Forall_forall.
  intros H p Hp.
  apply json_owned_by_pure, has_key_is_Some, H, list_elem_of_In, Hp.
Qed.

Lemma json_updated_flags (payload p : dict) :
  let p' := Json.update_prefs_record payload p in
  p' !! "user_id" = p !! "user_id" /\
  truthy (getd p' "share_data_with_ai" (VBool false)) =
    merged_flag payload "share_data_with_ai"
      (truthy (getd p "share_data_with_ai" (VBool false))) /\
  truthy (getd p' "view_chat_history" (VBool true)) =
    merged_flag payload "view_chat_history"
      (truthy (getd p "view_chat_history" (VBool true))).
Proof.
  unfold Json.update_prefs_record, merged_flag, getd. split; [|split].
  - rewrite !lookup_insert_ne by discriminate. reflexivity.
  - rewrite lookup_insert_ne, lookup_insert_eq by discriminate. simpl.
    destruct (payload !! "share_data_with_ai"); reflexivity.
  - rewrite lookup_insert_eq. simpl.
    destruct (payload !! "view_chat_history"); reflexivity.
Qed.

(** The local store keeps the flags the payload does not mention. *)
Lemma json_update_preferences_retains (user_id : Z) (payload : dict)
    (s : Json.store) :
  json_prefs_okb s = true ->
  exists share view s',
    Json.get_user_preferences user_id s = Ok (Json.prefs_view share view) /\
    Json.update_user_preferences user_id payload s = Ok (true, s') /\
    Json.get_user_preferences user_id s' =
      Ok (Json.prefs_view
            (merged_flag payload "share_data_with_ai" share)
            (merged_flag payload "view_chat_history" view)).
Proof.
  intros Hok. pose proof (json_prefs_owned user_id s Hok) as Hown.
  unfold Json.get_user_preferences at 1, Json.update_user_preferences.
  destruct (find_first_pure _ _ _ Hown)
    as [(l1 & p & l2 & Hl & Hl1 & Hp & Hf) | [Hnone Hf]]; rewrite Hf; simpl.
  - rewrite Hl, list_lookup_middle by reflexivity. simpl.
    do 3 eexists. split; [reflexivity|]. split; [reflexivity|].
    unfold Json.get_user_preferences. simpl.
    rewrite <- (Nat.add_0_r (length l1)), alter_app_r. simpl.
    destruct (json_updated_flags payload p) as (Hu & Hs & Hv).
    rewrite (find_first_middle _ l1 (Json.update_prefs_record payload p) l2).
    + simpl. rewrite list_lookup_middle by reflexivity. simpl.
      rewrite Hs, Hv. reflexivity.
    + rewrite Hl in Hown. apply Forall_app in Hown as [Hown _].
      rewrite Forall_forall in Hown, Hl1. apply Forall_forall. intros y Hy.
      rewrite (Hown y Hy), (Hl1 y Hy). reflexivity.
    + unfold Json.owned_by, item. rewrite Hu.
      rewrite Hl in Hown. apply Forall_app in Hown as [_ Hown].
      apply Forall_cons in Hown as [Hown _].
      unfold Json.owned_by, item in Hown. rewrite Hown, Hp. reflexivity.
  - do 3 eexists. split; [reflexivity|]. split; [reflexivity|].
    unfold Json.get_user_preferences. simpl.
    match goal with |- context [Json.preferences s ++ [?x]] => set (p := x) end.
    rewrite (find_first_middle _ (Json.preferences s) p []).
    + simpl. rewrite list_lookup_middle by reflexivity. simpl.
      unfold merged_flag, getd.
      assert (Hs : p !! "share_data_with_ai" =
                   Some (VBool (truthy (default (VBool false)
                                          (payload !! "share_data_with_ai")))))
        by reflexivity.
      assert (Hv : p !! "view_chat_history" =
                   Some (VBool (truthy (default (VBool true)
                                          (payload !! "view_chat_history")))))
        by reflexivity.
      rewrite Hs, Hv. simpl.
      destruct (payload !! "share_data_with_ai"),
               (payload !! "view_chat_history"); reflexivity.
    + rewrite Forall_forall in Hown, Hnone. apply Forall_forall. intros y Hy.
      rewrite (Hown y Hy), (Hnone y Hy). reflexivity.
    + assert (Hu : p !! "user_id" = Some (VInt user_id)) by reflexivity.
      unfold Json.owned_by, item. rewrite Hu. simpl. rewrite Z.eqb_refl.
      reflexivity.
Qed.

(** The remote store writes both flags on every update: a flag the
    payload does not mention is set to its default, whatever was stored. *)
Lemma fs_update_preferences_resets (user_id : string) (payload : dict)
    (s : Firestore.store) :
  Firestore.get_user_preferences user_id
    (Firestore.update_user_preferences user_id payload s).2 =
  Json.prefs_view
    (merged_flag payload "share_data_with_ai" false)
    (merged_flag payload "view_chat_history" true).
Proof.
  unfold Firestore.get_user_preferences, Firestore.update_user_preferences,
    Firestore.doc_set_merge. simpl.
  rewrite lookup_insert_eq. unfold Firestore.fgetd.
  rewrite (lookup_union_Some_l _ _ _
             (FV (VBool (truthy (getd payload "share_data_with_ai" (VBool false))))))
    by reflexivity.
  rewrite (lookup_union_Some_l _ _ _
             (FV (VBool (truthy (getd payload "view_chat_history" (VBool true))))))
    by reflexivity.
  simpl. unfold merged_flag, getd.
  destruct (payload !! "share_data_with_ai"),
           (payload !! "view_chat_history"); reflexivity.
Qed.

(** C1 fails on the remote store. A user shares data with the AI; an update
    that mentions only [view_chat_history] leaves that choice in the
    local store and withdraws it in the remote store. *)
Theorem update_user_preferences_diverges :
  Json.get_user_preferences 1 json_sharing = Ok (Json.prefs_view true true) /\
  Firestore.get_user_preferences "u1" fs_sharing = Json.prefs_view true true /\
  (let* r := Json.update_user_preferences 1 hide_history json_sharing in
   Json.get_user_preferences 1 r.2) = Ok (Json.prefs_view true false) /\
  Firestore.get_user_preferences "u1"
    (Firestore.update_user_preferences "u1" hide_history fs_sharing).2 =
  Json.prefs_view false false.
Proof. repeat split; reflexivity. Qed.

(** ** The stores the program builds *)

(** The conditions on stored records assumed above hold in the empty
    stores and are kept by the functions that write. *)
Lemma empty_stores_ok :
  json_users_okb Json.empty = true /\ json_decisions_okb Json.empty = true /\
  json_chat_okb Json.empty = true /\ json_prefs_okb Json.empty = true /\
  fs_decisions_okb Firestore.empty = true /\ fs_chat_okb Firestore.empty = true.
Proof. repeat split; reflexivity. Qed.

Lemma json_decisions_ok_okb (s : Json.store) :
  Forall json_decision_ok (Json.decisions s) -> json_decisions_okb s = true.
Proof.
  unfold json_decisions_okb. rewrite forallb_forall, Forall_forall.
  intros H d Hd. destruct (H d) as (H1 & H2 & H3); [apply list_elem_of_In, Hd|].
  apply has_key_is_Some in H1, H2. apply is_strb_is_str in H3.
  rewrite H1, H2, H3. reflexivity.
Qed.

Lemma json_save_decision_keeps_ok (user_id : Z) (data : dict)
    (fresh now : string) (s : Json.store) (id : val) (s' : Json.store) :
  json_decisions_okb s = true ->
  Json.save_decision user_id data fresh now s = Ok (id, s') ->
  json_decisions_okb s' = true /\ Json.users s' = Json.users s /\
  Json.chat s' = Json.chat s /\ Json.preferences s' = Json.preferences s.
Proof.
  intros Hok Hs. split.
  - apply json_decisions_ok_okb.
    eapply json_save_decision_ok; [apply json_decisions_okb_ok, Hok | exact Hs].
  - destruct (json_save_decision_cases user_id data fresh now s
                (json_decisions_okb_ok s Hok))
      as [(l1 & d & l2 & _ & _ & _ & Hsave) | [_ Hsave]];
      rewrite Hsave in Hs; injection Hs as _ <-; auto.
Qed.

Lemma json_save_chat_message_keeps_ok (user_id : Z)
    (user_message ai_response chat_type : string)
    (decision_id : option string) (is_visible : bool) (now : string)
    (s : Json.store) :
  json_chat_okb s = true ->
  exists cid s',
    Json.save_chat_message user_id user_message ai_response chat_type
      decision_id is_visible now s = Ok (cid, s') /\
    json_chat_okb s' = true.
Proof.
  intros Hok. do 2 eexists. split; [reflexivity|].
  unfold json_chat_okb in *. simpl. rewrite forallb_app, Hok. reflexivity.
Qed.

Lemma json_update_preferences_keeps_ok (user_id : Z) (payload : dict)
    (s : Json.store) :
  json_prefs_okb s = true ->
  exists s',
    Json.update_user_preferences user_id payload s = Ok (true, s') /\
    json_prefs_okb s' = true.
Proof.
  intros Hok. pose proof (json_prefs_owned user_id s Hok) as Hown.
  unfold Json.update_user_preferences.
  destruct (find_first_pure _ _ _ Hown)
    as [(l1 & p & l2 & Hl & _ & _ & Hf) | [_ Hf]]; rewrite Hf; simpl;
    eexists; (split; [reflexivity|]); unfold json_prefs_okb in *; simpl.
  - rewrite Hl in *. rewrite <- (Nat.add_0_r (length l1)), alter_app_r.
    simpl. rewrite forallb_app in *. simpl in *.
    apply andb_true_iff in Hok as [H1 H2]. apply andb_true_iff in H2 as [Hp H2].
    rewrite H1, H2, andb_true_r. simpl.
    destruct (json_updated_flags payload p) as (Hu & _).
    unfold has_key in *. rewrite Hu. exact Hp.
  - rewrite forallb_app, Hok. reflexivity.
Qed.

Lemma fs_save_decision_keeps_ok (user_id : string) (data : dict)
    (fresh : string) (now : Z) (s : Firestore.store) (id : val)
    (s' : Firestore.store) :
  fs_decisions_ok s ->
  Firestore.save_decision user_id data fresh now s = Ok (id, s') ->
  fs_decisions_ok s'.
Proof.
  intros Hok Hs. unfold Firestore.save_decision in Hs.
  destruct (Firestore.document_id _) as [i|e]; simpl in Hs; [|discriminate].
  injection Hs as _ <-. intros k d. simpl. unfold Firestore.doc_set_merge.
  destruct (decide (i = k)) as [<-|Hne].
  - rewrite lookup_insert_eq. intros [= <-].
    exists (FTime now). apply lookup_union_Some_l. reflexivity.
  - rewrite lookup_insert_ne by exact Hne. apply Hok.
Qed.

(** * Further properties of the program *)

(** ** The users of the local store *)

Lemma json_users_numbered_app (k : Z) (us : list dict) (u : dict) :
  json_users_numbered k (us ++ [u]) =
  json_users_numbered k us &&
  json_users_numbered (k + Z.of_nat (length us)) [u].
Proof.
  revert k. induction us as [|x r IH]; intros k.
  - simpl app. simpl length. rewrite Z.add_0_r. reflexivity.
  - simpl app.
    set (t := json_users_numbered (k + Z.of_nat (length (x :: r))) [u]).
    cbn [json_users_numbered]. rewrite IH.
    replace (k + 1 + Z.of_nat (length r)) with (k + Z.of_nat (length (x :: r)))
      by (simpl length; lia).
    fold t. rewrite !andb_assoc. reflexivity.
Qed.

(** In a numbered list the record with the id [k + i] is the one at
    position [i]. *)
Lemma json_users_numbered_lookup (k : Z) (us : list dict) (i : nat) (u : dict) :
  json_users_numbered k us = true -> us !! i = Some u ->
  u !! "id" = Some (VInt (k + Z.of_nat i)) /\
  is_Some (u !! "email") /\ is_str (getd u "email" VNone) /\
  is_Some (u !! "password_hash").
Proof.
  revert k i. induction us as [|x r IH]; intros k i Hn Hi; [discriminate|].
  cbn [json_users_numbered] in Hn.
  apply andb_true_iff in Hn as [Hn Hr]. apply andb_true_iff in Hn as [Hn Hp].
  apply andb_true_iff in Hn as [Hn Hs]. apply andb_true_iff in Hn as [Hid He].
  destruct i as [|i]; simpl in Hi.
  - injection Hi as <-. apply bool_decide_eq_true in Hid.
    rewrite Z.add_0_r. repeat split; auto.
    + apply has_key_is_Some, He.
    + apply is_strb_is_str, Hs.
    + apply has_key_is_Some, Hp.
  - destruct (IH (k + 1) i Hr Hi) as (H1 & H2).
    split; [|exact H2]. rewrite H1. do 2 f_equal. lia.
Qed.

Lemma json_users_built_okb (s : Json.store) :
  json_users_built s = true -> json_users_okb s = true.
Proof.
  unfold json_users_built, json_users_okb. intros H.
  apply andb_true_iff in H as [H _]. apply forallb_forall. intros u Hu.
  apply list_elem_of_In, list_elem_of_lookup in Hu as [i Hi].
  apply has_key_is_Some.
  destruct (json_users_numbered_lookup 1 _ i u H Hi) as (_ & He & _). exact He.
Qed.

(** The test [u["id"] == user_id] on a numbered list. *)
Lemma json_id_is_numbered (k : Z) (us : list dict) (user_id : Z) :
  json_users_numbered k us = true ->
  Forall (fun u => Json.id_is user_id u =
                   Ok (bool_decide (u !! "id" = Some (VInt user_id)))) us.
Proof.
  intros Hn. apply Forall_forall. intros u Hu.
  apply list_elem_of_lookup in Hu as [i Hi].
  destruct (json_users_numbered_lookup k us i u Hn Hi) as (Hid & _).
  unfold Json.id_is, item. rewrite Hid. simpl. f_equal.
  destruct (Z.eqb_spec (k + Z.of_nat i) user_id) as [->|Hne].
  - symmetry. apply bool_decide_eq_true. reflexivity.
  - symmetry. apply bool_decide_eq_false. congruence.
Qed.

(** Where [find_first] stops on a numbered list. *)
Lemma json_find_id (us : list dict) (user_id : Z) :
  json_users_numbered 1 us = true ->
  find_first (Json.id_is user_id) us =
  Ok (if (1 <=? user_id) && (user_id <=? Z.of_nat (length us))
      then Some (Z.to_nat (user_id - 1)) else None).
Proof.
  intros Hn.
  destruct (find_first_pure _ _ _ (json_id_is_numbered 1 us user_id Hn))
    as [(l1 & u & l2 & -> & _ & Hu & ->) | [Hnone ->]].
  - apply bool_decide_eq_true in Hu.
    destruct (json_users_numbered_lookup 1 _ (length l1) u Hn) as (Hid & _).
    { apply list_lookup_middle. reflexivity. }
    rewrite Hu in Hid. injection Hid as ->.
    rewrite length_app. simpl length.
    replace (_ && _) with true.
    + do 2 f_equal. lia.
    + symmetry. apply andb_true_iff. split; [apply Z.leb_le | apply Z.leb_le]; lia.
  - destruct ((1 <=? user_id) && (user_id <=? Z.of_nat (length us))) eqn:Hin;
      [|reflexivity].
    exfalso. apply andb_true_iff in Hin as [H1 H2].
    apply Z.leb_le in H1, H2.
    destruct (lookup_lt_is_Some_2 us (Z.to_nat (user_id - 1))) as [u Hu]; [lia|].
    destruct (json_users_numbered_lookup 1 us _ u Hn Hu) as (Hid & _).
    rewrite Forall_forall in Hnone.
    pose proof (Hnone u (proj2 (list_elem_of_lookup _ _) (ex_intro _ _ Hu))) as Hf.
    apply bool_decide_eq_false in Hf. apply Hf. rewrite Hid. do 2 f_equal. lia.
Qed.

Lemma json_emails_app (us : list dict) (u : dict) :
  json_emails (us ++ [u]) = json_emails us ++ [getd u "email" VNone].
Proof. unfold json_emails. rewrite map_app. reflexivity. Qed.

Lemma json_email_free (email : string) (us : list dict) :
  existsb (fun u => py_eq (getd u "email" VNone) (VStr email)) us = false ->
  VStr email ∉ json_emails us.
Proof.
  intros Hfree Hin. unfold json_emails in Hin.
  apply list_elem_of_fmap in Hin as (u & He & Hu).
  assert (Ht : existsb (fun u => py_eq (getd u "email" VNone) (VStr email)) us
               = true).
  { apply existsb_exists. exists u. split; [apply list_elem_of_In, Hu|].
    rewrite <- He. apply py_eq_refl. }
  congruence.
Qed.

Lemma json_users_numbered_alter (k : Z) (us : list dict) (i : nat) (v : val) :
  json_users_numbered k us = true ->
  json_users_numbered k (alter (fun u => <["password_hash" := v]> u) i us) = true /\
  json_emails (alter (fun u => <["password_hash" := v]> u) i us) = json_emails us.
Proof.
  revert k i. induction us as [|x r IH]; intros k i Hn; [split; reflexivity|].
  cbn [json_users_numbered] in Hn.
  apply andb_true_iff in Hn as [Hn Hr]. apply andb_true_iff in Hn as [Hn Hp].
  apply andb_true_iff in Hn as [Hn Hs]. apply andb_true_iff in Hn as [Hid He].
  destruct i as [|i].
  - change (alter (fun u : dict => <["password_hash" := v]> u) 0%nat (x :: r))
      with (<["password_hash" := v]> x :: r).
    cbn [json_users_numbered]. unfold json_emails, has_key, getd in *. simpl map.
    rewrite lookup_insert_eq.
    rewrite !lookup_insert_ne by discriminate.
    rewrite Hid, Hs, Hr. destruct (x !! "email"); [|discriminate].
    split; reflexivity.
  - change (alter (fun u : dict => <["password_hash" := v]> u) (S i) (x :: r))
      with (x :: alter (fun u : dict => <["password_hash" := v]> u) i r).
    destruct (IH (k + 1) i Hr) as [H1 H2].
    cbn [json_users_numbered]. rewrite Hid, He, Hs, Hp, H1.
    split; [reflexivity|]. unfold json_emails in *. simpl map. rewrite H2.
    reflexivity.
Qed.

Lemma json_user_record_numbered (k : Z) (email h full_name now : string) :
  json_users_numbered k [json_user_record k email h full_name now] = true /\
  getd (json_user_record k email h full_name now) "email" VNone = VStr email.
Proof.
  split; [|reflexivity]. cbn [json_users_numbered].
  rewrite bool_decide_eq_true_2 by reflexivity. reflexivity.
Qed.

Section JsonUsers.
Variable sha256_hexdigest : string -> string.

(** What [create_user] returns on such a file. *)
Lemma json_users_built_step (s : Json.store) :
  json_users_built s = true ->
  forall email password full_name now,
  exists s',
    Json.create_user sha256_hexdigest email password full_name now s =
      Ok (negb (json_email_taken email s), s') /\
    json_users_built s' = true /\
    Json.users s' =
      if json_email_taken email s then Json.users s
      else Json.users s ++
           [json_user_record (Z.of_nat (length (Json.users s)) + 1) email
              (_hash_password sha256_hexdigest password) full_name now].
Proof.
  intros Hb email password full_name now.
  pose proof (json_users_built_okb s Hb) as Hok.
  pose proof Hb as Hb'. unfold json_users_built in Hb'.
  apply andb_true_iff in Hb' as [Hn Hd]. apply bool_decide_eq_true in Hd.
  rewrite (json_create_user_spec sha256_hexdigest _ _ _ _ _ Hok).
  destruct (json_email_taken email s) eqn:Ht; eexists;
    (split; [reflexivity|]); (split; [|reflexivity]); [exact Hb|].
  unfold json_users_built.
  cbn [Json.users Json.save_preferences Json.save_users].
  rewrite json_users_numbered_app, Hn, json_emails_app.
  rewrite (Z.add_comm (Z.of_nat _) 1).
  destruct (json_user_record_numbered (1 + Z.of_nat (length (Json.users s)))
              email (_hash_password sha256_hexdigest password) full_name now)
    as [-> ->].
  simpl. apply bool_decide_eq_true.
  apply NoDup_app. split; [exact Hd|]. split.
  - intros x Hx Hin. apply list_elem_of_singleton in Hin. subst x.
    revert Hx. apply (json_email_free email). exact Ht.
  - apply NoDup_singleton.
Qed.

(** X1. The local store keeps the shape of its users file: in a file
    where the record at position [i] has the id [i + 1] and no two records
    share an email, [create_user] and [update_user_password] return without
    raising and leave a file of the same shape. *)
Theorem json_users_shape_kept (s : Json.store) :
  json_users_built s = true ->
  (forall email password full_name now,
   exists b s',
     Json.create_user sha256_hexdigest email password full_name now s =
       Ok (b, s') /\
     json_users_built s' = true) /\
  (forall user_id new_password,
   exists b s',
     Json.update_user_password sha256_hexdigest user_id new_password s =
       Ok (b, s') /\
     json_users_built s' = true).
Proof.
  intros Hb. pose proof (json_users_built_okb s Hb) as Hok.
  pose proof Hb as Hb'. unfold json_users_built in Hb'.
  apply andb_true_iff in Hb' as [Hn Hd]. apply bool_decide_eq_true in Hd.
  split.
  - intros email password full_name now.
    destruct (json_users_built_step s Hb email password full_name now)
      as (s' & Hs & Hb' & _).
    eauto.
  - intros user_id new_password. unfold Json.update_user_password.
    rewrite (json_find_id _ user_id Hn).
    destruct (_ && _); simpl; do 2 eexists; (split; [reflexivity|]);
      [|exact Hb].
    unfold json_users_built. simpl.
    destruct (json_users_numbered_alter 1 (Json.users s)
                (Z.to_nat (user_id - 1))
                (VStr (_hash_password sha256_hexdigest new_password)) Hn)
      as [H1 H2].
    rewrite H1, H2. simpl. apply bool_decide_eq_true. exact Hd.
Qed.
End JsonUsers.

Lemma json_users_shape_kept_witness :
  json_users_built json_two_users = true /\
  (exists s',
     Json.create_user toy_digest "c@x.com" "pw3" "C" "2024-01-03T00:00:00"
       json_two_users = Ok (true, s') /\
     json_users_built s' = true).
Proof.
  assert (H : json_users_built json_two_users = true) by reflexivity.
  destruct (json_users_shape_kept toy_digest json_two_users H) as [Hc _].
  destruct (Hc "c@x.com" "pw3" "C" "2024-01-03T00:00:00") as (b & s' & Hs & Hb).
  split; [exact H|]. exists s'. split; [|exact Hb].
  rewrite Hs. f_equal. f_equal.
  assert (E : Json.create_user toy_digest "c@x.com" "pw3" "C"
                "2024-01-03T00:00:00" json_two_users =
              Ok (true, Json.save_preferences
                          (Json.preferences json_two_users ++ [json_default_prefs 3])
                          (Json.save_users
                             (Json.users json_two_users ++
                              [json_user_record 3 "c@x.com" (toy_digest "pw3") "C"
                                 "2024-01-03T00:00:00"]) json_two_users)))
    by reflexivity.
  rewrite E in Hs. injection Hs as <- _. reflexivity.
Defined.

(** On a numbered list the test of [get_user_by_email] does not raise. *)
Lemma json_email_is_numbered (k : Z) (us : list dict) (email : string) :
  json_users_numbered k us = true ->
  Forall (fun u => Json.field_is "email" (VStr email) u =
                   Ok (py_eq (getd u "email" VNone) (VStr email))) us.
Proof.
  intros Hn. apply Forall_forall. intros u Hu.
  apply list_elem_of_lookup in Hu as [i Hi].
  destruct (json_users_numbered_lookup k us i u Hn Hi) as (_ & He & _).
  apply json_field_is_pure, He.
Qed.

Section JsonAccounts.
Variable sha256_hexdigest : string -> string.

(** [authenticate_user] on a list where no record holds the email. *)
Lemma json_authenticate_unknown (email w : string) (us : list dict) :
  Forall (fun u => is_Some (u !! "email")) us ->
  existsb (fun u => py_eq (getd u "email" VNone) (VStr email)) us = false ->
  Json.authenticate_loop sha256_hexdigest email w us = Ok None.
Proof.
  induction 1 as [|u r [e He] _ IH]; simpl; [reflexivity|].
  unfold getd at 1. rewrite He. simpl. intros Hnone.
  apply orb_false_iff in Hnone as [Hne Hnone].
  unfold item at 1. rewrite He. simpl. rewrite Hne. apply IH, Hnone.
Qed.

(** [authenticate_user] on a list where one record holds the email. *)
Lemma json_authenticate_at (email w : string) (l1 l2 : list dict) (u : dict)
    (h : string) (id : val) :
  Forall (fun u => is_Some (u !! "email")) (l1 ++ l2) ->
  existsb (fun u => py_eq (getd u "email" VNone) (VStr email)) (l1 ++ l2) = false ->
  u !! "email" = Some (VStr email) -> u !! "password_hash" = Some (VStr h) ->
  u !! "id" = Some id ->
  Json.authenticate_loop sha256_hexdigest email w (l1 ++ u :: l2) =
  Ok (if String.eqb h (sha256_hexdigest w) then Some id else None).
Proof.
  intros Hok Hfree He Hh Hid.
  apply Forall_app in Hok as [Hok1 Hok2].
  rewrite existsb_app in Hfree. apply orb_false_iff in Hfree as [Hf1 Hf2].
  induction Hok1 as [|x r [e Hx] _ IH]; simpl.
  - unfold item. rewrite He, Hh, Hid. simpl. rewrite String.eqb_refl.
    unfold _hash_password. destruct (String.eqb h _); [reflexivity|].
    apply json_authenticate_unknown; assumption.
  - simpl in Hf1. unfold getd at 1 in Hf1. rewrite Hx in Hf1. simpl in Hf1.
    apply orb_false_iff in Hf1 as [Hne Hf1].
    unfold item at 1. rewrite Hx. simpl. rewrite Hne. apply IH, Hf1.
Qed.

(** X2. In the local store, after [create_user] registered an email that
    was free, [get_user_by_email] and [get_user] with the new id return the
    same record: the email, the name and the id of the new user, and no
    [password_hash]. *)
Theorem json_create_then_get_user (email password full_name now : string)
    (s : Json.store) :
  json_users_built s = true -> json_email_taken email s = false ->
  exists s1 d,
    Json.create_user sha256_hexdigest email password full_name now s =
      Ok (true, s1) /\
    Json.get_user_by_email email s1 = Ok (Some d) /\
    Json.get_user (Z.of_nat (length (Json.users s)) + 1) s1 = Ok (Some d) /\
    d !! "email" = Some (VStr email) /\
    d !! "full_name" = Some (VStr full_name) /\
    d !! "id" = Some (VInt (Z.of_nat (length (Json.users s)) + 1)) /\
    d !! "password_hash" = None.
Proof.
  intros Hb Hfree.
  destruct (json_users_built_step sha256_hexdigest s Hb
              email password full_name now) as (s1 & Hs1 & Hb1 & Hus).
  rewrite Hfree in Hus.
  set (uid := Z.of_nat (length (Json.users s)) + 1) in *.
  set (u := json_user_record uid email
              (_hash_password sha256_hexdigest password) full_name now) in *.
  exists s1, (Json.public_view u).
  pose proof Hb1 as Hn1. unfold json_users_built in Hn1.
  apply andb_true_iff in Hn1 as [Hn1 _].
  split; [rewrite Hs1, Hfree; reflexivity|].
  split; [|split].
  - unfold Json.get_user_by_email.
    destruct (find_first_pure _ _ _ (json_email_is_numbered 1 _ email Hn1))
      as [(l1 & x & l2 & Hl & Hl1 & Hx & ->) | [Hnone _]].
    + simpl. rewrite Hl, list_lookup_middle by reflexivity. simpl.
      rewrite Hus in Hl.
      assert (l2 = [] /\ x = u /\ l1 = Json.users s) as (_ & -> & _);
        [|reflexivity].
      destruct l2 as [|y l2' _] using rev_ind.
      * apply app_inj_tail in Hl as [-> ->]. auto.
      * exfalso. rewrite app_comm_cons, app_assoc in Hl.
        apply app_inj_tail in Hl as [Hl _].
        unfold json_email_taken in Hfree. rewrite Hl in Hfree.
        rewrite existsb_app in Hfree. simpl in Hfree. rewrite Hx in Hfree.
        rewrite orb_true_r in Hfree. discriminate.
    + exfalso. rewrite Hus in Hnone. apply Forall_app in Hnone as [_ Hnone].
      apply Forall_cons in Hnone as [Hnone _]. unfold u in Hnone.
      destruct (json_user_record_numbered uid email
                  (_hash_password sha256_hexdigest password) full_name now)
        as [_ He].
      rewrite He in Hnone. simpl in Hnone. rewrite String.eqb_refl in Hnone.
      discriminate.
  - unfold Json.get_user. rewrite (json_find_id _ uid Hn1). rewrite Hus.
    rewrite length_app. simpl length.
    replace (_ && _) with true
      by (symmetry; apply andb_true_iff; split; apply Z.leb_le; unfold uid; lia).
    simpl. replace (Z.to_nat (uid - 1)) with (length (Json.users s))
      by (unfold uid; lia).
    rewrite list_lookup_middle by reflexivity. reflexivity.
  - repeat split; reflexivity.
Qed.
End JsonAccounts.

Lemma json_create_then_get_user_witness :
  json_users_built json_two_users = true /\
  json_email_taken "c@x.com" json_two_users = false /\
  exists s1 d,
    Json.create_user toy_digest "c@x.com" "pw3" "C" "2024-01-03T00:00:00"
      json_two_users = Ok (true, s1) /\
    Json.get_user_by_email "c@x.com" s1 = Ok (Some d) /\
    Json.get_user 3 s1 = Ok (Some d) /\
    d !! "password_hash" = None.
Proof.
  assert (H1 : json_users_built json_two_users = true) by reflexivity.
  assert (H2 : json_email_taken "c@x.com" json_two_users = false) by reflexivity.
  destruct (json_create_then_get_user toy_digest "c@x.com" "pw3" "C"
              "2024-01-03T00:00:00" json_two_users H1 H2)
    as (s1 & d & A & B & C & _ & _ & _ & D).
  split; [exact H1|]. split; [exact H2|]. exists s1, d. auto.
Defined.

Lemma py_eq_str_iff (v : val) (e : string) : py_eq v (VStr e) = true <-> v = VStr e.
Proof.
  destruct v as [|b|n|t|l]; simpl; split; try discriminate.
  - intros H. apply String.eqb_eq in H. congruence.
  - intros [= ->]. apply String.eqb_refl.
Qed.

Lemma json_email_absent (email : string) (us : list dict) :
  VStr email ∉ json_emails us ->
  existsb (fun u => py_eq (getd u "email" VNone) (VStr email)) us = false.
Proof.
  intros Hnot. destruct (existsb _ us) eqn:H; [|reflexivity].
  exfalso. apply existsb_exists in H as (u & Hu & He).
  apply py_eq_str_iff in He. apply Hnot. rewrite <- He.
  unfold json_emails. apply list_elem_of_fmap. exists u. split; [reflexivity|].
  apply list_elem_of_In, Hu.
Qed.

Section JsonPasswords.
Variable sha256_hexdigest : string -> string.

(** A record with another email is passed over by [authenticate_user]. *)
Lemma json_authenticate_skip (email w : string) (l1 l2 : list dict) (x : dict)
    (v : val) :
  x !! "email" = Some v -> py_eq v (VStr email) = false ->
  Json.authenticate_loop sha256_hexdigest email w (l1 ++ x :: l2) =
  Json.authenticate_loop sha256_hexdigest email w (l1 ++ l2).
Proof.
  intros Hx Hne. induction l1 as [|y r IH]; simpl.
  - unfold item at 1. rewrite Hx. simpl. rewrite Hne. reflexivity.
  - rewrite IH. reflexivity.
Qed.

(** X3. In the local store [update_user_password] returns [False] and
    changes nothing when no user has the id.  Otherwise it returns [True]
    and replaces the hash of that user only: the user then logs in with the
    new password and with no password of another digest, and a login with
    any other email gives what it gave before. *)
Theorem json_update_password_then_login (user_id : Z) (new_password : string)
    (s : Json.store) :
  json_users_built s = true ->
  (user_id < 1 \/ Z.of_nat (length (Json.users s)) < user_id ->
   Json.update_user_password sha256_hexdigest user_id new_password s =
     Ok (false, s)) /\
  (forall u e,
     1 <= user_id -> Json.users s !! Z.to_nat (user_id - 1) = Some u ->
     u !! "email" = Some (VStr e) ->
     exists s',
       Json.update_user_password sha256_hexdigest user_id new_password s =
         Ok (true, s') /\
       Json.users s' =
         <[Z.to_nat (user_id - 1) :=
             <["password_hash" :=
                 VStr (_hash_password sha256_hexdigest new_password)]> u]>
           (Json.users s) /\
       Json.decisions s' = Json.decisions s /\ Json.chat s' = Json.chat s /\
       Json.preferences s' = Json.preferences s /\
       Json.authenticate_user sha256_hexdigest e new_password s' =
         Ok (Some (VInt user_id)) /\
       (forall w, sha256_hexdigest w <> sha256_hexdigest new_password ->
          Json.authenticate_user sha256_hexdigest e w s' = Ok None) /\
       (forall e' w, e' <> e ->
          Json.authenticate_user sha256_hexdigest e' w s' =
          Json.authenticate_user sha256_hexdigest e' w s)).
Proof.
  intros Hb. pose proof Hb as Hb'. unfold json_users_built in Hb'.
  apply andb_true_iff in Hb' as [Hn Hd]. apply bool_decide_eq_true in Hd.
  split.
  - intros Hout. unfold Json.update_user_password.
    rewrite (json_find_id _ user_id Hn).
    replace (_ && _) with false; [reflexivity|].
    symmetry. apply andb_false_iff.
    destruct Hout; [left; apply Z.leb_gt | right; apply Z.leb_gt]; lia.
  - intros u e Hpos Hu He.
    set (i := Z.to_nat (user_id - 1)) in *.
    set (h := VStr (_hash_password sha256_hexdigest new_password)).
    pose proof (lookup_lt_Some _ _ _ Hu) as Hlt.
    destruct (json_users_numbered_lookup 1 _ i u Hn Hu) as (Hid & _).
    replace (1 + Z.of_nat i) with user_id in Hid by (unfold i; lia).
    pose proof (take_drop_middle _ _ _ Hu) as Hsplit.
    set (l1 := take i (Json.users s)) in *.
    set (l2 := drop (S i) (Json.users s)) in *.
    assert (Hlen : length l1 = i) by (unfold l1; rewrite length_take; lia).
    assert (Halter : alter (fun u => <["password_hash" := h]> u) i (Json.users s)
                     = l1 ++ <["password_hash" := h]> u :: l2).
    { rewrite <- Hsplit at 1. rewrite <- Hlen, <- (Nat.add_0_r (length l1)).
      rewrite alter_app_r. reflexivity. }
    assert (Hinsert : <[i := <["password_hash" := h]> u]> (Json.users s)
                      = l1 ++ <["password_hash" := h]> u :: l2).
    { rewrite <- Hsplit at 1. rewrite <- Hlen, <- (Nat.add_0_r (length l1)).
      rewrite insert_app_r. reflexivity. }
    assert (Hkeys : Forall (fun x => is_Some (x !! "email")) (l1 ++ l2)).
    { pose proof (json_users_okb_ok s (json_users_built_okb s Hb)) as Hall.
      rewrite <- Hsplit in Hall. apply Forall_app in Hall as [H1 H2].
      apply Forall_cons in H2 as [_ H2]. apply Forall_app. auto. }
    assert (Hfree : existsb (fun x => py_eq (getd x "email" VNone) (VStr e))
                      (l1 ++ l2) = false).
    { apply json_email_absent. rewrite <- Hsplit in Hd.
      unfold json_emails in *. rewrite map_app in *. simpl map in Hd.
      apply NoDup_app in Hd as (_ & Hd1 & Hd2).
      apply NoDup_cons in Hd2 as [Hd2 _].
      unfold getd in Hd1, Hd2. rewrite He in Hd1, Hd2. simpl in Hd1, Hd2.
      intros Hin. apply elem_of_app in Hin as [Hin | Hin].
      - apply (Hd1 _ Hin). left.
      - contradiction. }
    eexists. split.
    { unfold Json.update_user_password. rewrite (json_find_id _ user_id Hn).
      replace (_ && _) with true; [reflexivity|].
      symmetry. apply andb_true_iff. split; apply Z.leb_le; unfold i in Hlt; lia. }
    cbn [Json.users Json.decisions Json.chat Json.preferences Json.save_users].
    fold i. fold h. rewrite Halter, Hinsert.
    split; [reflexivity|]. split; [reflexivity|]. split; [reflexivity|].
    split; [reflexivity|].
    assert (Hauth : forall w,
      Json.authenticate_loop sha256_hexdigest e w
        (l1 ++ <["password_hash" := h]> u :: l2) =
      Ok (if String.eqb (_hash_password sha256_hexdigest new_password)
                        (sha256_hexdigest w)
          then Some (VInt user_id) else None)).
    { intros w. apply json_authenticate_at; auto.
      - rewrite lookup_insert_ne by discriminate. exact He.
      - apply lookup_insert_eq.
      - rewrite lookup_insert_ne by discriminate. exact Hid. }
    split; [|split].
    + unfold Json.authenticate_user. cbn [Json.users Json.save_users]. rewrite Hauth.
      unfold _hash_password. rewrite String.eqb_refl. reflexivity.
    + intros w Hw. unfold Json.authenticate_user. cbn [Json.users Json.save_users].
      rewrite Hauth. unfold _hash_password.
      destruct (String.eqb_spec (sha256_hexdigest new_password)
                                (sha256_hexdigest w)); [congruence|reflexivity].
    + intros e' w Hne. unfold Json.authenticate_user. cbn [Json.users Json.save_users].
      rewrite <- Hsplit.
      assert (Hpy : py_eq (VStr e) (VStr e') = false).
      { simpl. apply String.eqb_neq. congruence. }
      rewrite (json_authenticate_skip e' w l1 l2
                 (<["password_hash" := h]> u) (VStr e));
        [|rewrite lookup_insert_ne by discriminate; exact He | exact Hpy].
      rewrite (json_authenticate_skip e' w l1 l2 u (VStr e)); auto.
Qed.
End JsonPasswords.

Lemma json_update_password_then_login_witness :
  json_users_built json_two_users = true /\
  exists s',
    Json.update_user_password toy_digest 2 "new" json_two_users = Ok (true, s') /\
    Json.authenticate_user toy_digest "b@x.com" "new" s' = Ok (Some (VInt 2)) /\
    Json.authenticate_user toy_digest "b@x.com" "pw2" s' = Ok None /\
    Json.authenticate_user toy_digest "a@x.com" "pw1" s' = Ok (Some (VInt 1)).
Proof.
  assert (H : json_users_built json_two_users = true) by reflexivity.
  destruct (json_update_password_then_login toy_digest 2 "new" json_two_users H)
    as [_ Hin].
  destruct (Hin (json_user_record 2 "b@x.com" (toy_digest "pw2") "B"
                   "2024-01-02T00:00:00") "b@x.com")
    as (s' & A & _ & _ & _ & _ & B & C & D); [lia | reflexivity | reflexivity|].
  split; [exact H|]. exists s'. split; [exact A|]. split; [exact B|].
  split; [apply C; discriminate|].
  rewrite (D "a@x.com" "pw1"); [reflexivity | discriminate].
Defined.

(** ** The decisions of the local store *)

(** [get_decision] returns the first record with the id and the owner. *)
Lemma json_get_decision_eq (user_id : Z) (id : string) (s : Json.store) :
  Forall json_decision_ok (Json.decisions s) ->
  Json.get_decision user_id id s =
  Ok (head (List.filter (is_decision (VStr id) user_id) (Json.decisions s))).
Proof.
  intros Hok. unfold Json.get_decision.
  destruct (find_first_pure _ _ _ (json_matches_all (VStr id) user_id _ Hok))
    as [(l1 & d & l2 & Hl & Hl1 & Hd & ->) | [Hnone ->]]; simpl.
  - rewrite Hl, list_lookup_middle by reflexivity.
    rewrite List.filter_app, (filter_none _ _ Hl1). simpl. rewrite Hd.
    reflexivity.
  - rewrite (filter_none _ _ Hnone). reflexivity.
Qed.

Lemma py_eq_str_l (a : string) (v : val) : py_eq (VStr a) v = true <-> v = VStr a.
Proof.
  destruct v as [|b|n|t|l]; simpl; split; try discriminate.
  - intros H. apply String.eqb_eq in H. congruence.
  - intros [= ->]. apply String.eqb_refl.
Qed.

(** A record that is a decision [i] of [user_id] is no decision [id'] of
    [user_id'] when the owners differ or [i] is not [id']. *)
Lemma is_decision_other (i : val) (user_id user_id' : Z) (id' : string)
    (d : dict) :
  user_id' <> user_id \/ py_eq i (VStr id') = false ->
  is_decision i user_id d = true ->
  is_decision (VStr id') user_id' d = false.
Proof.
  intros Hdiff Hd. unfold is_decision in *.
  apply andb_true_iff in Hd as [Hi Ho].
  destruct Hdiff as [Hne | Hne].
  - rewrite (owner_is_other user_id' user_id d Hne Ho). apply andb_false_r.
  - destruct (py_eq (getd d "id" VNone) (VStr id')) eqn:E; [|reflexivity].
    apply py_eq_str_iff in E. rewrite E in Hi. apply py_eq_str_l in Hi.
    rewrite Hi in Hne. simpl in Hne. rewrite String.eqb_refl in Hne.
    discriminate.
Qed.

(** X4. In the local store a saved decision is read back: when the id it is
    stored under is a string, [get_decision] with that id and the owner
    returns a record that carries every field of the payload, and the id
    [save_decision] returned is not falsy.  The checks of the caller after
    [save_decision] cannot fail. *)
Theorem json_save_then_get (user_id : Z) (data : dict) (fresh now : string)
    (s : Json.store) (id : string) :
  json_decisions_okb s = true ->
  String.eqb fresh "" = false ->
  py_or (getd data "id" VNone) (VStr fresh) = VStr id ->
  exists s' r,
    Json.save_decision user_id data fresh now s = Ok (VStr id, s') /\
    truthy (VStr id) = true /\
    Json.get_decision user_id id s' = Ok (Some r) /\
    Json.decision_payload (VStr id) user_id data now ⊆ r.
Proof.
  intros Hok Hfresh Hid. apply json_decisions_okb_ok in Hok.
  assert (Ht : truthy (VStr id) = true).
  { unfold py_or in Hid. destruct (truthy (getd data "id" VNone)) eqn:E.
    - rewrite <- Hid. exact E.
    - injection Hid as <-. simpl. rewrite Hfresh. reflexivity. }
  pose proof (json_save_decision_ok user_id data fresh now s) as Hkeep.
  destruct (json_save_decision_cases user_id data fresh now s Hok)
    as [(l1 & d & l2 & Hl & Hl1 & Hd & Hsave) | [Hnone Hsave]];
    rewrite Hid in *; rewrite Hsave; do 2 eexists;
    (split; [reflexivity|]); (split; [exact Ht|]);
    (rewrite json_get_decision_eq by (eapply Hkeep; [exact Hok | exact Hsave]));
    simpl.
  - rewrite List.filter_app, (filter_none _ _ Hl1). simpl.
    destruct (json_payload_ok (VStr id) user_id data now d) as (_ & -> & _).
    split; [reflexivity|]. apply map_union_subseteq_l.
  - destruct (json_payload_ok (VStr id) user_id data now ∅) as (_ & Hm & _).
    rewrite map_union_empty in Hm. rewrite Hm.
    split; reflexivity.
Qed.

Lemma json_save_then_get_witness :
  json_decisions_okb json_two_decisions = true /\
  String.eqb "uuid-3" "" = false /\
  py_or (getd ∅ "id" VNone) (VStr "uuid-3") = VStr "uuid-3" /\
  exists s' r,
    Json.save_decision 1 ∅ "uuid-3" "2024-01-03T00:00:00" json_two_decisions =
      Ok (VStr "uuid-3", s') /\
    Json.get_decision 1 "uuid-3" s' = Ok (Some r).
Proof.
  assert (H1 : json_decisions_okb json_two_decisions = true) by reflexivity.
  assert (H2 : String.eqb "uuid-3" "" = false) by reflexivity.
  assert (H3 : py_or (getd (∅ : dict) "id" VNone) (VStr "uuid-3") = VStr "uuid-3")
    by reflexivity.
  destruct (json_save_then_get 1 ∅ "uuid-3" "2024-01-03T00:00:00"
              json_two_decisions "uuid-3" H1 H2 H3) as (s' & r & A & _ & B & _).
  split; [exact H1|]. split; [exact H2|]. split; [exact H3|].
  exists s', r. auto.
Defined.

(** X5. In the local store [save_decision] leaves the decisions of the
    other keys alone: a read with another owner, or with an id that is not
    the id saved, returns what it returned before. *)
Theorem json_save_decision_frame (user_id : Z) (data : dict)
    (fresh now : string) (s : Json.store) (user_id' : Z) (id' : string) :
  json_decisions_okb s = true ->
  user_id' <> user_id \/
  py_eq (py_or (getd data "id" VNone) (VStr fresh)) (VStr id') = false ->
  exists i s',
    Json.save_decision user_id data fresh now s = Ok (i, s') /\
    Json.get_decision user_id' id' s' = Json.get_decision user_id' id' s /\
    Json.users s' = Json.users s /\ Json.chat s' = Json.chat s /\
    Json.preferences s' = Json.preferences s.
Proof.
  intros Hok Hdiff. apply json_decisions_okb_ok in Hok.
  pose proof (json_save_decision_ok user_id data fresh now s) as Hkeep.
  set (i := py_or (getd data "id" VNone) (VStr fresh)) in *.
  destruct (json_save_decision_cases user_id data fresh now s Hok)
    as [(l1 & d & l2 & Hl & Hl1 & Hd & Hsave) | [Hnone Hsave]];
    fold i in Hsave; try fold i in Hd; rewrite Hsave; do 2 eexists;
    (split; [reflexivity|]); (split; [|auto]);
    (rewrite json_get_decision_eq by (eapply Hkeep; [exact Hok | exact Hsave]));
    rewrite (json_get_decision_eq _ _ s Hok); simpl.
  - rewrite Hl, !List.filter_app. simpl.
    destruct (json_payload_ok i user_id data now d) as (_ & Hm & _).
    rewrite (is_decision_other i user_id user_id' id' _ Hdiff Hm).
    rewrite (is_decision_other i user_id user_id' id' _ Hdiff Hd).
    reflexivity.
  - destruct (json_payload_ok i user_id data now ∅) as (_ & Hm & _).
    rewrite map_union_empty in Hm.
    rewrite (is_decision_other i user_id user_id' id' _ Hdiff Hm).
    reflexivity.
Qed.

Lemma json_save_decision_frame_witness :
  json_decisions_okb json_two_owners = true /\ 1 <> 2 /\
  exists i s',
    Json.save_decision 2 (<["id" := VStr "d1"]> ∅) "uuid-4"
      "2024-01-04T00:00:00" json_two_owners = Ok (i, s') /\
    Json.get_decision 1 "d1" s' = Json.get_decision 1 "d1" json_two_owners.
Proof.
  assert (H1 : json_decisions_okb json_two_owners = true) by reflexivity.
  assert (H2 : 1 <> 2) by lia.
  destruct (json_save_decision_frame 2 (<["id" := VStr "d1"]> ∅) "uuid-4"
              "2024-01-04T00:00:00" json_two_owners 1 "d1" H1 (or_introl H2))
    as (i & s' & A & B & _).
  split; [exact H1|]. split; [exact H2|]. exists i, s'. auto.
Defined.

Lemma filter_all_true_on {A : Type} (f : A -> bool) (l : list A) :
  (forall x, In x l -> f x = true) -> List.filter f l = l.
Proof.
  induction l as [|x r IH]; intros H; simpl; [reflexivity|].
  rewrite (H x) by (left; reflexivity).
  rewrite IH by (intros y Hy; apply H; right; exact Hy). reflexivity.
Qed.

Lemma existsb_filter_length {A : Type} (f : A -> bool) (l : list A) :
  negb (length (List.filter (fun x => negb (f x)) l) =? length l)%nat =
  existsb f l.
Proof.
  induction l as [|x r IH]; [reflexivity|].
  pose proof (List.filter_length_le (fun x => negb (f x)) r) as Hle.
  simpl. destruct (f x); simpl.
  - apply negb_true_iff, Nat.eqb_neq. lia.
  - exact IH.
Qed.

(** X6. In the local store [delete_decision] removes every record with
    the id and the owner and nothing else.  It returns whether there was
    one; when there was none the store is the same.  After it the owner
    reads none under the id, a read with another owner or another id
    returns what it returned before, and the chat messages linked to the
    decision are still stored. *)
Theorem json_delete_decision_effect (user_id : Z) (id : string)
    (s : Json.store) :
  json_decisions_okb s = true ->
  exists s',
    Json.delete_decision user_id id s =
      Ok (existsb (is_decision (VStr id) user_id) (Json.decisions s), s') /\
    Json.decisions s' =
      List.filter (fun d => negb (is_decision (VStr id) user_id d))
        (Json.decisions s) /\
    (existsb (is_decision (VStr id) user_id) (Json.decisions s) = false ->
     s' = s) /\
    Json.get_decision user_id id s' = Ok None /\
    (forall user_id' id',
       user_id' <> user_id \/ id' <> id ->
       Json.get_decision user_id' id' s' = Json.get_decision user_id' id' s) /\
    Json.users s' = Json.users s /\ Json.chat s' = Json.chat s /\
    Json.preferences s' = Json.preferences s.
Proof.
  intros Hok. apply json_decisions_okb_ok in Hok.
  set (keep := fun d => negb (is_decision (VStr id) user_id d)).
  assert (Hdel : filterM (fun d =>
                   let* m := Json.decision_matches (VStr id) user_id d in
                   Ok (negb m)) (Json.decisions s) =
                 Ok (List.filter keep (Json.decisions s))).
  { apply filterM_pure.
    eapply Forall_impl; [exact (json_matches_all (VStr id) user_id _ Hok)|].
    intros d Hd. simpl in Hd. rewrite Hd. reflexivity. }
  assert (Hok' : Forall json_decision_ok (List.filter keep (Json.decisions s)))
    by (apply Forall_list_filter; exact Hok).
  assert (Hsame : existsb (is_decision (VStr id) user_id) (Json.decisions s)
                  = false ->
                  List.filter keep (Json.decisions s) = Json.decisions s).
  { intros Hnone. apply filter_all_true_on. intros d Hd. unfold keep.
    apply negb_true_iff.
    destruct (is_decision (VStr id) user_id d) eqn:E; [|reflexivity].
    assert (existsb (is_decision (VStr id) user_id) (Json.decisions s) = true)
      by (apply existsb_exists; eauto).
    congruence. }
  unfold Json.delete_decision. rewrite Hdel. simpl.
  rewrite (existsb_filter_length (is_decision (VStr id) user_id)).
  destruct (existsb (is_decision (VStr id) user_id) (Json.decisions s)) eqn:Hex.
  - eexists. split; [reflexivity|]. simpl.
    split; [reflexivity|]. split; [discriminate|].
    split; [|split; [|auto]].
    + rewrite json_get_decision_eq by exact Hok'. simpl.
      rewrite filter_twice. rewrite filter_none; [reflexivity|].
      apply Forall_forall. intros d _. unfold keep.
      destruct (is_decision (VStr id) user_id d); reflexivity.
    + intros user_id' id' Hdiff.
      rewrite json_get_decision_eq by exact Hok'.
      rewrite (json_get_decision_eq _ _ s Hok). simpl. f_equal. f_equal.
      rewrite filter_twice. apply List.filter_ext_in. intros d _.
      unfold keep.
      destruct (is_decision (VStr id) user_id d) eqn:E; [|reflexivity].
      simpl. symmetry.
      apply (is_decision_other (VStr id) user_id user_id' id'); [|exact E].
      destruct Hdiff as [H | H]; [left; exact H | right].
      simpl. apply String.eqb_neq. congruence.
  - exists s. split; [reflexivity|].
    split; [symmetry; apply Hsame; reflexivity|]. split; [reflexivity|].
    split; [|auto].
    rewrite json_get_decision_eq by exact Hok.
    rewrite filter_none; [reflexivity|].
    apply Forall_forall. intros d Hd.
    destruct (is_decision (VStr id) user_id d) eqn:E; [|reflexivity].
    assert (existsb (is_decision (VStr id) user_id) (Json.decisions s) = true)
      by (apply existsb_exists; exists d; split;
          [apply list_elem_of_In; exact Hd | exact E]).
    congruence.
Qed.

Lemma json_delete_decision_effect_witness :
  json_decisions_okb json_two_owners = true /\
  exists s',
    Json.delete_decision 1 "d3" json_two_owners = Ok (false, s') /\
    s' = json_two_owners.
Proof.
  assert (H : json_decisions_okb json_two_owners = true) by reflexivity.
  destruct (json_delete_decision_effect 1 "d3" json_two_owners H)
    as (s' & A & _ & B & _).
  split; [exact H|]. exists s'. split; [exact A|]. apply B. reflexivity.
Defined.

(** ** Limits *)

Lemma slice_to_negative {A : Type} (n : Z) (l : list A) :
  n < 0 -> slice_to n l = firstn (length l - Z.to_nat (- n)) l.
Proof.
  intros Hn. unfold slice_to.
  destruct (Z.ltb_spec n 0) as [_|H]; [|lia].
  f_equal. lia.
Qed.

(** X7. A negative limit divides the two stores.  The local store slices
    the list, [ds[:limit]], so a limit [n < 0] drops the [-n] oldest of
    the user's decisions and returns the others, the latest first; the
    remote store passes the limit on to the query, which refuses a
    negative one, so the call raises. *)
Theorem get_user_decisions_negative_limit (n : Z) (user_id : Z)
    (remote_user : string) (s : Json.store) (t : Firestore.store) :
  n < 0 ->
  json_decisions_okb s = true ->
  Json.get_user_decisions user_id (Some n) s =
    Ok (let l := json_newest_first user_id (Json.decisions s) in
        firstn (length l - Z.to_nat (- n)) l) /\
  Firestore.get_user_decisions remote_user (Some n) t = Raise InvalidArgument.
Proof.
  intros Hn Hok. split.
  - rewrite json_get_user_decisions_eq by (apply json_decisions_okb_ok, Hok).
    cbv zeta. destruct (Z.eqb_spec n 0) as [H|_]; [lia|].
    rewrite slice_to_negative by exact Hn. reflexivity.
  - unfold Firestore.get_user_decisions.
    destruct (Z.eqb_spec n 0) as [H|_]; [lia|].
    unfold Firestore.limit. destruct (Z.ltb_spec n 0) as [_|H]; [|lia].
    reflexivity.
Qed.

Lemma get_user_decisions_negative_limit_witness :
  Json.get_user_decisions 1 (Some (-1)) json_two_decisions =
    Ok (let l := json_newest_first 1 (Json.decisions json_two_decisions) in
        firstn (length l - Z.to_nat (- (-1))) l) /\
  Firestore.get_user_decisions "u1" (Some (-1)) fs_two_decisions =
    Raise InvalidArgument.
Proof.
  apply (get_user_decisions_negative_limit (-1) 1 "u1"
           json_two_decisions fs_two_decisions); [lia | reflexivity].
Defined.

(** ** The chat of the local store *)

(** An element that no other one follows stays last. *)
Lemma insert_stable_back {A : Type} (before : A -> A -> bool) (x m : A)
    (l : list A) :
  before m x = false ->
  insert_stable before x (l ++ [m]) = insert_stable before x l ++ [m].
Proof.
  intros Hm. induction l as [|y r IH]; simpl.
  - rewrite Hm. reflexivity.
  - destruct (before y x); [rewrite IH|]; reflexivity.
Qed.

Lemma stable_sort_back {A : Type} (before : A -> A -> bool) (l : list A)
    (m : A) :
  (forall y, In y l -> before m y = false) ->
  stable_sort before (l ++ [m]) = stable_sort before l ++ [m].
Proof.
  induction l as [|x r IH]; intros H; [reflexivity|].
  simpl. rewrite IH by (intros y Hy; apply H; right; exact Hy).
  apply insert_stable_back, H. left. reflexivity.
Qed.

Lemma json_chat_record_selected (cid user_id user_id' : Z) (d d' : string)
    (ct um ar now : string) (vis : bool) :
  d' <> "" ->
  json_chat_selected user_id' (Some d') None true
    (json_chat_record cid user_id (Some d) ct um ar now vis) =
  bool_decide (user_id' = user_id /\ d' = d).
Proof.
  intros Hd'. unfold json_chat_selected, owner_is, opt_matches, getd.
  assert (Hu : json_chat_record cid user_id (Some d) ct um ar now vis
               !! "user_id" = Some (VInt user_id)) by reflexivity.
  assert (Hk : json_chat_record cid user_id (Some d) ct um ar now vis
               !! "decision_id" = Some (VStr d)) by reflexivity.
  rewrite Hu, Hk. simpl.
  destruct (String.eqb_spec d' "") as [H|_]; [contradiction|].
  rewrite !andb_true_r.
  destruct (Z.eqb_spec user_id user_id') as [->|Hne];
    destruct (String.eqb_spec d d') as [->|Hne']; simpl;
    symmetry; (apply bool_decide_eq_true + apply bool_decide_eq_false);
    tauto || (intros [? ?]; congruence).
Qed.

(** X8. In the local store a message saved for a decision is the last of
    the history of that decision.  [save_chat_message] numbers the message
    after the stored ones and appends it; when no stored message carries a
    later time, [get_chat_history_for_decision] returns the history it
    returned before followed by the new message, whether the message is
    visible or not, and the history of every other user and of every other
    decision is the one it was. *)
Theorem json_save_chat_then_history (user_id : Z)
    (user_message ai_response chat_type decision_id : string)
    (is_visible : bool) (now : string) (s : Json.store) :
  json_chat_okb s = true ->
  decision_id <> "" ->
  json_chat_not_after now s = true ->
  let cid := Z.of_nat (length (Json.chat s)) + 1 in
  let m := json_chat_record cid user_id (Some decision_id) chat_type
             user_message ai_response now is_visible in
  exists old s',
    Json.save_chat_message user_id user_message ai_response chat_type
      (Some decision_id) is_visible now s = Ok (cid, s') /\
    Json.chat s' = Json.chat s ++ [m] /\
    Json.get_chat_history_for_decision user_id decision_id s = Ok old /\
    Json.get_chat_history_for_decision user_id decision_id s' =
      Ok (old ++ [m]) /\
    (forall user_id' d',
       d' <> "" -> user_id' <> user_id \/ d' <> decision_id ->
       Json.get_chat_history_for_decision user_id' d' s' =
       Json.get_chat_history_for_decision user_id' d' s).
Proof.
  intros Hok Hd Hnow cid m.
  pose proof (json_chat_okb_ok s Hok) as Hall.
  assert (Hm : json_chat_ok m).
  { unfold json_chat_ok. repeat split; try (eexists; reflexivity). }
  assert (Hall' : Forall json_chat_ok (Json.chat s ++ [m])).
  { apply Forall_app. split; [exact Hall | constructor; [exact Hm | constructor]]. }
  eexists. exists (Json.save_chat (Json.chat s ++ [m]) s).
  split; [reflexivity|]. split; [reflexivity|].
  unfold Json.get_chat_history_for_decision.
  split; [apply json_get_chat_history_eq, Hall|]. split.
  - rewrite json_get_chat_history_eq by exact Hall'.
    cbn [Json.chat Json.save_chat]. rewrite List.filter_app. cbn [List.filter].
    unfold m at 1. rewrite json_chat_record_selected by exact Hd.
    rewrite bool_decide_eq_true_2 by (split; reflexivity).
    rewrite stable_sort_back; [reflexivity|].
    intros y Hy. apply List.filter_In in Hy as [Hy _].
    unfold json_chat_not_after in Hnow. rewrite forallb_forall in Hnow.
    apply string_ltb_false_leb. apply (Hnow y Hy).
  - intros user_id' d' Hd' Hother.
    rewrite !json_get_chat_history_eq by assumption.
    cbn [Json.chat Json.save_chat]. rewrite List.filter_app. cbn [List.filter].
    unfold m at 1. rewrite json_chat_record_selected by exact Hd'.
    rewrite bool_decide_eq_false_2 by (intros [-> ->]; destruct Hother; congruence).
    rewrite app_nil_r. reflexivity.
Qed.

Lemma json_save_chat_then_history_witness :
  let s := json_one_message in
  let m := json_chat_record 2 1 (Some "d1") "decision_recording"
             "Stay or go?" "List the options." "2024-01-02T00:00:00" true in
  exists old s',
    Json.save_chat_message 1 "Stay or go?" "List the options."
      "decision_recording" (Some "d1") true "2024-01-02T00:00:00" s =
      Ok (2, s') /\
    Json.chat s' = Json.chat s ++ [m] /\
    Json.get_chat_history_for_decision 1 "d1" s = Ok old /\
    Json.get_chat_history_for_decision 1 "d1" s' = Ok (old ++ [m]) /\
    (forall user_id' d',
       d' <> "" -> user_id' <> 1 \/ d' <> "d1" ->
       Json.get_chat_history_for_decision user_id' d' s' =
       Json.get_chat_history_for_decision user_id' d' s).
Proof.
  apply (json_save_chat_then_history 1 "Stay or go?" "List the options."
           "decision_recording" "d1" true "2024-01-02T00:00:00"
           json_one_message); [reflexivity | discriminate | reflexivity].
Defined.

(** ** The preferences *)

(** [get_user_preferences] reads the first record of the user. *)
Lemma json_get_user_preferences_eq (user_id : Z) (s : Json.store) :
  json_prefs_okb s = true ->
  Json.get_user_preferences user_id s =
  Ok (json_flags_of (head (List.filter (owner_is user_id) (Json.preferences s)))).
Proof.
  intros Hok. unfold Json.get_user_preferences.
  destruct (find_first_pure _ _ _ (json_prefs_owned user_id s Hok))
    as [(l1 & p & l2 & Hl & Hl1 & Hp & ->) | [Hnone ->]]; simpl.
  - rewrite Hl, list_lookup_middle by reflexivity.
    rewrite List.filter_app, (filter_none _ _ Hl1). simpl. rewrite Hp.
    reflexivity.
  - rewrite (filter_none _ _ Hnone). reflexivity.
Qed.

Lemma json_updated_owner (user_id : Z) (payload p : dict) :
  owner_is user_id (Json.update_prefs_record payload p) = owner_is user_id p.
Proof.
  unfold owner_is, getd.
  destruct (json_updated_flags payload p) as (-> & _). reflexivity.
Qed.

(** X9. An update of the preferences of one user leaves the preferences of
    every other user as they were, in both stores, and touches no other
    file or collection. *)
Theorem update_user_preferences_isolated (user_id other : Z)
    (remote_user remote_other : string) (payload : dict)
    (s : Json.store) (t : Firestore.store) :
  json_prefs_okb s = true ->
  other <> user_id ->
  remote_other <> remote_user ->
  (exists s',
     Json.update_user_preferences user_id payload s = Ok (true, s') /\
     Json.get_user_preferences other s' = Json.get_user_preferences other s /\
     Json.users s' = Json.users s /\ Json.decisions s' = Json.decisions s /\
     Json.chat s' = Json.chat s) /\
  (let t' := (Firestore.update_user_preferences remote_user payload t).2 in
   Firestore.get_user_preferences remote_other t' =
     Firestore.get_user_preferences remote_other t /\
   Firestore.users t' = Firestore.users t /\
   Firestore.decisions t' = Firestore.decisions t /\
   Firestore.chat t' = Firestore.chat t).
Proof.
  intros Hok Hne Hne'. split.
  - destruct (json_update_preferences_keeps_ok user_id payload s Hok)
      as (s' & Hup & Hok').
    exists s'. split; [exact Hup|].
    rewrite (json_get_user_preferences_eq other s' Hok').
    rewrite (json_get_user_preferences_eq other s Hok).
    unfold Json.update_user_preferences in Hup.
    destruct (find_first_pure _ _ _ (json_prefs_owned user_id s Hok))
      as [(l1 & p & l2 & Hl & Hl1 & Hp & Hf) | [Hnone Hf]];
      rewrite Hf in Hup; simpl in Hup; injection Hup as <-;
      (split; [|auto]); cbn [Json.preferences Json.save_preferences].
    + rewrite Hl, <- (Nat.add_0_r (length l1)), alter_app_r.
      cbn [alter list_alter].
      rewrite !List.filter_app. cbn [List.filter].
      rewrite json_updated_owner.
      rewrite (owner_is_other other user_id p Hne Hp). reflexivity.
    + rewrite List.filter_app. cbn [List.filter].
      match goal with |- context [owner_is other ?x] =>
        assert (Hx : owner_is other x = false) end.
      { unfold owner_is, getd. rewrite lookup_insert_eq. simpl.
        apply Z.eqb_neq. congruence. }
      rewrite Hx, app_nil_r. reflexivity.
  - cbv zeta. split; [|auto].
    unfold Firestore.get_user_preferences, Firestore.update_user_preferences,
      Firestore.doc_set_merge. simpl.
    rewrite lookup_insert_ne by congruence. reflexivity.
Qed.

Lemma update_user_preferences_isolated_witness :
  exists s',
    Json.update_user_preferences 2 (<["view_chat_history" := VBool false]> ∅)
      json_sharing = Ok (true, s') /\
    Json.get_user_preferences 1 s' = Json.get_user_preferences 1 json_sharing.
Proof.
  destruct (update_user_preferences_isolated 2 1 "u2" "u1"
              (<["view_chat_history" := VBool false]> ∅)
              json_sharing fs_sharing)
    as ((s' & A & B & _) & _); [reflexivity | lia | discriminate |].
  exists s'. auto.
Defined.

Lemma json_default_prefs_owner (uid other : Z) :
  owner_is other (json_default_prefs uid) = (uid =? other).
Proof. reflexivity. Qed.

(** X10. A new account starts with sharing off and the chat history on.
    After [create_user] registered an email, [get_user_preferences] of the
    new user returns the two defaults; the local store needs for this
    that no preferences record was stored for the new id before, the
    remote store replaces the document of the new id.  The preferences of
    every other user are the ones they were. *)
Theorem create_user_default_preferences (sha256_hexdigest : string -> string)
    (email password full_name now : string) (fresh : string) (remote_now : Z)
    (s : Json.store) (t : Firestore.store) :
  json_users_okb s = true ->
  json_prefs_okb s = true ->
  json_email_taken email s = false ->
  json_no_prefs (Z.of_nat (length (Json.users s)) + 1) s = true ->
  fs_email_taken email t = false ->
  (exists s',
     Json.create_user sha256_hexdigest email password full_name now s =
       Ok (true, s') /\
     Json.get_user_preferences (Z.of_nat (length (Json.users s)) + 1) s' =
       Ok (Json.prefs_view false true) /\
     forall other, other <> Z.of_nat (length (Json.users s)) + 1 ->
       Json.get_user_preferences other s' = Json.get_user_preferences other s) /\
  (exists t',
     Firestore.create_user sha256_hexdigest email password full_name fresh
       remote_now t = Ok (true, t') /\
     Firestore.get_user_preferences fresh t' = Json.prefs_view false true /\
     forall other, other <> fresh ->
       Firestore.get_user_preferences other t' =
       Firestore.get_user_preferences other t).
Proof.
  intros Hus Hps Hfree Hnone Hfree'. split.
  - rewrite json_create_user_spec by exact Hus. rewrite Hfree. cbv zeta.
    set (uid := Z.of_nat (length (Json.users s)) + 1) in *.
    eexists. split; [reflexivity|].
    assert (Hps' : forall l, json_prefs_okb
              (Json.save_preferences (Json.preferences s ++ [json_default_prefs uid]) l)
              = true).
    { intros l. unfold json_prefs_okb in *. cbn [Json.preferences Json.save_preferences].
      rewrite forallb_app, Hps. reflexivity. }
    split.
    + rewrite json_get_user_preferences_eq by apply Hps'.
      cbn [Json.preferences Json.save_preferences].
      rewrite List.filter_app, filter_none.
      * cbn [List.filter app]. rewrite json_default_prefs_owner, Z.eqb_refl.
        reflexivity.
      * unfold json_no_prefs in Hnone. rewrite forallb_forall in Hnone.
        apply Forall_forall. intros p Hp. apply negb_true_iff, Hnone.
        apply list_elem_of_In, Hp.
    + intros other Hother.
      rewrite json_get_user_preferences_eq by apply Hps'.
      rewrite json_get_user_preferences_eq by exact Hps.
      cbn [Json.preferences Json.save_preferences].
      rewrite List.filter_app. cbn [List.filter].
      rewrite json_default_prefs_owner.
      destruct (Z.eqb_spec uid other) as [E|_]; [congruence|].
      rewrite app_nil_r. reflexivity.
  - rewrite fs_create_user_spec, Hfree'. eexists. split; [reflexivity|].
    unfold Firestore.get_user_preferences. simpl. split.
    + rewrite lookup_insert_eq. reflexivity.
    + intros other Hother. rewrite lookup_insert_ne by congruence.
      reflexivity.
Qed.

Lemma create_user_default_preferences_witness :
  (exists s',
     Json.create_user toy_digest "b@x.com" "pw2" "B" "2024-01-02T00:00:00"
       json_one_user = Ok (true, s') /\
     Json.get_user_preferences 2 s' = Ok (Json.prefs_view false true)) /\
  (exists t',
     Firestore.create_user toy_digest "b@x.com" "pw2" "B" "u2" 2 fs_one_user =
       Ok (true, t') /\
     Firestore.get_user_preferences "u2" t' = Json.prefs_view false true).
Proof.
  destruct (create_user_default_preferences toy_digest "b@x.com" "pw2" "B"
              "2024-01-02T00:00:00" "u2" 2 json_one_user fs_one_user)
    as ((s' & A & B & _) & (t' & C & D & _)); try reflexivity.
  split; [exists s' | exists t']; auto.
Defined.

(** ** The decisions of the remote store *)

Lemma fs_payload_owner (user_id : string) (data : dict) (now : Z) (old : fdict) :
  (Firestore.decision_payload user_id data now ∪ old) !! "user_id" =
  Some (FV (VStr user_id)).
Proof. apply lookup_union_Some_l. reflexivity. Qed.

Lemma fs_get_decision_frame (user_id id id' : string) (r : fdict)
    (s : Firestore.store) :
  id' <> id ->
  Firestore.get_decision user_id id'
    (Firestore.set_decisions (<[id := r]> (Firestore.decisions s)) s) =
  Firestore.get_decision user_id id' s.
Proof.
  intros Hne. unfold Firestore.get_decision. simpl.
  rewrite lookup_insert_ne by congruence. reflexivity.
Qed.

(** X11. In the remote store a saved decision is read back by the user who
    saved it and by no one else.  When the id is a string, [get_decision]
    with that id returns to the saving user the stored document, which
    carries every field of the payload, and returns [None] to every other
    user: [save_decision] does not look at the owner of a document that is
    stored under the id, so the document of another user passes to the
    saving user.  Documents under other ids are read as before. *)
Theorem fs_save_then_get (user_id : string) (data : dict) (fresh : string)
    (now : Z) (s : Firestore.store) (id : string) :
  String.eqb fresh "" = false ->
  py_or (getd data "id" VNone) (VStr fresh) = VStr id ->
  exists s' r,
    Firestore.save_decision user_id data fresh now s = Ok (VStr id, s') /\
    truthy (VStr id) = true /\
    Firestore.decision_payload user_id data now ⊆ r /\
    Firestore.get_decision user_id id s' = Some (<["id" := FV (VStr id)]> r) /\
    (forall other, other <> user_id ->
       Firestore.get_decision other id s' = None) /\
    (forall u id', id' <> id ->
       Firestore.get_decision u id' s' = Firestore.get_decision u id' s) /\
    Firestore.users s' = Firestore.users s /\
    Firestore.chat s' = Firestore.chat s /\
    Firestore.prefs s' = Firestore.prefs s.
Proof.
  intros Hfresh Hid.
  assert (Ht : truthy (VStr id) = true).
  { unfold py_or in Hid. destruct (truthy (getd data "id" VNone)) eqn:E.
    - rewrite <- Hid. exact E.
    - injection Hid as <-. simpl. rewrite Hfresh. reflexivity. }
  unfold Firestore.save_decision. rewrite Hid. simpl.
  unfold Firestore.doc_set_merge.
  set (r := Firestore.decision_payload user_id data now ∪
            default ∅ (Firestore.decisions s !! id)).
  assert (Hr : r !! "user_id" = Some (FV (VStr user_id)))
    by apply fs_payload_owner.
  exists (Firestore.set_decisions (<[id := r]> (Firestore.decisions s)) s), r.
  split; [reflexivity|]. split; [exact Ht|].
  split; [apply map_union_subseteq_l|]. split; [|split; [|split; [|auto]]].
  - unfold Firestore.get_decision. simpl. rewrite lookup_insert_eq, Hr. simpl.
    rewrite String.eqb_refl. reflexivity.
  - intros other Hother. unfold Firestore.get_decision. simpl.
    rewrite lookup_insert_eq, Hr. simpl.
    destruct (String.eqb_spec user_id other) as [E|_]; [congruence|].
    reflexivity.
  - intros u id' Hne. apply fs_get_decision_frame, Hne.
Qed.

Lemma fs_save_then_get_witness :
  exists s' r,
    Firestore.save_decision "u2" (<["id" := VStr "d1"]> ∅) "uuid-4" 4
      fs_two_owners = Ok (VStr "d1", s') /\
    Firestore.get_decision "u2" "d1" s' = Some (<["id" := FV (VStr "d1")]> r) /\
    Firestore.get_decision "u1" "d1" s' = None /\
    is_Some (Firestore.get_decision "u1" "d1" fs_two_owners).
Proof.
  destruct (fs_save_then_get "u2" (<["id" := VStr "d1"]> ∅) "uuid-4" 4
              fs_two_owners "d1")
    as (s' & r & A & _ & _ & B & C & _); [reflexivity | reflexivity |].
  exists s', r. split; [exact A|]. split; [exact B|].
  split; [apply C; discriminate|]. eexists. reflexivity.
Defined.

(** X12. In the remote store [delete_decision] deletes only for the owner.
    It returns [True] exactly when [get_decision] returns the document to
    the user; the document is then gone for every user.  Otherwise it
    returns [False] and the store is the one it was.  Documents under
    other ids are read as before. *)
Theorem fs_delete_decision_effect (user_id id : string) (s : Firestore.store) :
  exists s',
    Firestore.delete_decision user_id id s =
      (bool_decide (is_Some (Firestore.get_decision user_id id s)), s') /\
    (Firestore.get_decision user_id id s = None -> s' = s) /\
    (is_Some (Firestore.get_decision user_id id s) ->
     forall u, Firestore.get_decision u id s' = None) /\
    (forall u id', id' <> id ->
       Firestore.get_decision u id' s' = Firestore.get_decision u id' s) /\
    Firestore.users s' = Firestore.users s /\
    Firestore.chat s' = Firestore.chat s /\
    Firestore.prefs s' = Firestore.prefs s.
Proof.
  unfold Firestore.delete_decision, Firestore.get_decision.
  destruct (Firestore.decisions s !! id) as [d|] eqn:Hd.
  - destruct (fpy_eq (default (FV VNone) (d !! "user_id")) (VStr user_id)).
    + eexists. split; [reflexivity|]. split; [discriminate|].
      split; [|split; [|auto]].
      * intros _ u. simpl. rewrite lookup_delete_eq. reflexivity.
      * intros u id' Hne. simpl. rewrite lookup_delete_ne by congruence.
        reflexivity.
    + exists s. split; [reflexivity|]. split; [reflexivity|].
      split; [intros [x Hx]; discriminate|]. auto.
  - exists s. split; [reflexivity|]. split; [reflexivity|].
    split; [intros [x Hx]; discriminate|]. auto.
Qed.

(** X13. In the remote store a decision whose [user_id] field is not the
    string of a user belongs to no user of the program: whatever user id
    is passed, [get_decision] returns [None], [delete_decision] returns
    [False] and leaves the store as it is, and [get_user_decisions] does
    not list the document.  The user ids of the local store are such
    values: they are integers. *)
Theorem fs_foreign_owner_invisible (id : string) (d : fdict)
    (s : Firestore.store) (user_id : string) :
  Firestore.decisions s !! id = Some d ->
  (forall u, d !! "user_id" <> Some (FV (VStr u))) ->
  Firestore.get_decision user_id id s = None /\
  Firestore.delete_decision user_id id s = (false, s) /\
  exists l,
    Firestore.get_user_decisions user_id None s = Ok l /\
    forall x, In x l -> x !! "id" <> Some (FV (VStr id)).
Proof.
  intros Hd Hown.
  assert (Hne : fpy_eq (default (FV VNone) (d !! "user_id")) (VStr user_id)
                = false).
  { destruct (d !! "user_id") as [[v|t]|] eqn:E; simpl; try reflexivity.
    destruct v as [|b|n|u|l]; simpl; try reflexivity.
    destruct (String.eqb_spec u user_id) as [->|_]; [|reflexivity].
    destruct (Hown user_id). reflexivity. }
  split; [|split].
  - unfold Firestore.get_decision. rewrite Hd, Hne. reflexivity.
  - unfold Firestore.delete_decision. rewrite Hd, Hne. reflexivity.
  - eexists. split; [reflexivity|].
    intros x Hx. apply in_map_iff in Hx as ([id' d'] & <- & Hin).
    apply in_order_by in Hin as [Hin _].
    apply in_where_eq in Hin as [Hin Hu]. apply in_collection in Hin.
    unfold Firestore.with_id. simpl in *. rewrite lookup_insert_eq.
    intros [= ->]. rewrite Hd in Hin. injection Hin as <-.
    apply (Hown user_id). exact Hu.
Qed.

Lemma fs_foreign_owner_invisible_witness :
  Firestore.get_decision "1" "d9" fs_integer_owner = None /\
  Firestore.delete_decision "1" "d9" fs_integer_owner = (false, fs_integer_owner).
Proof.
  destruct (fs_foreign_owner_invisible "d9"
              (<["user_id" := FV (VInt 1)]> (<["created_at" := FTime 9]> ∅))
              fs_integer_owner "1") as (A & B & _).
  - reflexivity.
  - intros u. discriminate.
  - split; [exact A | exact B].
Defined.

(** ** The users of the remote store *)

(** A collection lists its documents in the strict order of their ids, so
    a query on it is fixed by the documents it selects. *)
Lemma string_ltb_of_leb (a b : string) :
  String.leb a b = true -> a <> b -> String.ltb a b = true.
Proof.
  unfold String.leb, String.ltb. intros H Hne.
  destruct (String.compare a b) eqn:E; try reflexivity; try discriminate.
  apply String.compare_eq_iff in E. contradiction.
Qed.

Lemma string_ltb_trans (a b c : string) :
  String.ltb a b = true -> String.ltb b c = true -> String.ltb a c = true.
Proof.
  intros Hab Hbc.
  assert (Hab' : String.leb a b = true).
  { apply string_ltb_false_leb, string_ltb_asym, Hab. }
  assert (Hbc' : String.leb b c = true).
  { apply string_ltb_false_leb, string_ltb_asym, Hbc. }
  apply string_ltb_of_leb; [eapply string_leb_trans; eassumption|].
  intros ->. rewrite (string_ltb_asym _ _ Hab) in Hbc. discriminate.
Qed.

Lemma collection_sorted (c : gmap string fdict) :
  StronglySorted id_before (Firestore.collection c).
Proof.
  pose proof (NoDup_collection c) as Hnd.
  assert (Hkey : forall a b, In a (Firestore.collection c) ->
                 In b (Firestore.collection c) -> a.1 = b.1 -> a = b).
  { intros [i x] [j y] Ha Hb E. simpl in E. subst j.
    apply in_collection in Ha, Hb. congruence. }
  assert (Hs : Sorted (fun a b : string * fdict => String.ltb b.1 a.1 = false)
                 (Firestore.collection c)).
  { apply (stable_sort_sorted (fun a b : string * fdict => String.ltb a.1 b.1)).
    intros a b. apply string_ltb_asym. }
  revert Hnd Hkey Hs. generalize (Firestore.collection c) as l.
  intros l Hnd Hkey Hs. apply Sorted_StronglySorted.
  { intros a b d. apply string_ltb_trans. }
  induction Hs as [|a l Hl IH Hhd]; [constructor|].
  apply List.NoDup_cons_iff in Hnd as [Ha Hnd].
  constructor.
  - apply IH; [exact Hnd|]. intros x y Hx Hy. apply Hkey; right; assumption.
  - destruct Hhd as [|b l' Hb]; constructor.
    apply string_ltb_of_leb; [apply string_ltb_false_leb, Hb|].
    intros E. apply Ha. rewrite (Hkey a b); [left; reflexivity | left; reflexivity
      | right; left; reflexivity | exact E].
Qed.

Lemma StronglySorted_list_filter {A : Type} (R : A -> A -> Prop)
    (f : A -> bool) (l : list A) :
  StronglySorted R l -> StronglySorted R (List.filter f l).
Proof.
  induction 1 as [|x l Hl IH Hx]; simpl; [constructor|].
  destruct (f x); [|exact IH]. constructor; [exact IH|].
  apply Forall_forall. intros y Hy. apply list_elem_of_In, List.filter_In in Hy.
  rewrite Forall_forall in Hx. apply Hx, list_elem_of_In, Hy.
Qed.

Lemma StronglySorted_ext {A : Type} (R : A -> A -> Prop) (l k : list A) :
  (forall a b, R a b -> R b a -> False) ->
  StronglySorted R l -> StronglySorted R k ->
  (forall x, In x l <-> In x k) -> l = k.
Proof.
  intros Hasym Hl. revert k.
  induction Hl as [|x l Hl IH Hx]; intros k Hk Hin.
  - destruct k as [|y k]; [reflexivity|].
    destruct (proj2 (Hin y)). left. reflexivity.
  - destruct Hk as [|y k Hk Hy].
    { destruct (proj1 (Hin x)). left. reflexivity. }
    rewrite Forall_forall in Hx, Hy.
    assert (E : x = y).
    { destruct (proj1 (Hin x) (or_introl eq_refl)) as [E|Hxk]; [auto|].
      destruct (proj2 (Hin y) (or_introl eq_refl)) as [E|Hyl]; [auto|].
      destruct (Hasym x y); [apply Hx, list_elem_of_In, Hyl
                            | apply Hy, list_elem_of_In, Hxk]. }
    subst y. f_equal. apply IH; [exact Hk|].
    intros z. split; intros Hz.
    + destruct (proj1 (Hin z) (or_intror Hz)) as [E|H]; [|exact H].
      subst z. destruct (Hasym x x); apply Hx, list_elem_of_In, Hz.
    + destruct (proj2 (Hin z) (or_intror Hz)) as [E|H]; [|exact H].
      subst z. destruct (Hasym x x); apply Hy, list_elem_of_In, Hz.
Qed.

(** Two queries by equality select the same list when they select the
    same documents. *)
Lemma where_eq_ext (field : string) (v : fval) (c c' : gmap string fdict) :
  (forall id d, (c !! id = Some d /\ d !! field = Some v) <->
                (c' !! id = Some d /\ d !! field = Some v)) ->
  Firestore.where_eq field v (Firestore.collection c) =
  Firestore.where_eq field v (Firestore.collection c').
Proof.
  intros H. apply (StronglySorted_ext id_before).
  - intros a b Hab Hba. unfold id_before in *.
    rewrite (string_ltb_asym _ _ Hab) in Hba. discriminate.
  - apply StronglySorted_list_filter, collection_sorted.
  - apply StronglySorted_list_filter, collection_sorted.
  - intros [id d]. rewrite !in_where_eq, !in_collection. apply H.
Qed.

(** The query by equality that selects one document. *)
Lemma where_eq_only (field : string) (v : fval) (c : gmap string fdict)
    (id : string) (d : fdict) :
  c !! id = Some d -> d !! field = Some v ->
  (forall id' d', c !! id' = Some d' -> d' !! field = Some v -> id' = id) ->
  Firestore.where_eq field v (Firestore.collection c) = [(id, d)].
Proof.
  intros Hc Hd Honly. apply singleton_list.
  - apply NoDup_where_eq, NoDup_collection.
  - apply in_where_eq. split; [apply in_collection, Hc | exact Hd].
  - intros [id' d'] Hin. apply in_where_eq in Hin as [Hin Hv].
    apply in_collection in Hin. simpl in Hv.
    pose proof (Honly id' d' Hin Hv) as ->. congruence.
Qed.

Lemma fs_email_only_spec (email user_id : string) (s : Firestore.store) :
  fs_email_only email user_id s = true ->
  forall id d, Firestore.users s !! id = Some d ->
               d !! "email" = Some (FV (VStr email)) -> id = user_id.
Proof.
  unfold fs_email_only. rewrite forallb_forall. intros H id d Hid Hd.
  specialize (H (id, d)). simpl in H.
  rewrite bool_decide_eq_true_2 in H by exact Hd.
  apply String.eqb_eq, H, in_collection, Hid.
Qed.

Section RemoteUsers.
Variable sha256_hexdigest : string -> string.

(** X14. In the remote store, after [create_user] registered an email that
    was free, [get_user] with the new id and [get_user_by_email] return
    the same document: the email, the name and the id of the new user, and
    no [password_hash]. *)
Theorem fs_create_then_get_user (email password full_name fresh : string)
    (now : Z) (s : Firestore.store) :
  fs_email_taken email s = false ->
  exists s1 d,
    Firestore.create_user sha256_hexdigest email password full_name fresh now s =
      Ok (true, s1) /\
    Firestore.get_user fresh s1 = Some d /\
    Firestore.get_user_by_email email s1 = Ok (Some d) /\
    d !! "email" = Some (FV (VStr email)) /\
    d !! "full_name" = Some (FV (VStr full_name)) /\
    d !! "id" = Some (FV (VStr fresh)) /\
    d !! "password_hash" = None.
Proof.
  intros Hfree. rewrite fs_create_user_spec, Hfree.
  set (u := fs_user_doc email (_hash_password sha256_hexdigest password)
              full_name now).
  eexists. exists (Firestore.public_doc (fresh, u)).
  split; [reflexivity|]. split; [|split; [|repeat split]].
  - unfold Firestore.get_user. simpl. rewrite lookup_insert_eq. reflexivity.
  - unfold Firestore.get_user_by_email. simpl.
    rewrite (fs_email_query_new email u fresh s Hfree) by reflexivity.
    reflexivity.
Qed.

(** X15. In the remote store [update_user_password] returns [False] and
    changes nothing when no user document has the id.  Otherwise it
    returns [True] and replaces the hash in that document only: when the
    document is the only one with its email, the user then logs in with
    the new password and with no password of another digest, and a login
    with any other email gives what it gave before. *)
Theorem fs_update_password_then_login (user_id new_password : string)
    (s : Firestore.store) :
  (Firestore.users s !! user_id = None ->
   Firestore.update_user_password sha256_hexdigest user_id new_password s =
     (false, s)) /\
  (forall d e,
     Firestore.users s !! user_id = Some d ->
     d !! "email" = Some (FV (VStr e)) ->
     fs_email_only e user_id s = true ->
     exists s',
       Firestore.update_user_password sha256_hexdigest user_id new_password s =
         (true, s') /\
       Firestore.users s' =
         <[user_id := <["password_hash" :=
                          FV (VStr (_hash_password sha256_hexdigest new_password))]> d]>
           (Firestore.users s) /\
       Firestore.decisions s' = Firestore.decisions s /\
       Firestore.chat s' = Firestore.chat s /\
       Firestore.prefs s' = Firestore.prefs s /\
       Firestore.authenticate_user sha256_hexdigest e new_password s' =
         Ok (Some user_id) /\
       (forall w, sha256_hexdigest w <> sha256_hexdigest new_password ->
          Firestore.authenticate_user sha256_hexdigest e w s' = Ok None) /\
       (forall e' w, e' <> e ->
          Firestore.authenticate_user sha256_hexdigest e' w s' =
          Firestore.authenticate_user sha256_hexdigest e' w s)).
Proof.
  split.
  - intros Hnone. unfold Firestore.update_user_password. rewrite Hnone.
    reflexivity.
  - intros d e Hd He Honly. unfold Firestore.update_user_password. rewrite Hd.
    set (d' := <["password_hash" :=
                   FV (VStr (_hash_password sha256_hexdigest new_password))]> d).
    eexists. split; [reflexivity|]. split; [reflexivity|].
    do 3 (split; [reflexivity|]).
    assert (He' : d' !! "email" = Some (FV (VStr e))).
    { unfold d'. rewrite lookup_insert_ne by discriminate. exact He. }
    assert (Hq : Firestore.where_eq "email" (FV (VStr e))
                   (Firestore.collection (<[user_id := d']> (Firestore.users s)))
                 = [(user_id, d')]).
    { apply where_eq_only; [apply lookup_insert_eq | exact He' |].
      intros id' x Hx Hxe.
      destruct (decide (id' = user_id)) as [E|Hne]; [exact E|].
      rewrite lookup_insert_ne in Hx by congruence.
      apply (fs_email_only_spec e user_id s Honly id' x Hx Hxe). }
    assert (Hh : Firestore.field_of "password_hash" (user_id, d') =
                 FV (VStr (_hash_password sha256_hexdigest new_password))).
    { unfold Firestore.field_of, d'. simpl. rewrite lookup_insert_eq.
      reflexivity. }
    split; [|split].
    + unfold Firestore.authenticate_user. simpl. rewrite Hq.
      unfold Firestore.limit. simpl bind. simpl firstn.
      cbn [Firestore.authenticate_loop]. rewrite Hh.
      unfold fpy_eq, py_eq. rewrite String.eqb_refl. reflexivity.
    + intros w Hw. unfold Firestore.authenticate_user. simpl. rewrite Hq.
      unfold Firestore.limit. simpl bind. simpl firstn.
      cbn [Firestore.authenticate_loop]. rewrite Hh.
      unfold fpy_eq, py_eq, _hash_password.
      destruct (String.eqb_spec (sha256_hexdigest new_password)
                  (sha256_hexdigest w)); [congruence | reflexivity].
    + intros e' w Hne. unfold Firestore.authenticate_user. simpl.
      rewrite (where_eq_ext "email" (FV (VStr e'))
                 (<[user_id := d']> (Firestore.users s)) (Firestore.users s));
        [reflexivity|].
      intros id x. destruct (decide (id = user_id)) as [->|Hid].
      * rewrite lookup_insert_eq, Hd. split; intros [[= <-] Hx]; exfalso;
          congruence.
      * rewrite lookup_insert_ne by congruence. reflexivity.
Qed.
End RemoteUsers.

Lemma fs_create_then_get_user_witness :
  exists s1 d,
    Firestore.create_user toy_digest "b@x.com" "pw2" "B" "u2" 2 fs_one_user =
      Ok (true, s1) /\
    Firestore.get_user "u2" s1 = Some d /\
    Firestore.get_user_by_email "b@x.com" s1 = Ok (Some d) /\
    d !! "password_hash" = None.
Proof.
  destruct (fs_create_then_get_user toy_digest "b@x.com" "pw2" "B" "u2" 2
              fs_one_user) as (s1 & d & A & B & C & _ & _ & _ & D);
    [reflexivity|].
  exists s1, d. auto.
Defined.

Lemma fs_update_password_then_login_witness :
  exists s',
    Firestore.update_user_password toy_digest "u1" "new" fs_one_user =
      (true, s') /\
    Firestore.authenticate_user toy_digest "a@x.com" "new" s' = Ok (Some "u1") /\
    Firestore.authenticate_user toy_digest "a@x.com" "pw1" s' = Ok None.
Proof.
  destruct (proj2 (fs_update_password_then_login toy_digest "u1" "new"
                     fs_one_user)
              (fs_user_doc "a@x.com" (toy_digest "pw1") "A" 1) "a@x.com")
    as (s' & A & _ & _ & _ & _ & B & C & _);
    [reflexivity | reflexivity | reflexivity |].
  exists s'. split; [exact A|]. split; [exact B|].
  apply C. discriminate.
Defined.

(** ** The chat of the remote store *)

Lemma insert_stable_all {A : Type} (before : A -> A -> bool) (m : A)
    (l : list A) :
  (forall y, In y l -> before y m = true) -> insert_stable before m l = l ++ [m].
Proof.
  induction l as [|x r IH]; intros H; [reflexivity|].
  simpl. rewrite (H x) by (left; reflexivity).
  rewrite IH by (intros y Hy; apply H; right; exact Hy). reflexivity.
Qed.

(** An element that comes after every other one is sorted to the end. *)
Lemma stable_sort_last {A : Type} (before : A -> A -> bool) (l1 l2 : list A)
    (m : A) :
  (forall a b, before a b = true -> before b a = false) ->
  (forall y, In y (l1 ++ l2) -> before y m = true) ->
  stable_sort before (l1 ++ m :: l2) = stable_sort before (l1 ++ l2) ++ [m].
Proof.
  intros Hasym. induction l1 as [|x r IH]; intros H.
  - simpl. apply insert_stable_all. intros y Hy. apply H. simpl.
    eapply Permutation_in; [apply stable_sort_perm | exact Hy].
  - simpl. rewrite IH by (intros y Hy; apply H; right; exact Hy).
    apply insert_stable_back, Hasym, H. left. reflexivity.
Qed.

Lemma StronglySorted_middle {A : Type} (R : A -> A -> Prop) (l1 l2 : list A)
    (x : A) :
  StronglySorted R (l1 ++ x :: l2) -> StronglySorted R (l1 ++ l2).
Proof.
  induction l1 as [|y r IH]; simpl; intros H.
  - apply StronglySorted_inv in H as [H _]. exact H.
  - apply StronglySorted_inv in H as [H Hy]. constructor; [apply IH, H|].
    rewrite Forall_app in Hy |- *. destruct Hy as [Hr Hx].
    apply Forall_cons in Hx as [_ Hx]. split; assumption.
Qed.

(** A document stored under a new id takes its place in the collection;
    the other documents keep theirs. *)
Lemma collection_insert_new (c : gmap string fdict) (id : string) (d : fdict) :
  c !! id = None ->
  exists l1 l2,
    Firestore.collection c = l1 ++ l2 /\
    Firestore.collection (<[id := d]> c) = l1 ++ (id, d) :: l2.
Proof.
  intros Hnew.
  assert (Hin : In (id, d) (Firestore.collection (<[id := d]> c))).
  { apply in_collection, lookup_insert_eq. }
  apply in_split in Hin as (l1 & l2 & Hl). exists l1, l2. split; [|exact Hl].
  pose proof (collection_sorted (<[id := d]> c)) as Hs.
  pose proof (NoDup_collection (<[id := d]> c)) as Hnd.
  rewrite Hl in Hs, Hnd. apply List.NoDup_remove in Hnd as [_ Hnot].
  apply (StronglySorted_ext id_before).
  - intros a b Hab Hba. unfold id_before in *.
    rewrite (string_ltb_asym _ _ Hab) in Hba. discriminate.
  - apply collection_sorted.
  - eapply StronglySorted_middle, Hs.
  - intros [i x]. rewrite in_collection. split.
    + intros Hx.
      assert (Hi : i <> id) by (intros ->; congruence).
      assert (Hx' : In (i, x) (l1 ++ (id, d) :: l2)).
      { rewrite <- Hl. apply in_collection. rewrite lookup_insert_ne by congruence.
        exact Hx. }
      apply in_app_or in Hx' as [H | [H | H]]; apply in_or_app; auto.
      injection H as -> ->. contradiction.
    + intros Hx.
      assert (Hx' : In (i, x) (Firestore.collection (<[id := d]> c))).
      { rewrite Hl. apply in_app_or in Hx as [H|H]; apply in_or_app; simpl; auto. }
      apply in_collection in Hx'.
      destruct (decide (i = id)) as [->|Hi].
      * rewrite lookup_insert_eq in Hx'. injection Hx' as <-. contradiction.
      * rewrite lookup_insert_ne in Hx' by congruence. exact Hx'.
Qed.

(** The query of [get_chat_history_for_decision], on a list of documents. *)
Lemma fs_history_for_decision (user_id d : string) (s : Firestore.store) :
  d <> "" ->
  Firestore.get_chat_history_for_decision user_id d s =
  map Firestore.with_id
    (Firestore.order_by "timestamp" false
       (Firestore.where_eq "decision_id" (FV (VStr d))
          (Firestore.where_eq "user_id" (FV (VStr user_id))
             (Firestore.collection (Firestore.chat s))))).
Proof.
  intros Hd. unfold Firestore.get_chat_history_for_decision,
    Firestore.get_chat_history. simpl.
  destruct (String.eqb_spec d "") as [E|_]; [contradiction|]. reflexivity.
Qed.

Lemma where_eq_app (field : string) (v : fval) (l k : list (string * fdict)) :
  Firestore.where_eq field v (l ++ k) =
  Firestore.where_eq field v l ++ Firestore.where_eq field v k.
Proof. apply List.filter_app. Qed.

Lemma where_eq_cons (field : string) (v : fval) (a : string * fdict)
    (l : list (string * fdict)) :
  Firestore.where_eq field v (a :: l) =
  if bool_decide (a.2 !! field = Some v)
  then a :: Firestore.where_eq field v l else Firestore.where_eq field v l.
Proof. reflexivity. Qed.

(** X16. In the remote store a message saved for a decision is the last
    of the history of that decision.  When the document id is new and
    every stored message carries an earlier time,
    [get_chat_history_for_decision] returns the history it returned before
    followed by the new message, whether the message is visible or not,
    and the history of every other user and of every other decision is
    the one it was. *)
Theorem fs_save_chat_then_history (user_id : string)
    (user_message ai_response chat_type decision_id : string)
    (is_visible : bool) (fresh : string) (now : Z) (s : Firestore.store) :
  decision_id <> "" ->
  Firestore.chat s !! fresh = None ->
  fs_chat_all_before now s = true ->
  let m := fs_chat_doc user_id (Some decision_id) chat_type user_message
             ai_response now is_visible in
  exists s',
    Firestore.save_chat_message user_id user_message ai_response chat_type
      (Some decision_id) is_visible fresh now s = (fresh, s') /\
    Firestore.chat s' = <[fresh := m]> (Firestore.chat s) /\
    Firestore.get_chat_history_for_decision user_id decision_id s' =
      Firestore.get_chat_history_for_decision user_id decision_id s ++
      [<["id" := FV (VStr fresh)]> m] /\
    (forall user_id' d',
       d' <> "" -> user_id' <> user_id \/ d' <> decision_id ->
       Firestore.get_chat_history_for_decision user_id' d' s' =
       Firestore.get_chat_history_for_decision user_id' d' s).
Proof.
  intros Hd Hnew Hbefore m.
  exists (Firestore.set_chat (<[fresh := m]> (Firestore.chat s)) s).
  split; [reflexivity|]. split; [reflexivity|].
  destruct (collection_insert_new (Firestore.chat s) fresh m Hnew)
    as (l1 & l2 & Hc & Hc').
  assert (Hu : m !! "user_id" = Some (FV (VStr user_id))) by reflexivity.
  assert (Hk : m !! "decision_id" = Some (FV (VStr decision_id))) by reflexivity.
  assert (Ht : m !! "timestamp" = Some (FTime now)) by reflexivity.
  split.
  - rewrite !fs_history_for_decision by exact Hd.
    cbn [Firestore.chat Firestore.set_chat]. rewrite Hc', Hc.
    rewrite !where_eq_app, !where_eq_cons. cbn [snd].
    rewrite (bool_decide_eq_true_2 _ Hu). rewrite where_eq_cons. cbn [snd].
    rewrite (bool_decide_eq_true_2 _ Hk).
    set (k1 := Firestore.where_eq "decision_id" _ (Firestore.where_eq "user_id" _ l1)).
    set (k2 := Firestore.where_eq "decision_id" _ (Firestore.where_eq "user_id" _ l2)).
    unfold Firestore.order_by.
    rewrite !List.filter_app. cbn [List.filter snd].
    rewrite bool_decide_eq_true_2 by (rewrite Ht; eexists; reflexivity).
    rewrite <- List.filter_app.
    rewrite stable_sort_last.
    + rewrite List.filter_app, map_app. reflexivity.
    + intros a b. apply fs_ltb_asym.
    + intros y Hy. rewrite <- List.filter_app in Hy.
      apply List.filter_In in Hy as [Hy Hts].
      unfold Firestore.field_of. cbn [snd]. rewrite Ht. simpl default.
      unfold fs_chat_all_before in Hbefore. rewrite forallb_forall in Hbefore.
      apply (Hbefore y). rewrite Hc.
      unfold k1, k2 in Hy. rewrite <- !where_eq_app in Hy.
      apply in_where_eq in Hy as [Hy _]. apply in_where_eq in Hy as [Hy _].
      exact Hy.
  - intros user_id' d' Hd' Hother.
    rewrite !fs_history_for_decision by exact Hd'.
    cbn [Firestore.chat Firestore.set_chat]. rewrite Hc', Hc.
    do 2 f_equal.
    rewrite !where_eq_app, !where_eq_cons. cbn [snd].
    destruct (decide (user_id' = user_id)) as [->|Hne].
    + rewrite (bool_decide_eq_true_2 _ Hu). rewrite where_eq_cons. cbn [snd].
      rewrite bool_decide_eq_false_2; [reflexivity|].
      rewrite Hk. intros [= E]. destruct Hother; congruence.
    + rewrite bool_decide_eq_false_2; [reflexivity|].
      rewrite Hu. intros [= E]. congruence.
Qed.

Lemma fs_save_chat_then_history_witness :
  exists s',
    Firestore.save_chat_message "u1" "Stay or go?" "List the options."
      "decision_recording" (Some "d1") true "m2" 2 fs_one_message = ("m2", s') /\
    Firestore.get_chat_history_for_decision "u1" "d1" s' =
      Firestore.get_chat_history_for_decision "u1" "d1" fs_one_message ++
      [<["id" := FV (VStr "m2")]>
         (fs_chat_doc "u1" (Some "d1") "decision_recording" "Stay or go?"
            "List the options." 2 true)].
Proof.
  destruct (fs_save_chat_then_history "u1" "Stay or go?" "List the options."
              "decision_recording" "d1" true "m2" 2 fs_one_message)
    as (s' & A & _ & B & _); [discriminate | reflexivity | reflexivity |].
  exists s'. split; [exact A | exact B].
Defined.

(** ** The choice of the store *)

(** X17. The selector returns the remote store on the path [p] exactly
    when the force-local flag is not ["1"], [p] is the configured
    credential path, the client library was imported, the path exists and
    the constructor returns; in every other case it returns the local
    store. *)
Theorem select_backend_remote_iff (env : environment) (p : string) :
  (_select_backend env = Ok (FirestoreDatabaseManager p) <->
   FORCE_JSON_DB env <> Some "1" /\ configured_path env = Some p /\
   _fire_imported env = true /\ path_exists env p = true /\
   firestore_manager env p = Ok tt) /\
  (_select_backend env = Ok JSONDatabaseManager \/
   exists q, _select_backend env = Ok (FirestoreDatabaseManager q)).
Proof.
  split; [split; [apply select_backend_remote|] |].
  - intros (Hforce & Hpath & Himp & Hex & Hm).
    unfold _select_backend, configured_path in *.
    assert (Hf : String.eqb (default "0" (FORCE_JSON_DB env)) "1" = false).
    { destruct (FORCE_JSON_DB env) as [f|]; simpl; [|reflexivity].
      destruct (String.eqb_spec f "1") as [->|_]; [contradiction|reflexivity]. }
    rewrite Hf.
    destruct (py_or _ _) as [| | |q|]; try discriminate.
    unfold truthy. destruct (String.eqb q ""); [discriminate|].
    injection Hpath as ->. rewrite Himp, Hex. simpl.
    unfold try_firestore. rewrite Hm. reflexivity.
  - destruct (select_backend_total env) as [[|q] Hb]; [left | right; exists q];
      exact Hb.
Qed.

(** X18. [FIREBASE_KEY_PATH] comes first.  When it is set and not empty,
    it is the path the selector tries and
    [GOOGLE_APPLICATION_CREDENTIALS] is not looked at: the remote store is
    returned on that path or not at all, and when the path does not exist
    or the constructor raises on it the selector returns the local store,
    whatever the other variable names. *)
Theorem select_backend_key_path_first (env : environment) (p1 : string) :
  FIREBASE_KEY_PATH env = Some p1 ->
  p1 <> "" ->
  configured_path env = Some p1 /\
  (forall p, _select_backend env = Ok (FirestoreDatabaseManager p) -> p = p1) /\
  (path_exists env p1 = false \/ raises (firestore_manager env p1) ->
   _select_backend env = Ok JSONDatabaseManager).
Proof.
  intros Hkey Hne.
  assert (Hp : configured_path env = Some p1).
  { unfold configured_path, py_or. rewrite Hkey. simpl.
    destruct (String.eqb_spec p1 "") as [E|_]; [contradiction|]. simpl.
    destruct (String.eqb_spec p1 "") as [E|_]; [contradiction|]. reflexivity. }
  split; [exact Hp|]. split.
  - intros p H. apply select_backend_remote in H as (_ & Hq & _). congruence.
  - intros Hfail.
    destruct (select_backend_total env) as [[|q] Hb]; [exact Hb|].
    apply select_backend_remote in Hb as (_ & Hq & _ & Hex & Hm).
    rewrite Hp in Hq. injection Hq as <-.
    destruct Hfail as [Hno | Hr]; [congruence|].
    rewrite Hm in Hr. destruct Hr.
Qed.

Lemma select_backend_key_path_first_witness :
  configured_path env_two_paths = Some "missing.json" /\
  _select_backend env_two_paths = Ok JSONDatabaseManager.
Proof.
  destruct (select_backend_key_path_first env_two_paths "missing.json")
    as (A & _ & B); [reflexivity | discriminate |].
  split; [exact A | apply B; left; reflexivity].
Defined.

(** ** The language of a text *)

Lemma detect_language_en_iff (text : list Z) :
  detect_language text = "en" <->
  (5 * length (List.filter is_devanagari text) <= length text)%nat.
Proof.
  pose proof (detect_language_hi_iff text) as H.
  assert (Hc : detect_language text = "hi" \/ detect_language text = "en").
  { unfold detect_language. destruct text; [right; reflexivity|].
    destruct (exceeds_fifth _ _); [left | right]; reflexivity. }
  destruct Hc as [Hc | Hc]; rewrite Hc; split; intros H'.
  - discriminate.
  - apply H in Hc. lia.
  - destruct (Nat.le_gt_cases (5 * length (List.filter is_devanagari text))
                (length text)) as [Hle|Hgt]; [exact Hle|].
    apply H in Hgt. congruence.
  - reflexivity.
Qed.

(** X19. Two texts of the same detected language, written one after the
    other, are a text of that language; and the order of the code points
    in a text does not change its language. *)
Theorem detect_language_concat (a b : list Z) :
  detect_language a = detect_language b ->
  detect_language (a ++ b) = detect_language a /\
  detect_language (b ++ a) = detect_language a /\
  detect_language (rev a) = detect_language a.
Proof.
  intros Hab.
  assert (Hrev : forall l, length (rev l) = length l /\
            length (List.filter is_devanagari (rev l)) =
            length (List.filter is_devanagari l)).
  { intros l. split; [apply List.length_rev|].
    induction l as [|x r IH]; [reflexivity|].
    simpl. rewrite List.filter_app, List.length_app, IH. simpl.
    destruct (is_devanagari x); simpl; lia. }
  assert (Hc : detect_language a = "hi" \/ detect_language a = "en").
  { unfold detect_language. destruct a; [right; reflexivity|].
    destruct (exceeds_fifth _ _); [left | right]; reflexivity. }
  destruct Hc as [Hc | Hc]; rewrite Hc in *; symmetry in Hab.
  - apply detect_language_hi_iff in Hc, Hab.
    rewrite !detect_language_hi_iff, !List.filter_app, !List.length_app.
    destruct (Hrev a) as [-> ->]. lia.
  - apply detect_language_en_iff in Hc, Hab.
    rewrite !detect_language_en_iff, !List.filter_app, !List.length_app.
    destruct (Hrev a) as [-> ->]. lia.
Qed.

Lemma detect_language_concat_witness :
  detect_language ([0x92F; 0x939; 0x20] ++ [0x90F; 0x915; 0x61; 0x62; 0x63])
  = "hi".
Proof.
  apply (detect_language_concat [0x92F; 0x939; 0x20]
           [0x90F; 0x915; 0x61; 0x62; 0x63]). reflexivity.
Defined.

(** ** The save command *)

Lemma startswith_refl (t : list Z) : startswith t t = true.
Proof. induction t as [|x r IH]; simpl; [reflexivity|]. rewrite Z.eqb_refl. exact IH. Qed.

Lemma startswith_app_l (t p q : list Z) :
  startswith t (p ++ q) = true -> startswith t p = true.
Proof.
  revert t. induction p as [|x p IH]; intros t H; [destruct t; reflexivity|].
  destruct t as [|y t]; simpl in *; [discriminate|].
  apply andb_true_iff in H as [-> H]. apply IH, H.
Qed.

Lemma startswith_more (t p more : list Z) :
  startswith t p = true -> startswith (t ++ more) p = true.
Proof.
  revert t. induction p as [|x p IH]; intros t H; [destruct t; reflexivity|].
  destruct t as [|y t]; simpl in *; [discriminate|].
  apply andb_true_iff in H as [-> H]. apply IH, H.
Qed.

Lemma is_save_command_prefixes (t : list Z) :
  is_save_command t = existsb (startswith t) save_prefixes.
Proof.
  apply eq_true_iff_eq. unfold is_save_command.
  rewrite !existsb_exists. split.
  - intros (cmd & Hin & Hcmd).
    assert (Hs : startswith t (lower cmd) = true).
    { apply orb_true_iff in Hcmd as [He | Hs]; [|exact Hs].
      apply bool_decide_eq_true in He. rewrite <- He. apply startswith_refl. }
    assert (Hsave : forall q, lower cmd = cmd_save ++ q ->
              exists p, In p save_prefixes /\ startswith t p = true).
    { intros q Hq. exists cmd_save. split; [left; reflexivity|].
      apply (startswith_app_l t cmd_save q). rewrite <- Hq. exact Hs. }
    simpl in Hin.
    destruct Hin as [<-|[<-|[<-|[<-|[<-|[<-|[<-|[<-|[<-|[]]]]]]]]]];
      try (eapply Hsave; reflexivity);
      eexists; (split; [|exact Hs]); simpl; tauto.
  - intros (p & Hin & Hp). exists p. split.
    + simpl in Hin. simpl. tauto.
    + assert (Hl : lower p = p).
      { simpl in Hin. destruct Hin as [<-|[<-|[<-|[<-|[<-|[]]]]]]; reflexivity. }
      rewrite Hl, Hp. apply orb_true_r.
Qed.

(** X20. The test for a save command looks at the start of the input
    only.  The input is a save command exactly when it starts with one of
    the five words [save], [done], [submit], [पूरा] and [हो गया]; the other
    four commands of the list add nothing, and with an input that is a save
    command every longer input that starts with it is one. *)
Theorem is_save_command_by_prefix (user_input_lower : list Z) :
  is_save_command user_input_lower =
    existsb (startswith user_input_lower) save_prefixes /\
  (forall more,
     is_save_command user_input_lower = true ->
     is_save_command (user_input_lower ++ more) = true).
Proof.
  split; [apply is_save_command_prefixes|].
  intros more. rewrite !is_save_command_prefixes, !existsb_exists.
  intros (p & Hin & Hp). exists p. split; [exact Hin|].
  apply startswith_more, Hp.
Qed.

(** The input [saved by the bell], which is no command of the list. *)
Example is_save_command_saved :
  is_save_command
    [0x73; 0x61; 0x76; 0x65; 0x64; 0x20; 0x62; 0x79; 0x20; 0x74; 0x68; 0x65;
     0x20; 0x62; 0x65; 0x6c; 0x6c] = true.
Proof. reflexivity. Qed.

(** ** The exchanges saved with a decision *)

Lemma saved_exchanges_from (chat : list message) (n : nat)
    (exchanges : list (string * string)) :
  drop n chat = transcript exchanges ->
  omap id (imap (fun i => exchange_at chat (n + i)) (transcript exchanges)) =
  exchanges.
Proof.
  revert n. induction exchanges as [|[u a] r IH]; intros n Hn; [reflexivity|].
  cbn [transcript] in *.
  assert (H1 : chat !! (n + 1)%nat = Some (assistant_msg a)).
  { rewrite <- (lookup_drop chat n 1), Hn. reflexivity. }
  assert (H2 : drop (S (S n)) chat = transcript r).
  { change (transcript r)
      with (drop 2 (user_msg u :: assistant_msg a :: transcript r)).
    rewrite <- Hn, drop_drop. f_equal. lia. }
  cbn [imap omap]. unfold exchange_at at 1 2. cbn [role user_msg assistant_msg].
  rewrite Nat.add_0_r, H1. cbn [role content option_bind mbind id String.eqb].
  simpl. f_equal.
  rewrite <- (IH (S (S n)) H2) at 2. f_equal. apply imap_ext.
  intros i x _. simpl. f_equal. lia.
Qed.

(** X21. The save command and the button at the top of the page save each
    exchange of the conversation once: from the chat the page builds (the
    opening message, then each input followed by its reply) the loop over
    [enumerate(decision_chat)] passes to [save_chat_message] the inputs
    with their own replies, in the order of the conversation, and not the
    opening message. *)
Theorem saved_exchanges_transcript (opening : string)
    (exchanges : list (string * string)) :
  saved_exchanges (chat_of opening exchanges) = exchanges.
Proof.
  unfold saved_exchanges, chat_of. cbn [imap omap].
  unfold exchange_at at 1. cbn [role assistant_msg]. simpl String.eqb.
  cbn [option_bind mbind id].
  apply (saved_exchanges_from (assistant_msg opening :: transcript exchanges) 1).
  reflexivity.
Qed.

Lemma list_index_transcript (u d : string) (exchanges : list (string * string)) :
  In u (map fst exchanges) ->
  exists k,
    list_index (user_msg u) (transcript exchanges) = Ok k /\
    transcript exchanges !! S k =
      Some (assistant_msg (first_reply u exchanges d)).
Proof.
  induction exchanges as [|[u' a] r IH]; intros Hin; [destruct Hin|].
  cbn [transcript list_index first_reply].
  destruct (String.eqb_spec u' u) as [->|Hne].
  - exists 0%nat. rewrite bool_decide_eq_true_2 by reflexivity.
    split; reflexivity.
  - destruct Hin as [E|Hin]; [simpl in E; contradiction|].
    destruct (IH Hin) as (k & Hk & Hl).
    exists (S (S k)).
    rewrite bool_decide_eq_false_2 by (intros [= E]; contradiction).
    rewrite bool_decide_eq_false_2 by discriminate.
    rewrite Hk. split; [reflexivity | exact Hl].
Qed.

Lemma indexed_exchange_user (opening u d : string)
    (exchanges : list (string * string)) :
  In u (map fst exchanges) ->
  indexed_exchange (chat_of opening exchanges) (user_msg u) =
  Ok (Some (u, first_reply u exchanges d)).
Proof.
  intros Hin. destruct (list_index_transcript u d exchanges Hin) as (k & Hk & Hl).
  unfold indexed_exchange, chat_of. cbn [role user_msg list_index]. simpl String.eqb.
  rewrite bool_decide_eq_false_2 by discriminate.
  rewrite Hk. simpl bind. rewrite Nat.add_1_r. cbn [lookup list_lookup].
  change (list_lookup (S k) (transcript exchanges))
    with (transcript exchanges !! S k).
  rewrite Hl. reflexivity.
Qed.

Lemma indexed_exchanges_from (opening : string)
    (exchanges suffix : list (string * string)) :
  (forall p, In p suffix -> In p.1 (map fst exchanges)) ->
  (let* l := mapM (indexed_exchange (chat_of opening exchanges))
               (transcript suffix) in
   Ok (omap id l)) =
  Ok (map (fun p => (p.1, first_reply p.1 exchanges p.2)) suffix).
Proof.
  induction suffix as [|[u a] r IH]; intros Hin; [reflexivity|].
  cbn [transcript mapM].
  rewrite (indexed_exchange_user opening u a) by (apply (Hin (u, a)); left; reflexivity).
  cbn [bind]. unfold indexed_exchange at 1. cbn [role assistant_msg].
  simpl String.eqb. cbn [bind].
  specialize (IH (fun p Hp => Hin p (or_intror Hp))).
  destruct (mapM _ (transcript r)) as [l|e]; [|discriminate].
  simpl in IH. injection IH as IH. simpl. do 2 f_equal. exact IH.
Qed.

Lemma first_reply_own (exchanges : list (string * string)) :
  List.NoDup (map fst exchanges) ->
  map (fun p => (p.1, first_reply p.1 exchanges p.2)) exchanges = exchanges.
Proof.
  induction exchanges as [|[u a] r IH]; intros Hnd; [reflexivity|].
  apply List.NoDup_cons_iff in Hnd as [Hu Hnd].
  cbn [map fst snd first_reply]. rewrite String.eqb_refl. f_equal.
  rewrite <- (IH Hnd) at 2. apply map_ext_in. intros [u' a'] Hin.
  cbn [fst snd]. destruct (String.eqb_spec u u') as [->|_]; [|reflexivity].
  destruct Hu. apply (in_map fst _ _ Hin).
Qed.

(** X22. The button [Save Decision] below the chat pairs an input with
    the reply to the first input of the same text.  From the chat the page
    builds, the loop that looks each message up with
    [decision_chat.index(msg)] passes to [save_chat_message] every input,
    in the order of the conversation, each with the reply that followed
    the first input with that text; when no text was entered twice these
    are the exchanges the save command saves. *)
Theorem indexed_exchanges_transcript (opening : string)
    (exchanges : list (string * string)) :
  indexed_exchanges (chat_of opening exchanges) =
    Ok (map (fun p => (p.1, first_reply p.1 exchanges p.2)) exchanges) /\
  (List.NoDup (map fst exchanges) ->
   indexed_exchanges (chat_of opening exchanges) =
     Ok (saved_exchanges (chat_of opening exchanges))).
Proof.
  assert (H : indexed_exchanges (chat_of opening exchanges) =
              Ok (map (fun p => (p.1, first_reply p.1 exchanges p.2)) exchanges)).
  { unfold indexed_exchanges.
    change (drop 1 (chat_of opening exchanges)) with (transcript exchanges).
    apply indexed_exchanges_from. intros p Hp. apply (in_map fst _ _ Hp). }
  split; [exact H|].
  intros Hnd. rewrite H, first_reply_own by exact Hnd. f_equal. symmetry.
  unfold saved_exchanges, chat_of. cbn [imap omap].
  unfold exchange_at at 1. cbn [role assistant_msg]. simpl String.eqb.
  cbn [option_bind mbind id].
  apply (saved_exchanges_from (assistant_msg opening :: transcript exchanges) 1).
  reflexivity.
Qed.

(** An input entered twice: the second is saved with the first reply. *)
Example indexed_exchanges_repeated :
  indexed_exchanges (chat_of "Hello" [("yes", "Why?"); ("yes", "Saved.")]) =
    Ok [("yes", "Why?"); ("yes", "Why?")] /\
  saved_exchanges (chat_of "Hello" [("yes", "Why?"); ("yes", "Saved.")]) =
    [("yes", "Why?"); ("yes", "Saved.")].
Proof. split; reflexivity. Qed.

(** ** The decisions the page saves *)

(** X23. A decision saved from the page is a new, pending decision.  The
    data the page passes holds no id, so the local store files the
    decision under the generated id, in front of the stored ones; and
    since the page writes no other status than [pending], in a store that
    holds pending decisions only the analytics page counts no completed
    decision and counts every listed decision as pending, after the save
    as before. *)
Theorem json_page_save_pending (user_id : Z)
    (title description goal constraints alternatives : val)
    (final_choice reasoning expected_outcome : val)
    (fresh now : string) (s : Json.store) :
  json_decisions_okb s = true ->
  String.eqb fresh "" = false ->
  existsb (is_decision (VStr fresh) user_id) (Json.decisions s) = false ->
  json_all_pending s = true ->
  let data := page_decision_data title description goal constraints
                alternatives final_choice reasoning expected_outcome in
  exists s' l,
    Json.save_decision user_id data fresh now s = Ok (VStr fresh, s') /\
    Json.decisions s' =
      Json.decision_payload (VStr fresh) user_id data now :: Json.decisions s /\
    json_all_pending s' = true /\
    Json.get_user_decisions user_id None s' = Ok l /\
    count_status "completed" l = 0%nat /\
    count_status "pending" l = length l.
Proof.
  intros Hokb Hfresh Hfree Hpend data.
  pose proof (json_decisions_okb_ok s Hokb) as Hok.
  assert (Hid : py_or (getd data "id" VNone) (VStr fresh) = VStr fresh)
    by reflexivity.
  pose proof (json_save_decision_ok user_id data fresh now s) as Hkeep.
  destruct (json_save_decision_cases user_id data fresh now s Hok)
    as [(l1 & d & l2 & Hl & _ & Hd & _) | [_ Hsave]]; rewrite Hid in *.
  { rewrite Hl, existsb_app in Hfree. simpl in Hfree. rewrite Hd in Hfree.
    rewrite orb_true_r in Hfree. discriminate. }
  set (p := Json.decision_payload (VStr fresh) user_id data now) in *.
  assert (Hp : py_eq (getd p "outcome_status" VNone) (VStr "pending") = true)
    by reflexivity.
  assert (Hpend' : json_all_pending (Json.save_decisions (p :: Json.decisions s) s)
                   = true).
  { unfold json_all_pending in *. simpl. rewrite Hp. exact Hpend. }
  eexists. eexists. split; [exact Hsave|]. split; [reflexivity|].
  split; [exact Hpend'|].
  split; [apply json_get_user_decisions_eq; eapply Hkeep; [exact Hok | exact Hsave]|].
  cbv zeta.
  set (l := json_newest_first user_id _).
  assert (Hall : forall x, In x l ->
            py_eq (getd x "outcome_status" VNone) (VStr "pending") = true).
  { intros x Hx. unfold l in Hx.
    eapply Permutation_in in Hx; [|apply json_newest_first_perm].
    apply List.filter_In in Hx as [Hx _].
    unfold json_all_pending in Hpend'. rewrite forallb_forall in Hpend'.
    apply Hpend', Hx. }
  unfold count_status. split.
  - rewrite filter_none; [reflexivity|].
    apply Forall_forall. intros x Hx. apply list_elem_of_In, Hall in Hx.
    apply py_eq_str_iff in Hx.
    destruct (py_eq (getd x "outcome_status" VNone) (VStr "completed")) eqn:E;
      [|reflexivity].
    apply py_eq_str_iff in E. congruence.
  - rewrite filter_all_true_on by exact Hall. reflexivity.
Qed.

Lemma json_page_save_pending_witness :
  exists s' l,
    Json.save_decision 1
      (page_decision_data (VStr "Move") (VStr "Move to Pune") (VStr "Growth")
         (VList []) (VList []) (VStr "Yes") (VStr "Pay") (VStr "Better job"))
      "uuid-1" "2024-01-01T00:00:00" Json.empty = Ok (VStr "uuid-1", s') /\
    Json.get_user_decisions 1 None s' = Ok l /\
    count_status "completed" l = 0%nat /\
    count_status "pending" l = length l.
Proof.
  destruct (json_page_save_pending 1 (VStr "Move") (VStr "Move to Pune")
              (VStr "Growth") (VList []) (VList []) (VStr "Yes") (VStr "Pay")
              (VStr "Better job") "uuid-1" "2024-01-01T00:00:00" Json.empty)
    as (s' & l & A & _ & _ & B & C & D); try reflexivity.
  exists s', l. auto.
Defined.

(** ** The settings page *)

(** X24. The settings page sends both flags, and with both flags in the
    payload the two stores agree: after [update_user_preferences],
    [get_user_preferences] of the user returns the two values of the
    checkboxes, whatever was stored before. *)
Theorem settings_update_then_get (user_id : Z) (remote_user : string)
    (share_with_ai view_chat : bool) (s : Json.store) (t : Firestore.store) :
  json_prefs_okb s = true ->
  (exists s',
     Json.update_user_preferences user_id
       (settings_payload share_with_ai view_chat) s = Ok (true, s') /\
     Json.get_user_preferences user_id s' =
       Ok (Json.prefs_view share_with_ai view_chat)) /\
  Firestore.get_user_preferences remote_user
    (Firestore.update_user_preferences remote_user
       (settings_payload share_with_ai view_chat) t).2 =
    Json.prefs_view share_with_ai view_chat.
Proof.
  intros Hok. split.
  - destruct (json_update_preferences_retains user_id
                (settings_payload share_with_ai view_chat) s Hok)
      as (a & b & s' & _ & Hup & Hget).
    exists s'. split; [exact Hup|]. rewrite Hget. reflexivity.
  - rewrite fs_update_preferences_resets. reflexivity.
Qed.

Lemma settings_update_then_get_witness :
  (exists s',
     Json.update_user_preferences 1 (settings_payload false false) json_sharing =
       Ok (true, s') /\
     Json.get_user_preferences 1 s' = Ok (Json.prefs_view false false)) /\
  Firestore.get_user_preferences "u1"
    (Firestore.update_user_preferences "u1" (settings_payload false false)
       fs_sharing).2 = Json.prefs_view false false.
Proof.
  apply (settings_update_then_get 1 "u1" false false json_sharing fs_sharing).
  reflexivity.
Defined.
